(** * vscode-colab: the login / tunnel protocol driver

    A shallow embedding of [src/vscode_colab/server.py] (with the parts of
    [system.py] and [environment/git_handler.py] it calls) and the
    properties of the driver stated in the specification; then the
    whole of [system.py] over the library calls it makes, and of
    [environment/project_setup.py] over the facade, with further
    properties of the code.

    Modelling choices:
    - the [System] facade and what lies outside it ([Popen], the notebook
      display, the environment set-up) answer from an abstract world [W],
      so every statement holds for the real facade and for any stand-in;
    - a launched process is the finite list of the reads the loop will
      make of its output, each with the clock value and the exit status
      the driver sees at that point; a run that returns has made
      finitely many reads, and a read that never returns ends the list:
      the run then has no result;
    - the notebook displays may raise any exception;
    - clock values are rationals, in seconds;
    - calls to [logger] are left out: they change neither results nor
      the process;
    - the methods of the class [System] answer from the calls they make
      to [subprocess], [os], [shutil], [requests] and [importlib], kept
      abstract in a record; what the documentation of [subprocess.run]
      says of [capture_output] is a hypothesis where it is used.

    Layout:
    - [PyStr]: Python text as lists of code points, [in], [os.path.join];
    - [Regex]: a backtracking matcher with Python's leftmost / greedy
      semantics, and the three patterns compiled by [server.py];
    - [Scanner]: the per-line token recognition of [login];
    - [Effects]: exceptions, the event trace, the state-and-error monad;
    - [Driver]: [download_vscode_cli], [configure_git], [login], [connect];
    - [Exc], [Facade], [SystemPy]: Python's exception classes, the
      interface of the facade, the class [System];
    - [ProjectSetup]: the functions of [project_setup.py];
    - [Machine]: a small file system to run the code on;
    - the theorems of the specification, then the further properties. *)

From Stdlib Require Import QArith.
From stdpp Require Import base option list sorting gmap strings.

Local Close Scope Q_scope.
Local Open Scope nat_scope.

(* ===================================================================== *)
(** ** Python text *)
(* ===================================================================== *)

Module PyStr.

(** A Python [str] is a sequence of Unicode code points. *)
Definition char : Type := N.
Definition str : Type := list char.

(** Reading an ASCII literal of this file as a Python string. *)
Fixpoint pystr (s : string) : str :=
  match s with
  | EmptyString => []
  | String a s' => Ascii.N_of_ascii a :: pystr s'
  end.

(** [needle in hay] for two strings. *)
Fixpoint starts_with (p s : str) : bool :=
  match p, s with
  | [], _ => true
  | _ :: _, [] => false
  | a :: p', b :: s' => (a =? b)%N && starts_with p' s'
  end.

Fixpoint contains (needle hay : str) : bool :=
  starts_with needle hay ||
  match hay with
  | [] => false
  | _ :: hay' => contains needle hay'
  end.

(** [s] with the prefix [p] removed, when [s] starts with [p]. *)
Fixpoint strip_prefix (p s : str) : option str :=
  match p, s with
  | [], _ => Some s
  | _ :: _, [] => None
  | a :: p', b :: s' => if (a =? b)%N then strip_prefix p' s' else None
  end.

(** Truth value of an [Optional[str]]: [None] and [""] are falsy. *)
Definition truthy (o : option str) : bool :=
  match o with
  | Some (_ :: _) => true
  | _ => false
  end.

Definition slash : char := 47%N.
Definition hyphen : char := 45%N.
Definition underscore : char := 95%N.

(** [os.path.join(a, b)] on POSIX, for two components. *)
Definition path_join (a b : str) : str :=
  match b with
  | c :: _ =>
      if (c =? slash)%N then b
      else match last a with
           | None => b
           | Some l => if (l =? slash)%N then a ++ b else a ++ slash :: b
           end
  | [] =>
      match last a with
      | None => []
      | Some l => if (l =? slash)%N then a else a ++ [slash]
      end
  end.

(** [s] occurs in [l] as a contiguous block. *)
Definition substring (s l : str) : Prop :=
  ∃ pre post, l = pre ++ s ++ post.

(** Python's ordering of [str]: lexicographic on code points. *)
Fixpoint str_leb (a b : str) : bool :=
  match a, b with
  | [], _ => true
  | _ :: _, [] => false
  | x :: a', y :: b' =>
      if (x <? y)%N then true
      else if (x =? y)%N then str_leb a' b'
      else false
  end.

Definition str_le (a b : str) : Prop := str_leb a b = true.

End PyStr.
Export PyStr.

(* ===================================================================== *)
(** ** Regular expressions, as [re] evaluates them *)
(* ===================================================================== *)

Module Regex.

(** The fragment of pattern syntax used by [server.py]: literals, a
    character class under a counted greedy repetition ([c{lo,hi}], with
    [c+] as [c{1,}]), a greedy optional group and concatenation. *)
Inductive re : Type :=
  | RLit (l : str)
  | RSet (p : char → bool) (lo : nat) (hi : option nat)
  | ROpt (r : re)
  | RSeq (r1 r2 : re).

Definition may_take (hi : option nat) : bool :=
  match hi with
  | Some 0 => false
  | _ => true
  end.

(** Greedy counted repetition of a class, then the continuation [k];
    on failure of what follows, give one character back at a time. *)
Fixpoint rep (p : char → bool) (lo : nat) (hi : option nat)
    (s : str) (k : str → option str) {struct s} : option str :=
  let stop := match lo with 0 => k s | S _ => None end in
  match s with
  | c :: s' =>
      if p c && may_take hi then
        match rep p (pred lo) (pred <$> hi) s' k with
        | Some r => Some r
        | None => stop
        end
      else stop
  | [] => stop
  end.

(** [re_match r s k]: match [r] at the head of [s], then [k] on what is
    left; the result is the text remaining after the whole match. *)
Fixpoint re_match (r : re) (s : str) (k : str → option str) : option str :=
  match r with
  | RLit l =>
      match strip_prefix l s with
      | Some s' => k s'
      | None => None
      end
  | RSet p lo hi => rep p lo hi s k
  | ROpt r1 =>
      match re_match r1 s k with
      | Some rest => Some rest
      | None => k s
      end
  | RSeq r1 r2 => re_match r1 s (λ s', re_match r2 s' k)
  end.

(** [pattern.match(s)]: [group(0)] of a match anchored at the start. *)
Definition match_at (r : re) (s : str) : option str :=
  match re_match r s Some with
  | Some rest => Some (take (length s - length rest) s)
  | None => None
  end.

(** [pattern.search(s)]: the leftmost start position that matches, with
    its [group(0)]. *)
Fixpoint re_search (r : re) (s : str) : option (nat * str) :=
  match match_at r s with
  | Some m => Some (0, m)
  | None =>
      match s with
      | [] => None
      | _ :: s' =>
          match re_search r s' with
          | Some (i, m) => Some (S i, m)
          | None => None
          end
      end
  end.

Definition search_group0 (r : re) (s : str) : option str :=
  snd <$> re_search r s.

(** [\s] on [str] patterns: the code points Python classifies as white
    space. *)
Definition is_space (c : char) : bool :=
  ((9 <=? c) && (c <=? 13) || (28 <=? c) && (c <=? 32)
   || (c =? 133) || (c =? 160) || (c =? 5760)
   || (8192 <=? c) && (c <=? 8202)
   || (c =? 8232) || (c =? 8233) || (c =? 8239) || (c =? 8287)
   || (c =? 12288))%N.

(** [[A-Z0-9]]. *)
Definition upper_alnum (c : char) : bool :=
  ((65 <=? c) && (c <=? 90) || (48 <=? c) && (c <=? 57))%N.

(** [login]: [re.compile(r"https?://[^\s]+")]. *)
Definition url_re : re :=
  RSeq (RLit (pystr "http"))
    (RSeq (ROpt (RLit (pystr "s")))
       (RSeq (RLit (pystr "://"))
          (RSet (λ c, negb (is_space c)) 1 None))).

(** [login]: [re.compile(r"([A-Z0-9]{4,8}-[A-Z0-9]{4,8})")]. *)
Definition code_re : re :=
  RSeq (RSet upper_alnum 4 (Some 8))
    (RSeq (RLit (pystr "-"))
       (RSet upper_alnum 4 (Some 8))).

(** [connect]:
    [re.compile(r"https://vscode\.dev/tunnel/[\w-]+(?:/[\w-]+)?")].
    [\w] is "alphanumeric in the Unicode database, or underscore"; the
    database is taken as the parameter [alnum]. *)
Definition word_or_hyphen (alnum : char → bool) (c : char) : bool :=
  alnum c || (c =? underscore)%N || (c =? hyphen)%N.

Definition tunnel_re (alnum : char → bool) : re :=
  RSeq (RLit (pystr "https://vscode.dev/tunnel/"))
    (RSeq (RSet (word_or_hyphen alnum) 1 None)
       (ROpt (RSeq (RLit (pystr "/"))
                (RSet (word_or_hyphen alnum) 1 None)))).

(** The ASCII part of the alphanumeric table. *)
Definition ascii_alnum (c : char) : bool :=
  (upper_alnum c || (97 <=? c) && (c <=? 122))%N.

End Regex.
Export Regex.

(* ===================================================================== *)
(** ** The line scanner of [login] *)
(* ===================================================================== *)

Module Scanner.

Definition device_login_fragment : str := pystr "github.com/login/device".

(** The two loop variables [auth_url_found] and [auth_code_found]. *)
Record tokens : Type := Tokens {
  auth_url_found : option str;
  auth_code_found : option str;
}.

Definition no_tokens : tokens := Tokens None None.

(** Lines 205-218 of [server.py]: what one line does to the two
    variables. *)
Definition scan_line (t : tokens) (line : str) : tokens :=
  let url :=
    if negb (truthy (auth_url_found t)) then
      match search_group0 url_re line with
      | Some um =>
          if contains device_login_fragment um then Some um
          else auth_url_found t
      | None => auth_url_found t
      end
    else auth_url_found t in
  let code :=
    if negb (truthy (auth_code_found t)) then
      match search_group0 code_re line with
      | Some cm => Some cm
      | None => auth_code_found t
      end
    else auth_code_found t in
  Tokens url code.

(** [auth_url_found and auth_code_found]. *)
Definition both_found (t : tokens) : bool :=
  truthy (auth_url_found t) && truthy (auth_code_found t).

End Scanner.
Export Scanner.

(* ===================================================================== *)
(** ** Effects: exceptions, events, the monad of the driver *)
(* ===================================================================== *)

Module Effects.

(** The two exception classes the handlers of [server.py] tell apart:
    [FileNotFoundError], and any other subclass of [Exception]. *)
Inductive exn : Type := FileNotFoundError | OtherException.

Inductive res (A : Type) : Type :=
  | Ok (a : A)
  | Raise (e : exn).
Arguments Ok {A} a.
Arguments Raise {A} e.

(** What a run of the driver comes to: the result of a call that
    returns, or nothing at all when a [readline] on the output of the
    process never returns.  A result is read as a run that returned
    it. *)
Inductive ran (A : Type) : Type :=
  | Returned (r : res A)
  | Blocked.
Arguments Returned {A} r.
Arguments Blocked {A}.
Coercion Returned : res >-> ran.
#[global] Arguments pair {A B}%_type_scope & a b.

(** [Popen(cmd_str, shell=True)] and [Popen(cmd_list)]. *)
Inductive popen_cmd : Type :=
  | ShellCmd (cmd : str)
  | ArgvCmd (argv : list str).

(** What the driver does to the outside world, in order. *)
Inductive event : Type :=
  | EvDownloadFile (url dest : str)
  | EvRunCommand (argv : list str)
  | EvRemoveFile (path : str)
  | EvChangePermissions (path : str) (mode : N)
  | EvSetupPython (version : str) (force : bool)
  | EvSetupProject (name base python venv : str)
  | EvPopen (cmd : popen_cmd) (cwd : option str) (spawned : bool)
  | EvPoll (exited : bool)
  | EvTerminate
  | EvWait
  | EvDisplayAuth (url code : str) (shown : bool)
  | EvDisplayTunnel (url name : str) (shown : bool).

(** One [proc.stdout.readline()] as the loop sees it: the text returned,
    the value [time.time()] has when the deadline is checked for it and
    whether the process has exited when [poll()] is next asked; or the
    read raising (a decoding or I/O error, never [FileNotFoundError]); or
    the read never returning, the process printing nothing more and
    keeping its output open. *)
Inductive read_event : Type :=
  | Line (now : Q) (text : str) (exited : bool)
  | ReadError (exited : bool)
  | Silence.

(** A launched process, as far as the driver can observe it.  Its output
    does not depend on the driver, which only reads, polls and
    terminates. *)
Record process : Type := Process {
  start_time : Q;
  reads : list read_event;
  exited_at_eof : bool;
  drain_raises : bool;
}.

(** The [Popen] object: [returncode] once seen is cached by [poll]. *)
Record handle : Type := Handle {
  returncode_seen : bool;
  has_exited : bool;
}.

(** Run-time state: the world behind the [System] facade, and the local
    variable [proc] ([None] until [Popen] has returned). *)
Record rt (W : Type) : Type := Rt {
  world : W;
  proc : option handle;
}.
Arguments Rt {W} world proc.
Arguments world {W} r.
Arguments proc {W} r.

(** State, exceptions and the events emitted. *)
Definition M (W A : Type) : Type := rt W → ran A * rt W * list event.

Section monad.
Context {W : Type}.

Definition ret {A} (a : A) : M W A := λ s, (Ok a, s, []).

Definition bind {A B} (m : M W A) (f : A → M W B) : M W B :=
  λ s,
    match m s with
    | (Returned (Ok a), s1, t1) =>
        match f a s1 with
        | (r, s2, t2) => (r, s2, t1 ++ t2)
        end
    | (Returned (Raise e), s1, t1) => (Raise e, s1, t1)
    | (Blocked, s1, t1) => (Blocked, s1, t1)
    end.

Definition raise {A} (e : exn) : M W A := λ s, (Raise e, s, []).

(** A call that never returns: nothing after it is run, no handler and
    no clean-up. *)
Definition block {A} : M W A := λ s, (Blocked, s, []).

Definition emit (ev : event) : M W unit := λ s, (Ok tt, s, [ev]).

(** [try: m  except ... as e: h e]. *)
Definition try_except {A} (m : M W A) (h : exn → M W A) : M W A :=
  λ s,
    match m s with
    | (Returned (Raise e), s1, t1) =>
        match h e s1 with
        | (r, s2, t2) => (r, s2, t1 ++ t2)
        end
    | other => other
    end.

(** A call into the world. *)
Definition call {A} (f : W → res A * W) : M W A :=
  λ s,
    match f (world s) with
    | (r, w) => (r, Rt w (proc s), [])
    end.

(** The process is seen to have exited, or not, from now on. *)
Definition observe (exited : bool) : M W unit :=
  λ s,
    (Ok tt,
     Rt (world s) ((λ h, Handle (returncode_seen h) exited) <$> proc s),
     []).

(** [proc.poll() is not None]. *)
Definition poll : M W bool :=
  λ s,
    match proc s with
    | None => (Raise OtherException, s, [])
    | Some h =>
        if returncode_seen h then (Ok true, s, [EvPoll true])
        else if has_exited h then
          (Ok true, Rt (world s) (Some (Handle true (has_exited h))),
           [EvPoll true])
        else (Ok false, s, [EvPoll false])
    end.

(** [proc.terminate()]. *)
Definition terminate : M W unit :=
  λ s,
    match proc s with
    | None => (Raise OtherException, s, [])
    | Some _ => (Ok tt, s, [EvTerminate])
    end.

(** [proc.wait()]: returns once the process has exited. *)
Definition wait : M W unit :=
  λ s,
    match proc s with
    | None => (Raise OtherException, s, [])
    | Some _ => (Ok tt, Rt (world s) (Some (Handle true true)), [EvWait])
    end.

End monad.

#[global] Instance M_ret {W} : MRet (M W) := λ A, @ret W A.
#[global] Instance M_bind {W} : MBind (M W) := λ A B f m, @bind W A B m f.

(** Where the launched process stands after a trace of events. *)
Inductive pstatus : Type :=
  | NotStarted   (* no process was launched *)
  | Running      (* launched; neither signalled nor seen to exit *)
  | Signalled    (* [terminate] sent, exit not yet awaited *)
  | Reaped.      (* exited, and its exit status collected *)

Definition step_status (s : pstatus) (e : event) : pstatus :=
  match e with
  | EvPopen _ _ true => Running
  | EvTerminate =>
      match s with
      | Running => Signalled
      | _ => s
      end
  | EvWait | EvPoll true =>
      match s with
      | NotStarted => NotStarted
      | _ => Reaped
      end
  | _ => s
  end.

Definition status_of (tr : list event) : pstatus :=
  foldl step_status NotStarted tr.

(** Whether a call returned rather than raised. *)
Definition returned {A} (r : res A) : bool :=
  match r with
  | Ok _ => true
  | Raise _ => false
  end.

(** The result, final state and trace of a run from world [w]. *)
Definition run {W A} (m : M W A) (w : W) : ran A * rt W * list event :=
  m (Rt w None).

Definition result_of {W A} (x : ran A * rt W * list event) : ran A := x.1.1.
Definition trace_of {W A} (x : ran A * rt W * list event) : list event := x.2.

End Effects.
Export Effects.

(* ===================================================================== *)
(** ** The driver: [server.py] *)
(* ===================================================================== *)

Module Driver.

(** [subprocess.CompletedProcess]. *)
Record completed : Type := Completed {
  returncode : Z;
  stdout : option str;
  stderr : option str;
}.

(** The [System] facade of [system.py], which callers inject: each method
    answers from the world and may change it or raise. *)
Record System (W : Type) : Type := {
  get_absolute_path : str → W → res str * W;
  get_cwd : W → res str * W;
  path_exists : str → W → res bool * W;
  file_exists : str → W → res bool * W;
  is_executable : str → W → res bool * W;
  which : str → W → res (option str) * W;
  download_file : str → str → W → res bool * W;
  remove_file : str → W → res unit * W;
  run_command : list str → W → res completed * W;
  get_permissions : str → W → res N * W;
  change_permissions : str → N → W → res unit * W;
}.
Arguments get_absolute_path {W} s path w.
Arguments get_cwd {W} s w.
Arguments path_exists {W} s path w.
Arguments file_exists {W} s path w.
Arguments is_executable {W} s path w.
Arguments which {W} s command w.
Arguments download_file {W} s url destination_path w.
Arguments remove_file {W} s path w.
Arguments run_command {W} s command w.
Arguments get_permissions {W} s path w.
Arguments change_permissions {W} s path mode w.

(** What [server.py] reaches outside the facade: [subprocess.Popen], the
    two notebook displays (which render a template and may raise any
    exception, [FileNotFoundError] included), the Python and project
    set-up of [vscode_colab.environment], and the Unicode table behind
    [\w]. *)
Record Host (W : Type) : Type := {
  Popen : popen_cmd → option str → W → res process * W;
  display_github_auth_link : str → str → W → res unit * W;
  display_vscode_connection_options : str → str → W → res unit * W;
  setup_and_get_python_executable : str → bool → W → res (option str) * W;
  setup_project_directory : str → str → str → str → W → res (option str) * W;
  unicode_alnum : char → bool;
}.
Arguments Popen {W} h cmd cwd w.
Arguments display_github_auth_link {W} h url code w.
Arguments display_vscode_connection_options {W} h tunnel_url tunnel_name w.
Arguments setup_and_get_python_executable {W} h python_version force w.
Arguments setup_project_directory {W} h project_name base_path python venv w.
Arguments unicode_alnum {W} h c.

(** [DEFAULT_EXTENSIONS]. *)
Definition DEFAULT_EXTENSIONS : gset str :=
  list_to_set
    [ pystr "mgesbert.python-path";
      pystr "ms-python.black-formatter";
      pystr "ms-python.isort";
      pystr "ms-python.python";
      pystr "ms-python.vscode-pylance";
      pystr "ms-python.debugpy";
      pystr "ms-toolsai.jupyter";
      pystr "ms-toolsai.jupyter-keymap";
      pystr "ms-toolsai.jupyter-renderers";
      pystr "ms-toolsai.tensorboard" ].

#[global] Instance str_le_dec (a b : str) : Decision (str_le a b).
Proof. unfold str_le. apply _. Defined.

(** [sorted(list(s))] for a set of strings. *)
Definition sorted (l : list str) : list str := merge_sort str_le l.

(** Lines 345-349: the set of extensions to install. *)
Definition final_extensions (include_default_extensions : bool)
    (extensions : option (list str)) : gset str :=
  let s0 : gset str := ∅ in
  let s1 := if include_default_extensions then s0 ∪ DEFAULT_EXTENSIONS else s0 in
  match extensions with
  | Some (e :: es) => s1 ∪ list_to_set (e :: es)
  | _ => s1
  end.

(** Lines 374-383: the argument vector of the tunnel. *)
Definition cmd_list (cli_exe_for_popen name : str) (exts : gset str)
    : list str :=
  let base :=
    [ cli_exe_for_popen; pystr "tunnel";
      pystr "--accept-server-license-terms"; pystr "--name"; name ] in
  if decide (exts = ∅) then base
  else
    foldl (λ acc ext_id, acc ++ [pystr "--install-extension"; ext_id])
      base (sorted (elements exts)).

(** [timeout_seconds = 60], and the test
    [time.time() - start_time > timeout_seconds]. *)
Definition timeout_seconds : Q := 60.

Definition timed_out (start now : Q) : bool :=
  negb (Qle_bool (now - start) timeout_seconds).

(** [connect]'s keyword arguments. *)
Record connect_args : Type := ConnectArgs {
  name : str;
  include_default_extensions : bool;
  extensions : option (list str);
  git_user_name : option str;
  git_user_email : option str;
  setup_python_version : option str;
  force_python_reinstall : bool;
  create_new_project : option str;
  new_project_base_path : str;
  venv_name_for_project : str;
}.

Definition default_args : connect_args :=
  ConnectArgs (pystr "colab") true None None None None false None
    (pystr ".") (pystr ".venv").

Section driver.
Context {W : Type} (system : System W) (host : Host W).

(** Facade calls that act on the world leave an event. *)
Definition sys_download_file (url dest : str) : M W bool :=
  emit (EvDownloadFile url dest);; call (download_file system url dest).

Definition sys_remove_file (path : str) : M W unit :=
  emit (EvRemoveFile path);; call (remove_file system path).

Definition sys_run_command (argv : list str) : M W completed :=
  emit (EvRunCommand argv);; call (run_command system argv).

Definition sys_change_permissions (path : str) (mode : N) : M W unit :=
  emit (EvChangePermissions path mode);;
  call (change_permissions system path mode).

(** [r.stderr.strip() if r.stderr else r.stdout.strip()]: only logged,
    but [None.strip()] raises. *)
Definition error_output (r : completed) : M W unit :=
  if truthy (stderr r) then mret tt
  else match stdout r with
       | Some _ => mret tt
       | None => raise OtherException
       end.

Definition cli_download_url : str :=
  pystr "https://code.visualstudio.com/sha/download?build=stable&os=cli-alpine-x64".

(** [download_vscode_cli(system, force_download)], lines 35-111. *)
Definition download_vscode_cli (force_download : bool) : M W bool :=
  let cli_executable_path := pystr "./code" in
  let cli_tarball_name := pystr "vscode_cli.tar.gz" in
  abs_cli_tarball_path ← call (get_absolute_path system cli_tarball_name);
  abs_cli_executable_path ← call (get_absolute_path system cli_executable_path);
  present ← call (path_exists system abs_cli_executable_path);
  if present && negb force_download then mret true
  else
    download_success ← sys_download_file cli_download_url abs_cli_tarball_path;
    if negb download_success then mret false
    else
      tar_exe ← call (which system (pystr "tar"));
      if negb (truthy tar_exe) then
        sys_remove_file abs_cli_tarball_path;; mret false
      else
        let extract_cmd :=
          [default [] tar_exe; pystr "-xf"; abs_cli_tarball_path] in
        extract_result ← sys_run_command extract_cmd;
        sys_remove_file abs_cli_tarball_path;;
        if negb (returncode extract_result =? 0)%Z then
          error_output extract_result;; mret false
        else
          extracted ← call (path_exists system abs_cli_executable_path);
          if negb extracted then mret false
          else
            actual_cli_binary ←
              call (get_absolute_path system
                      (path_join abs_cli_executable_path (pystr "code")));
            is_file ← call (file_exists system actual_cli_binary);
            (if (is_file : bool) then
               try_except
                 (current_mode ← call (get_permissions system actual_cli_binary);
                  sys_change_permissions actual_cli_binary
                    (N.lor current_mode 73))
                 (λ _, mret tt)
             else mret tt);;
            mret true.

(** [configure_git(system, git_user_name, git_user_email)]. *)
Definition configure_git (user_name user_email : option str) : M W bool :=
  if negb (truthy user_name) && negb (truthy user_email) then mret true
  else if truthy user_name && negb (truthy user_email)
          || truthy user_email && negb (truthy user_name) then mret true
  else
    name_ok ←
      (if truthy user_name then
         result_name ← sys_run_command
           [pystr "git"; pystr "config"; pystr "--global";
            pystr "user.name"; default [] user_name];
         if (returncode result_name =? 0)%Z then mret true
         else error_output result_name;; mret false
       else mret true);
    if negb name_ok then mret false
    else if truthy user_email then
      result_email ← sys_run_command
        [pystr "git"; pystr "config"; pystr "--global";
         pystr "user.email"; default [] user_email];
      if (returncode result_email =? 0)%Z then mret true
      else error_output result_email;; mret false
    else mret true.

(** [subprocess.Popen(..., stdout=PIPE, ...)]: on success the local
    [proc] is bound.  With [stdout=PIPE] the attribute [proc.stdout] is
    a stream, never [None]: the guard [if proc.stdout is None] that
    follows the call in [login] and [connect] is not taken and has no
    counterpart here. *)
Definition popen (cmd : popen_cmd) (cwd : option str) : M W process :=
  λ s,
    match Popen host cmd cwd (world s) with
    | (Ok p, w) =>
        (Ok p, Rt w (Some (Handle false false)), [EvPopen cmd cwd true])
    | (Raise e, w) => (Raise e, Rt w (proc s), [EvPopen cmd cwd false])
    end.

(** The two displays, called inside the [try] of [login] and of
    [connect]: what the call raises is raised there.  The event records
    whether the call returned. *)
Definition show_login_prompt (url code : str) : M W unit :=
  λ s,
    match display_github_auth_link host url code (world s) with
    | (r, w) => (r, Rt w (proc s), [EvDisplayAuth url code (returned r)])
    end.

Definition show_tunnel_ready (url tunnel_name : str) : M W unit :=
  λ s,
    match display_vscode_connection_options host url tunnel_name (world s) with
    | (r, w) =>
        (r, Rt w (proc s), [EvDisplayTunnel url tunnel_name (returned r)])
    end.

(** [if proc.poll() is None: proc.terminate(); proc.wait()]. *)
Definition terminate_if_alive : M W unit :=
  exited ← poll;
  if (exited : bool) then mret tt else terminate;; wait.

(** The two [except] clauses shared by [login] and [connect]:
    [FileNotFoundError] returns the failure value at once; any other
    exception first cleans up [if proc and proc.poll() is None]. *)
Definition on_exception {A} (failure : A) (e : exn) : M W A :=
  match e with
  | FileNotFoundError => mret failure
  | OtherException =>
      (λ s,
         match proc s with
         | Some _ => terminate_if_alive s
         | None => (Ok tt, s, [])
         end);;
      mret failure
  end.

(** Lines 228-237: after the [for] loop of [login]. *)
Definition login_after_loop (t : tokens) : M W bool :=
  if negb (both_found t) then terminate_if_alive;; mret false
  else mret true.

(** Lines 195-226: the [for] loop of [login], over the reads to come.
    [iter(readline, "")] ends at the first empty read; the deadline is
    tested once a line has been read, so that a read that does not
    return leaves the loop waiting, whatever the time. *)
Fixpoint login_loop (p : process) (rs : list read_event) (t : tokens)
    : M W bool :=
  match rs with
  | [] => observe (exited_at_eof p);; login_after_loop t
  | ReadError exited :: _ => observe exited;; raise OtherException
  | Silence :: _ => block
  | Line now text exited :: rs' =>
      match text with
      | [] => observe (exited_at_eof p);; login_after_loop t
      | _ :: _ =>
          observe exited;;
          if timed_out (start_time p) now then
            terminate;; wait;; mret false
          else
            let t' := scan_line t text in
            if both_found t' then
              show_login_prompt (default [] (auth_url_found t'))
                (default [] (auth_code_found t'));;
              mret true
            else
              ended ← poll;
              if (ended : bool) then login_after_loop t'
              else login_loop p rs' t'
      end
  end.

(** Lines 163-249: launch and monitor. *)
Definition login_monitor (cli_exe_path provider : str) : M W bool :=
  let cmd_str :=
    cli_exe_path ++ pystr " tunnel user login --provider " ++ provider in
  try_except
    (p ← popen (ShellCmd cmd_str) None;
     login_loop p (reads p) no_tokens)
    (on_exception false).

(** [login(system, provider)]. *)
Definition login (provider : str) : M W bool :=
  cli_exe_dir_path ← call (get_absolute_path system (pystr "./code"));
  cli_exe_path ←
    call (get_absolute_path system (path_join cli_exe_dir_path (pystr "code")));
  executable ← call (is_executable system cli_exe_path);
  if negb executable then
    downloaded ← download_vscode_cli false;
    if negb downloaded then mret false
    else
      executable' ← call (is_executable system cli_exe_path);
      if negb executable' then mret false
      else login_monitor cli_exe_path provider
  else login_monitor cli_exe_path provider.

(** Lines 411-439: the [for] loop of [connect] and what follows it.  The
    result is [true] for "return proc" and [false] for "return None". *)
Definition connect_eof : M W bool :=
  exited ← poll;
  (if (exited : bool) then mret tt else terminate;; wait);;
  mret false.

Fixpoint connect_loop (tunnel_name : str) (p : process)
    (rs : list read_event) : M W bool :=
  match rs with
  | [] => observe (exited_at_eof p);; connect_eof
  | ReadError exited :: _ => observe exited;; raise OtherException
  | Silence :: _ => block
  | Line now text exited :: rs' =>
      match text with
      | [] => observe (exited_at_eof p);; connect_eof
      | _ :: _ =>
          observe exited;;
          if timed_out (start_time p) now then
            terminate;; wait;; mret false
          else
            match search_group0 (tunnel_re (unicode_alnum host)) text with
            | Some tunnel_url =>
                show_tunnel_ready tunnel_url tunnel_name;; mret true
            | None =>
                ended ← poll;
                if (ended : bool) then
                  (if drain_raises p then raise OtherException else mret tt);;
                  mret false
                else connect_loop tunnel_name p rs'
            end
      end
  end.

(** Lines 374-450: launch and monitor the tunnel. *)
Definition connect_monitor (cli_exe_for_popen : str) (a : connect_args)
    (cwd : str) : M W bool :=
  let cmd :=
    cmd_list cli_exe_for_popen (name a)
      (final_extensions (include_default_extensions a) (extensions a)) in
  try_except
    (p ← popen (ArgvCmd cmd) (Some cwd);
     connect_loop (name a) p (reads p))
    (on_exception false).

(** [connect(system, name, ...)]; [true] stands for the handle [proc]. *)
Definition connect (a : connect_args) : M W bool :=
  available ← download_vscode_cli false;
  if negb available then mret false
  else
    (if truthy (git_user_name a) && truthy (git_user_email a) then
       configure_git (git_user_name a) (git_user_email a);; mret tt
     else mret tt);;
    cwd0 ← call (get_cwd system);
    python_executable_for_venv ←
      (if truthy (setup_python_version a) then
         let version := default [] (setup_python_version a) in
         emit (EvSetupPython version (force_python_reinstall a));;
         pyenv_res ← call (setup_and_get_python_executable host version
                             (force_python_reinstall a));
         mret (default (pystr "python3") pyenv_res)
       else mret (pystr "python3"));
    project_path_for_tunnel_cwd ←
      (if truthy (create_new_project a) then
         let project := default [] (create_new_project a) in
         abs_new_project_base_path ←
           call (get_absolute_path system (new_project_base_path a));
         emit (EvSetupProject project abs_new_project_base_path
                 python_executable_for_venv (venv_name_for_project a));;
         created_project_path ←
           call (setup_project_directory host project
                   abs_new_project_base_path python_executable_for_venv
                   (venv_name_for_project a));
         mret (if truthy created_project_path
               then default [] created_project_path else cwd0)
       else mret cwd0);
    _ ← call (get_cwd system);
    cwd1 ← call (get_cwd system);
    cli_dir_abs_path ←
      call (get_absolute_path system (path_join cwd1 (pystr "code")));
    cli_exe_abs_path ←
      call (get_absolute_path system (path_join cli_dir_abs_path (pystr "code")));
    executable ← call (is_executable system cli_exe_abs_path);
    if negb executable then
      downloaded ← download_vscode_cli true;
      if negb downloaded then mret false
      else
        cli_exe_for_popen ← call (get_absolute_path system (pystr "./code/code"));
        executable' ← call (is_executable system cli_exe_for_popen);
        if negb executable' then mret false
        else connect_monitor cli_exe_for_popen a project_path_for_tunnel_cwd
    else connect_monitor cli_exe_abs_path a project_path_for_tunnel_cwd.

End driver.

End Driver.
Export Driver.

(* ===================================================================== *)
(** ** Vocabulary of the specification *)
(* ===================================================================== *)

Module Vocabulary.

(** The language of a pattern: the strings it can match, whatever the
    order in which the matcher tries them. *)
Fixpoint lang (r : re) (m : str) : Prop :=
  match r with
  | RLit l => m = l
  | RSet p lo hi =>
      Forall (λ c, p c = true) m ∧ lo ≤ length m ∧
      match hi with
      | Some h => length m ≤ h
      | None => True
      end
  | ROpt r1 => m = [] ∨ lang r1 m
  | RSeq r1 r2 => ∃ m1 m2, m = m1 ++ m2 ∧ lang r1 m1 ∧ lang r2 m2
  end.

(** "Two groups of 4 to 8 uppercase alphanumerics joined by a hyphen". *)
Definition code_shaped (c : str) : Prop :=
  ∃ g1 g2,
    c = g1 ++ hyphen :: g2 ∧
    Forall (λ x, upper_alnum x = true) g1 ∧
    Forall (λ x, upper_alnum x = true) g2 ∧
    4 ≤ length g1 ≤ 8 ∧ 4 ≤ length g2 ≤ 8.

(** "Any [http://] or [https://] token up to the next white space". *)
Definition url_shaped (u : str) : Prop :=
  ∃ body,
    (u = pystr "http://" ++ body ∨ u = pystr "https://" ++ body) ∧
    body ≠ [] ∧ Forall (λ x, is_space x = false) body.

(** What one line, taken alone, yields for each token. *)
Definition url_of_line (line : str) : option str :=
  match search_group0 url_re line with
  | Some um => if contains device_login_fragment um then Some um else None
  | None => None
  end.

Definition code_of_line (line : str) : option str :=
  search_group0 code_re line.

(** The first line of a sequence that yields a token, and the token. *)
Fixpoint first_match (f : str → option str) (lines : list str)
    : option str :=
  match lines with
  | [] => None
  | l :: ls =>
      match f l with
      | Some m => Some m
      | None => first_match f ls
      end
  end.

(** The texts of the reads of a process, in order. *)
Definition line_texts (rs : list read_event) : list str :=
  omap (λ r, match r with
             | Line _ text _ => Some text
             | ReadError _ | Silence => None
             end) rs.

(** The variables after the lines [lines], from the state [t]. *)
Definition scan_lines (t : tokens) (lines : list str) : tokens :=
  foldl scan_line t lines.



(** A read that does not by itself stop the loop: a non-empty line, read
    before the deadline, with the process still running afterwards. *)
Definition undisturbed (start : Q) (r : read_event) : Prop :=
  match r with
  | Line now text exited =>
      text ≠ [] ∧ timed_out start now = false ∧ exited = false
  | ReadError _ | Silence => False
  end.


(** The events of the preparatory steps: none of them touches a
    launched process. *)
Definition preamble_event (e : event) : Prop :=
  match e with
  | EvDownloadFile _ _ | EvRunCommand _ | EvRemoveFile _
  | EvChangePermissions _ _ | EvSetupPython _ _
  | EvSetupProject _ _ _ _ => True
  | _ => False
  end.

(** [n] polls in a row that find the process running. *)
Definition polls (n : nat) : list event := replicate n (EvPoll false).

(** The ways the driver ends its dealings with a running process it does
    not hand back: time-out or end of stream with the process alive
    ([terminate], [wait]), or the process seen to have exited. *)
Definition reaping (tail : list event) : Prop :=
  tail = [EvTerminate; EvWait] ∨
  tail = [EvPoll false; EvTerminate; EvWait] ∨
  tail = [EvPoll true] ∨
  tail = [EvPoll true; EvPoll true].

Definition is_download (e : event) : Prop :=
  match e with EvDownloadFile _ _ => True | _ => False end.

Definition is_popen (e : event) : Prop :=
  match e with EvPopen _ _ _ => True | _ => False end.

Definition is_display_auth (e : event) : Prop :=
  match e with EvDisplayAuth _ _ _ => True | _ => False end.

Definition is_display_tunnel (e : event) : Prop :=
  match e with EvDisplayTunnel _ _ _ => True | _ => False end.

#[global] Instance is_download_dec e : Decision (is_download e).
Proof. destruct e; simpl; apply _. Defined.
#[global] Instance is_popen_dec e : Decision (is_popen e).
Proof. destruct e; simpl; apply _. Defined.
#[global] Instance is_display_auth_dec e : Decision (is_display_auth e).
Proof. destruct e; simpl; apply _. Defined.
#[global] Instance is_display_tunnel_dec e : Decision (is_display_tunnel e).
Proof. destruct e; simpl; apply _. Defined.

(** The run of [m] from the world [w] goes through its preparatory
    steps, with the events [tr0], and enters the guarded block [k] in the
    world [w']. *)
Definition enters {W : Type} (m k : M W bool) (w : W) (tr0 : list event)
    (w' : W) : Prop :=
  Forall preamble_event tr0 ∧
  run m w = (let x := run k w' in (x.1.1, x.1.2, tr0 ++ x.2)).

(** Lines 146-149 of [login] find the CLI at [cli], executable
    ([ok = true]) or not, and leave the world [w']. *)
Definition cli_checked {W : Type} (system : System W) (w : W) (cli : str)
    (ok : bool) (w' : W) : Prop :=
  ∃ dir w1 w2,
    get_absolute_path system (pystr "./code") w = (Ok dir, w1) ∧
    get_absolute_path system (path_join dir (pystr "code")) w1 = (Ok cli, w2) ∧
    is_executable system cli w2 = (Ok ok, w').

(** [cmd_str] of [login]. *)
Definition login_cmd (cli provider : str) : popen_cmd :=
  ShellCmd (cli ++ pystr " tunnel user login --provider " ++ provider).

(** [cmd_list] of [connect], as passed to [Popen]. *)
Definition connect_cmd (cli : str) (a : connect_args) : popen_cmd :=
  ArgvCmd (cmd_list cli (name a)
             (final_extensions (include_default_extensions a) (extensions a))).

(** How many events of a trace satisfy [P]. *)
Definition count (P : event → Prop) `{!∀ e, Decision (P e)}
    (tr : list event) : nat :=
  length (filter P tr).

(** Neither notebook display raises [FileNotFoundError]. *)
Definition displays_found {W : Type} (host : Host W) : Prop :=
  (∀ url code w,
     (display_github_auth_link host url code w).1 ≠ Raise FileNotFoundError) ∧
  (∀ url tunnel_name w,
     (display_vscode_connection_options host url tunnel_name w).1
       ≠ Raise FileNotFoundError).

(** Every read of the output of a process the host launches returns. *)
Definition reads_return {W : Type} (host : Host W) : Prop :=
  ∀ cmd cwd w p w', Popen host cmd cwd w = (Ok p, w') → Silence ∉ reads p.

End Vocabulary.
Export Vocabulary.

(* ===================================================================== *)
(** ** Concrete worlds *)
(* ===================================================================== *)

Module Examples.

(** A host that launches the process [p] and whose notebook displays
    end as [display] says. *)
Definition host_with {W : Type} (p : process) (display : res unit) : Host W := {|
  Popen _ _ w := (Ok p, w);
  display_github_auth_link _ _ w := (display, w);
  display_vscode_connection_options _ _ w := (display, w);
  setup_and_get_python_executable _ _ w := (Ok None, w);
  setup_project_directory _ _ _ _ w := (Ok None, w);
  unicode_alnum := ascii_alnum;
|}.

(** [shows] tells whether the displays succeed; when they do not, they
    fail with an exception other than [FileNotFoundError]. *)
Definition host_of {W : Type} (p : process) (shows : bool) : Host W :=
  host_with p (if shows then Ok tt else Raise OtherException).

(** [os.path.abspath] with [/content] as working directory, for the
    paths of this file. *)
Definition abspath (path : str) : str :=
  if starts_with [slash] path then path
  else match strip_prefix (pystr "./") path with
       | Some rest => path_join (pystr "/content") rest
       | None => path_join (pystr "/content") path
       end.

(** The CLI is installed in [/content/code/code]. *)
Definition sys_ready : System unit := {|
  get_absolute_path path w := (Ok (abspath path), w);
  get_cwd w := (Ok (pystr "/content"), w);
  path_exists _ w := (Ok true, w);
  file_exists _ w := (Ok true, w);
  is_executable _ w := (Ok true, w);
  which _ w := (Ok (Some (pystr "/usr/bin/tar")), w);
  download_file _ _ w := (Ok true, w);
  remove_file _ w := (Ok tt, w);
  run_command _ w := (Ok (Completed 0 (Some []) None), w);
  get_permissions _ w := (Ok 493%N, w);
  change_permissions _ _ w := (Ok tt, w);
|}.


Definition device_line : str :=
  pystr "Open https://github.com/login/device and enter code WXYZ-1234".

Definition two_url_line : str :=
  pystr "See http://aka.ms/help or https://github.com/login/device code WXYZ-1234".

Definition tunnel_line : str :=
  pystr "Open this link in your browser https://vscode.dev/tunnel/colab/abc123".

(** The CLI prints the prompt and waits. *)
Definition prompt_process : process :=
  Process 0 [Line 1 (pystr "Starting login") false; Line 2 device_line false]
    false false.

(** The CLI prints a banner and the prompt, and has exited by the time
    the banner has been processed. *)
Definition hasty_process : process :=
  Process 0 [Line 1 (pystr "Starting login") true; Line 1 device_line true]
    true false.

(** The prompt comes on a line that starts with another URL. *)
Definition two_url_process : process :=
  Process 0 [Line 1 two_url_line false] false false.


Definition tunnel_process : process :=
  Process 0 [Line 1 (pystr "Connecting") false; Line 2 tunnel_line false]
    false false.

(** The tunnel dies after its first line. *)
Definition dying_process : process :=
  Process 0 [Line 1 (pystr "Connecting") true] true false.


(** The CLI prints nothing and keeps its output open. *)
Definition mute_process : process := Process 0 [Silence] false false.

(** The CLI prints one line and then nothing more, its output open. *)
Definition stalled_process : process :=
  Process 0 [Line 1 (pystr "Connecting") false; Silence] false false.

Definition github : str := pystr "github".

End Examples.
Import Examples.

(** [connect(..., extensions=e)] with the other arguments as in [a]. *)
Definition with_extensions (a : connect_args) (e : option (list str))
    : connect_args :=
  ConnectArgs (name a) (include_default_extensions a) e (git_user_name a)
    (git_user_email a) (setup_python_version a) (force_python_reinstall a)
    (create_new_project a) (new_project_base_path a) (venv_name_for_project a).

(* ===================================================================== *)
(** ** The facade as a whole: [system.py] *)
(* ===================================================================== *)

(** The exception classes that the handlers of [system.py] and of
    [environment/project_setup.py] tell apart.  All descend from
    [Exception]; [FileNotFoundError], [NotADirectoryError],
    [PermissionError] and [requests.exceptions.RequestException] descend
    from [OSError], of which [IOError] is another name. *)
Module Exc.

Inductive pyexn : Type :=
  | FileNotFoundError
  | NotADirectoryError
  | PermissionError
  | RequestException
  | OSError              (* an [OSError] of no class above *)
  | AttributeError
  | ValueError
  | CalledProcessError
  | Exception.           (* an [Exception] of no class above *)

#[global] Instance pyexn_eq_dec : EqDecision pyexn.
Proof. solve_decision. Defined.

(** [isinstance(e, cls)], which is how an [except cls] clause selects. *)
Definition isinstance (e cls : pyexn) : bool :=
  match cls with
  | Exception => true
  | OSError =>
      match e with
      | FileNotFoundError | NotADirectoryError | PermissionError
      | RequestException | OSError => true
      | _ => false
      end
  | _ => bool_decide (e = cls)
  end.

End Exc.

Abbreviation pyexn := Exc.pyexn.

(** A call returns a value or raises. *)
Inductive outcome (A : Type) : Type :=
  | Returns (a : A)
  | Raises (e : pyexn).
Arguments Returns {A} a.
Arguments Raises {A} e.

(** The pair [(value, error)] in which the facade reports a failure. *)
Definition report (A : Type) : Type := A * option pyexn.

(** The class [System] as its callers see it: each method answers from
    the world and may change it or raise.  The argument [log_success] of
    [remove_file] and [remove_dir] only selects log messages and is left
    out. *)
Module Facade.

Record Interface (W : Type) : Type := {
  run_command :
    list str → option str → option (gmap str str) → bool → bool → bool → bool →
    W → outcome completed * W;
  file_exists : str → W → outcome bool * W;
  dir_exists : str → W → outcome bool * W;
  path_exists : str → W → outcome bool * W;
  make_dirs : str → bool → W → outcome (report bool) * W;
  get_absolute_path : str → W → outcome str * W;
  which : str → W → outcome (option str) * W;
  remove_file : str → bool → W → outcome (report bool) * W;
  remove_dir : str → bool → bool → W → outcome (report bool) * W;
  read_package_asset : str → str → W → outcome (report (option str)) * W;
  write_file : str → str → str → option str → W → outcome (report bool) * W;
  read_file : str → str → option str → W → outcome (report (option str)) * W;
  get_cwd : W → outcome str * W;
  change_cwd : str → W → outcome (report bool) * W;
  download_file : str → str → Z → W → outcome (report bool) * W;
  expand_user_path : str → W → outcome str * W;
  get_env_var : str → option str → W → outcome (option str) * W;
  is_executable : str → W → outcome bool * W;
  change_permissions : str → N → W → outcome unit * W;
  get_permissions : str → W → outcome N * W;
  get_platform_system : W → outcome str * W;
  get_user_home_dir : W → outcome str * W;
}.
Arguments run_command {W} i command cwd env capture_output text check
  stderr_to_stdout w.
Arguments file_exists {W} i path w.
Arguments dir_exists {W} i path w.
Arguments path_exists {W} i path w.
Arguments make_dirs {W} i path exist_ok w.
Arguments get_absolute_path {W} i path w.
Arguments which {W} i command w.
Arguments remove_file {W} i path missing_ok w.
Arguments remove_dir {W} i path recursive missing_ok w.
Arguments read_package_asset {W} i asset_path encoding w.
Arguments write_file {W} i path content mode encoding w.
Arguments read_file {W} i path mode encoding w.
Arguments get_cwd {W} i w.
Arguments change_cwd {W} i path w.
Arguments download_file {W} i url destination_path timeout w.
Arguments expand_user_path {W} i path w.
Arguments get_env_var {W} i name default w.
Arguments is_executable {W} i path w.
Arguments change_permissions {W} i path mode w.
Arguments get_permissions {W} i path w.
Arguments get_platform_system {W} i w.
Arguments get_user_home_dir {W} i w.

(** What [server.py] and [git_handler.py] see of an exception of the
    facade: [FileNotFoundError] or not. *)
Definition to_exn (e : pyexn) : exn :=
  match e with
  | Exc.FileNotFoundError => Effects.FileNotFoundError
  | _ => OtherException
  end.

Definition to_res {A B} (f : A → B) (x : outcome A) : res B :=
  match x with
  | Returns a => Ok (f a)
  | Raises e => Raise (to_exn e)
  end.

(** The facade as [server.py] and [git_handler.py] call it:
    [run_command(cmd, capture_output=True, text=True)] with the other
    arguments at their defaults, [remove_file(path, missing_ok=True)],
    [download_file(url, path)], and the first component of the pairs,
    the only one that is used other than in log messages. *)
Definition as_called {W : Type} (i : Interface W) : System W := {|
  Driver.get_absolute_path path w :=
    let x := get_absolute_path i path w in (to_res id x.1, x.2);
  Driver.get_cwd w :=
    let x := get_cwd i w in (to_res id x.1, x.2);
  Driver.path_exists path w :=
    let x := path_exists i path w in (to_res id x.1, x.2);
  Driver.file_exists path w :=
    let x := file_exists i path w in (to_res id x.1, x.2);
  Driver.is_executable path w :=
    let x := is_executable i path w in (to_res id x.1, x.2);
  Driver.which command w :=
    let x := which i command w in (to_res id x.1, x.2);
  Driver.download_file url destination_path w :=
    let x := download_file i url destination_path 30 w in (to_res fst x.1, x.2);
  Driver.remove_file path w :=
    let x := remove_file i path true w in (to_res (λ _, tt) x.1, x.2);
  Driver.run_command command w :=
    let x := run_command i command None None true true false true w in
    (to_res id x.1, x.2);
  Driver.get_permissions path w :=
    let x := get_permissions i path w in (to_res id x.1, x.2);
  Driver.change_permissions path mode w :=
    let x := change_permissions i path mode w in (to_res id x.1, x.2);
|}.

End Facade.

(** The methods of [System], over the library calls they make. *)
Module SystemPy.

(** [subprocess.PIPE] and [subprocess.STDOUT]. *)
Inductive stream_arg : Type := PIPE | STDOUT.

(** The keyword arguments [run_command] hands to [subprocess.run]. *)
Record run_kwargs : Type := RunKwargs {
  kw_cwd : option str;
  kw_env : option (gmap str str);
  kw_capture_output : bool;
  kw_text : bool;
  kw_check : bool;
  kw_stdout : option stream_arg;
  kw_stderr : option stream_arg;
}.

(** The keyword arguments of [open]: the mode, and [encoding] when the
    key is set (to a value or to [None]). *)
Record open_kwargs : Type := OpenKwargs {
  kw_mode : str;
  kw_encoding : option (option str);
}.

(** The library under [system.py]: [os], [os.path], [shutil],
    [subprocess], [platform], [requests], [importlib.resources] and
    [open].  The tests of [os.path], [os.access], [shutil.which],
    [os.path.expanduser], [os.environ.get] and [platform.system] read the
    world and do not raise. *)
Record OS (W : Type) : Type := {
  Response : Type;
  subprocess_run : list str → run_kwargs → W → outcome completed * W;
  os_path_exists : str → W → bool;
  os_path_isfile : str → W → bool;
  os_path_isdir : str → W → bool;
  os_access_X_OK : str → W → bool;
  os_makedirs : str → bool → W → outcome unit * W;
  os_path_abspath : str → W → outcome str;
  shutil_which : str → W → option str;
  os_remove : str → W → outcome unit * W;
  shutil_rmtree : str → W → outcome unit * W;
  os_rmdir : str → W → outcome unit * W;
  resources_files_read_text : str → str → W → outcome str;
  resources_path_read_text : str → str → W → outcome str;
  open_write : str → open_kwargs → str → W → outcome unit * W;
  open_read : str → open_kwargs → W → outcome str;
  os_getcwd : W → outcome str;
  os_chdir : str → W → outcome unit * W;
  requests_get : str → Z → W → outcome Response * W;
  raise_for_status : Response → outcome unit;
  save_content : str → Response → W → outcome unit * W;
  os_path_expanduser : str → W → str;
  os_environ_get : str → W → option str;
  os_chmod : str → N → W → outcome unit * W;
  os_stat_st_mode : str → W → outcome N;
  platform_system : W → str;
}.
Arguments Response {W} o.
Arguments subprocess_run {W} o command kwargs w.
Arguments os_path_exists {W} o path w.
Arguments os_path_isfile {W} o path w.
Arguments os_path_isdir {W} o path w.
Arguments os_access_X_OK {W} o path w.
Arguments os_makedirs {W} o path exist_ok w.
Arguments os_path_abspath {W} o path w.
Arguments shutil_which {W} o command w.
Arguments os_remove {W} o path w.
Arguments shutil_rmtree {W} o path w.
Arguments os_rmdir {W} o path w.
Arguments resources_files_read_text {W} o asset_path encoding w.
Arguments resources_path_read_text {W} o asset_path encoding w.
Arguments open_write {W} o path kwargs content w.
Arguments open_read {W} o path kwargs w.
Arguments os_getcwd {W} o w.
Arguments os_chdir {W} o path w.
Arguments requests_get {W} o url timeout w.
Arguments raise_for_status {W} o response.
Arguments save_content {W} o destination_path response w.
Arguments os_path_expanduser {W} o path w.
Arguments os_environ_get {W} o name w.
Arguments os_chmod {W} o path mode w.
Arguments os_stat_st_mode {W} o path w.
Arguments platform_system {W} o w.

(** What the documentation of [subprocess.run] says of its arguments:
    "the stdout and stderr arguments may not be supplied at the same time
    as capture_output"; the call then raises [ValueError] before anything
    is launched. *)
Definition refuses_capture_with_streams {W : Type} (os : OS W) : Prop :=
  ∀ command kw w,
    kw_capture_output kw = true →
    kw_stdout kw ≠ None ∨ kw_stderr kw ≠ None →
    subprocess_run os command kw w = (Raises Exc.ValueError, w).

Section methods.
Context {W : Type} (os : OS W).

(** [try: ... return True, None  except cls as e: ... return False, e]
    for one library call. *)
Definition reported (cls : pyexn) (x : outcome unit * W)
    : outcome (report bool) * W :=
  match x with
  | (Returns _, w') => (Returns (true, None), w')
  | (Raises e, w') =>
      if Exc.isinstance e cls then (Returns (false, Some e), w')
      else (Raises e, w')
  end.

Definition run_command (command : list str) (cwd : option str)
    (env : option (gmap str str))
    (capture_output text check stderr_to_stdout : bool) (w : W)
    : outcome completed * W :=
  let stdout_pipe := if capture_output then Some PIPE else None in
  let stderr_pipe :=
    if capture_output then Some (if stderr_to_stdout then STDOUT else PIPE)
    else None in
  subprocess_run os command
    (RunKwargs cwd env capture_output text check stdout_pipe stderr_pipe) w.

Definition file_exists (path : str) (w : W) : bool :=
  os_path_exists os path w && os_path_isfile os path w.

Definition dir_exists (path : str) (w : W) : bool :=
  os_path_exists os path w && os_path_isdir os path w.

Definition path_exists (path : str) (w : W) : bool :=
  os_path_exists os path w.

Definition make_dirs (path : str) (exist_ok : bool) (w : W)
    : outcome (report bool) * W :=
  reported Exc.OSError (os_makedirs os path exist_ok w).

Definition get_absolute_path (path : str) (w : W) : outcome str :=
  os_path_abspath os path w.

Definition which (command : str) (w : W) : option str :=
  shutil_which os command w.

Definition remove_file (path : str) (missing_ok : bool) (w : W)
    : outcome (report bool) * W :=
  if file_exists path w then reported Exc.OSError (os_remove os path w)
  else if missing_ok then (Returns (true, None), w)
  else (Returns (false, Some Exc.FileNotFoundError), w).

Definition remove_dir (path : str) (recursive missing_ok : bool) (w : W)
    : outcome (report bool) * W :=
  if dir_exists path w then
    reported Exc.OSError
      (if recursive then shutil_rmtree os path w else os_rmdir os path w)
  else if missing_ok then (Returns (true, None), w)
  else (Returns (false, Some Exc.FileNotFoundError), w).

Definition read_package_asset (asset_path encoding : str) (w : W)
    : outcome (report (option str)) :=
  match resources_files_read_text os asset_path encoding w with
  | Returns content => Returns (Some content, None)
  | Raises e_modern =>
      if Exc.isinstance e_modern Exc.AttributeError then
        match resources_path_read_text os asset_path encoding w with
        | Returns content => Returns (Some content, None)
        | Raises e_legacy => Returns (None, Some e_legacy)
        end
      else Returns (None, Some e_modern)
  end.

Definition write_file (path content mode : str) (encoding : option str)
    (w : W) : outcome (report bool) * W :=
  let kwargs :=
    if negb (contains (pystr "b") mode) && truthy encoding
    then OpenKwargs mode (Some encoding)
    else OpenKwargs mode None in
  match open_write os path kwargs content w with
  | (Returns _, w') => (Returns (true, None), w')
  | (Raises e, w') =>
      if Exc.isinstance e Exc.OSError then (Returns (false, Some e), w')
      else (Returns (false, Some e), w')
  end.

Definition read_file (path mode : str) (encoding : option str) (w : W)
    : outcome (report (option str)) :=
  let kwargs :=
    if negb (contains (pystr "b") mode) && truthy encoding
    then OpenKwargs mode (Some encoding)
    else if contains (pystr "b") mode && truthy encoding
    then OpenKwargs mode (Some None)
    else OpenKwargs mode None in
  match open_read os path kwargs w with
  | Returns content => Returns (Some content, None)
  | Raises e =>
      if Exc.isinstance e Exc.FileNotFoundError then Returns (None, Some e)
      else if Exc.isinstance e Exc.OSError then Returns (None, Some e)
      else Returns (None, Some e)
  end.

Definition get_cwd (w : W) : outcome str := os_getcwd os w.

Definition change_cwd (path : str) (w : W) : outcome (report bool) * W :=
  match os_chdir os path w with
  | (Returns _, w') => (Returns (true, None), w')
  | (Raises e, w') =>
      if Exc.isinstance e Exc.FileNotFoundError then (Returns (false, Some e), w')
      else if Exc.isinstance e Exc.NotADirectoryError then (Returns (false, Some e), w')
      else if Exc.isinstance e Exc.PermissionError then (Returns (false, Some e), w')
      else if Exc.isinstance e Exc.OSError then (Returns (false, Some e), w')
      else (Returns (false, Some e), w')
  end.

Definition download_file (url destination_path : str) (timeout : Z) (w : W)
    : outcome (report bool) * W :=
  let body :=
    match requests_get os url timeout w with
    | (Returns response, w1) =>
        match raise_for_status os response with
        | Returns _ => save_content os destination_path response w1
        | Raises e => (Raises e, w1)
        end
    | (Raises e, w1) => (Raises e, w1)
    end in
  match body with
  | (Returns _, w') => (Returns (true, None), w')
  | (Raises e, w') =>
      if Exc.isinstance e Exc.RequestException then (Returns (false, Some e), w')
      else if Exc.isinstance e Exc.OSError then (Returns (false, Some e), w')
      else (Returns (false, Some e), w')
  end.

Definition expand_user_path (path : str) (w : W) : str :=
  os_path_expanduser os path w.

Definition get_env_var (name : str) (default : option str) (w : W)
    : option str :=
  match os_environ_get os name w with
  | Some v => Some v
  | None => default
  end.

Definition is_executable (path : str) (w : W) : bool :=
  file_exists path w && os_access_X_OK os path w.

Definition change_permissions (path : str) (mode : N) (w : W)
    : outcome unit * W :=
  os_chmod os path mode w.

Definition get_permissions (path : str) (w : W) : outcome N :=
  os_stat_st_mode os path w.

Definition get_platform_system (w : W) : str := platform_system os w.

Definition get_user_home_dir (w : W) : str := expand_user_path (pystr "~") w.

(** An instance of the class. *)
Definition System : Facade.Interface W := {|
  Facade.run_command := run_command;
  Facade.file_exists path w := (Returns (file_exists path w), w);
  Facade.dir_exists path w := (Returns (dir_exists path w), w);
  Facade.path_exists path w := (Returns (path_exists path w), w);
  Facade.make_dirs := make_dirs;
  Facade.get_absolute_path path w := (get_absolute_path path w, w);
  Facade.which command w := (Returns (which command w), w);
  Facade.remove_file := remove_file;
  Facade.remove_dir := remove_dir;
  Facade.read_package_asset asset_path encoding w :=
    (read_package_asset asset_path encoding w, w);
  Facade.write_file := write_file;
  Facade.read_file path mode encoding w := (read_file path mode encoding w, w);
  Facade.get_cwd w := (get_cwd w, w);
  Facade.change_cwd := change_cwd;
  Facade.download_file := download_file;
  Facade.expand_user_path path w := (Returns (expand_user_path path w), w);
  Facade.get_env_var name default w := (Returns (get_env_var name default w), w);
  Facade.is_executable path w := (Returns (is_executable path w), w);
  Facade.change_permissions := change_permissions;
  Facade.get_permissions path w := (get_permissions path w, w);
  Facade.get_platform_system w := (Returns (get_platform_system w), w);
  Facade.get_user_home_dir w := (Returns (get_user_home_dir w), w);
|}.

End methods.

End SystemPy.

(* ===================================================================== *)
(** ** Project set-up: [environment/project_setup.py] *)
(* ===================================================================== *)

Module ProjectSetup.

(** The calls by which [project_setup.py] acts on the world, in the
    order in which it makes them. *)
Inductive fcall : Type :=
  | CallMakeDirs (path : str)
  | CallChangeCwd (path : str)
  | CallRunCommand (command : list str) (cwd : option str)
  | CallDownloadFile (url destination_path : str)
  | CallRemoveFile (path : str)
  | CallWriteFile (path content : str).

(** State, exceptions and the calls made. *)
Definition Setup (W A : Type) : Type := W → outcome A * W * list fcall.

Section monad.
Context {W : Type}.

Definition p_ret {A} (a : A) : Setup W A := λ w, (Returns a, w, []).

Definition p_bind {A B} (m : Setup W A) (f : A → Setup W B) : Setup W B :=
  λ w,
    match m w with
    | (Returns a, w1, t1) =>
        match f a w1 with
        | (r, w2, t2) => (r, w2, t1 ++ t2)
        end
    | (Raises e, w1, t1) => (Raises e, w1, t1)
    end.

Definition p_raise {A} (e : pyexn) : Setup W A := λ w, (Raises e, w, []).

(** A call of the facade that only asks. *)
Definition ask {A} (f : W → outcome A * W) : Setup W A :=
  λ w, match f w with (r, w') => (r, w', []) end.

(** A call of the facade that acts: it is recorded. *)
Definition act {A} (c : fcall) (f : W → outcome A * W) : Setup W A :=
  λ w, match f w with (r, w') => (r, w', [c]) end.

(** [try: m  except Exception: h]. *)
Definition p_try_except {A} (m : Setup W A) (h : pyexn → Setup W A) : Setup W A :=
  λ w,
    match m w with
    | (Raises e, w1, t1) =>
        match h e w1 with
        | (r, w2, t2) => (r, w2, t1 ++ t2)
        end
    | returned => returned
    end.

(** [try: m  finally: f]: [f] runs however [m] ends; the outcome is that
    of [m] unless [f] raises. *)
Definition try_finally {A} (m : Setup W A) (f : Setup W unit) : Setup W A :=
  λ w,
    match m w with
    | (r, w1, t1) =>
        match f w1 with
        | (Returns _, w2, t2) => (r, w2, t1 ++ t2)
        | (Raises e, w2, t2) => (Raises e, w2, t1 ++ t2)
        end
    end.

End monad.

#[global] Instance Setup_ret {W} : MRet (Setup W) := λ A, @p_ret W A.
#[global] Instance Setup_bind {W} : MBind (Setup W) := λ A B f m, @p_bind W A B m f.

Definition value_of {W A} (x : outcome A * W * list fcall) : outcome A := x.1.1.
Definition world_of {W A} (x : outcome A * W * list fcall) : W := x.1.2.
Definition calls_of {W A} (x : outcome A * W * list fcall) : list fcall := x.2.

Definition GET_PIP_URL : str := pystr "https://bootstrap.pypa.io/get-pip.py".
Definition GET_PIP_SCRIPT_NAME : str := pystr "get-pip.py".

(** [s.strip()] is the empty string. *)
Definition blank (s : str) : bool := forallb is_space s.

(** [s.replace(old, new)] for a non-empty [old]: the occurrences of
    [old] are taken from the left and do not overlap.  [skip] counts the
    characters of an occurrence still to pass over. *)
Fixpoint replace_from (skip : nat) (old new s : str) : str :=
  match s with
  | [] => []
  | c :: s' =>
      match skip with
      | S k => replace_from k old new s'
      | 0 =>
          if starts_with old s
          then new ++ replace_from (length old - 1) old new s'
          else c :: replace_from 0 old new s'
      end
  end.

Definition str_replace (old new s : str) : str := replace_from 0 old new s.

(** [os.path.basename(p)] on POSIX: what follows the last slash. *)
Fixpoint basename (p : str) : str :=
  match p with
  | [] => []
  | c :: p' =>
      if bool_decide (slash ∈ p') then basename p'
      else if (c =? slash)%N then p'
      else p
  end.

(** Lines 24-35 of [project_setup.py]: the names to try, before the
    [.exe] suffix and the removal of repetitions. *)
Definition potential_exe_names (base_python_executable_name : str)
    : list str :=
  let python := pystr "python" in
  (match base_python_executable_name with
   | [] => []
   | _ :: _ =>
       base_python_executable_name ::
       (if starts_with python base_python_executable_name
           && (length python <? length base_python_executable_name)
        then
          let version_part := drop (length python) base_python_executable_name in
          [python ++ version_part]
        else [])
   end) ++ [pystr "python3"; pystr "python"].

(** Lines 40-45: the names in their order, each at its first
    occurrence. *)
Fixpoint unique_from (seen_names : gset str) (names : list str) : list str :=
  match names with
  | [] => []
  | name :: rest =>
      if decide (name ∈ seen_names) then unique_from seen_names rest
      else name :: unique_from ({[name]} ∪ seen_names) rest
  end.

Definition is_windows (platform : str) : bool :=
  bool_decide (platform = pystr "Windows").

Definition with_exe_suffix (windows : bool) (names : list str) : list str :=
  if windows then (λ name, name ++ pystr ".exe") <$> names else names.

Section project_setup.
Context {W : Type} (system : Facade.Interface W).

(** The acting calls of the facade, as [project_setup.py] makes them:
    [run_command(cmd, cwd=..., capture_output=True, text=True)],
    [remove_file(path, missing_ok=True, log_success=False)],
    [write_file(path, content)], [download_file(url, path)],
    [make_dirs(path)]. *)
Definition call_run_command (command : list str) (cwd : option str)
    : Setup W completed :=
  act (CallRunCommand command cwd)
    (Facade.run_command system command cwd None true true false true).

Definition call_remove_file (path : str) : Setup W (report bool) :=
  act (CallRemoveFile path) (Facade.remove_file system path true).

Definition call_write_file (path content : str) : Setup W (report bool) :=
  act (CallWriteFile path content)
    (Facade.write_file system path content (pystr "w") (Some (pystr "utf-8"))).

Definition call_download_file (url destination_path : str)
    : Setup W (report bool) :=
  act (CallDownloadFile url destination_path)
    (Facade.download_file system url destination_path 30).

Definition call_make_dirs (path : str) : Setup W (report bool) :=
  act (CallMakeDirs path) (Facade.make_dirs system path true).

Definition call_change_cwd (path : str) : Setup W (report bool) :=
  act (CallChangeCwd path) (Facade.change_cwd system path).

(** [r.stdout.strip()], evaluated for a log message: [None] has no
    [strip]. *)
Definition stdout_stripped (r : completed) : Setup W unit :=
  match stdout r with
  | Some _ => mret tt
  | None => p_raise Exc.AttributeError
  end.

(** [r.stderr.strip() or r.stdout.strip()]. *)
Definition err_msg (r : completed) : Setup W unit :=
  match stderr r with
  | None => p_raise Exc.AttributeError
  | Some e => if blank e then stdout_stripped r else mret tt
  end.

(** Lines 50-59: the loop over the candidate names. *)
Fixpoint first_executable (venv_bin_dir : str) (names : list str)
    : Setup W (option str) :=
  match names with
  | [] => mret None
  | exe_name :: rest =>
      potential_path ←
        ask (Facade.get_absolute_path system (path_join venv_bin_dir exe_name));
      executable ← ask (Facade.is_executable system potential_path);
      if (executable : bool) then mret (Some potential_path)
      else first_executable venv_bin_dir rest
  end.

(** [_determine_venv_python_executable]; [os.path.join] is that of
    POSIX. *)
Definition _determine_venv_python_executable
    (venv_path base_python_executable_name : str) : Setup W (option str) :=
  platform ← ask (Facade.get_platform_system system);
  let venv_bin_dir_name :=
    if is_windows platform then pystr "Scripts" else pystr "bin" in
  venv_bin_dir ←
    ask (Facade.get_absolute_path system (path_join venv_path venv_bin_dir_name));
  let names := potential_exe_names base_python_executable_name in
  platform' ← ask (Facade.get_platform_system system);
  let names' := with_exe_suffix (is_windows platform') names in
  let unique_potential_exe_names := unique_from ∅ names' in
  first_executable venv_bin_dir unique_potential_exe_names.

(** [_download_get_pip_script]. *)
Definition _download_get_pip_script (project_path : str) : Setup W (option str) :=
  get_pip_script_path ←
    ask (Facade.get_absolute_path system
           (path_join project_path GET_PIP_SCRIPT_NAME));
  downloaded ← call_download_file GET_PIP_URL get_pip_script_path;
  if negb downloaded.1 then mret None
  else mret (Some get_pip_script_path).

(** [_install_pip]: the body of the [try], and the [finally] clause. *)
Definition install_pip_body (venv_python_executable get_pip_script_path
    project_path : str) (pip_check_cmd : list str) : Setup W bool :=
  let pip_install_cmd := [venv_python_executable; get_pip_script_path] in
  pip_install_result ← call_run_command pip_install_cmd (Some project_path);
  if (returncode pip_install_result =? 0)%Z then
    pip_verify_result ← call_run_command pip_check_cmd (Some project_path);
    if (returncode pip_verify_result =? 0)%Z then
      stdout_stripped pip_verify_result;; mret true
    else err_msg pip_verify_result;; mret false
  else err_msg pip_install_result;; mret false.

Definition install_pip_cleanup (get_pip_script_path : str) : Setup W unit :=
  removed ← call_remove_file get_pip_script_path;
  if negb removed.1 then mret tt
  else
    _ ← ask (Facade.file_exists system get_pip_script_path);
    mret tt.

Definition _install_pip (venv_python_executable get_pip_script_path
    project_path : str) (pip_check_cmd : list str) : Setup W bool :=
  try_finally
    (install_pip_body venv_python_executable get_pip_script_path
       project_path pip_check_cmd)
    (install_pip_cleanup get_pip_script_path).

(** [_ensure_pip_in_venv]. *)
Definition _ensure_pip_in_venv (project_path venv_python_executable : str)
    : Setup W bool :=
  let pip_check_cmd :=
    [venv_python_executable; pystr "-m"; pystr "pip"; pystr "--version"] in
  pip_check_result ← call_run_command pip_check_cmd (Some project_path);
  if (returncode pip_check_result =? 0)%Z then
    stdout_stripped pip_check_result;; mret true
  else
    get_pip_script_path ← _download_get_pip_script project_path;
    if negb (truthy get_pip_script_path) then mret false
    else
      _install_pip venv_python_executable (default [] get_pip_script_path)
        project_path pip_check_cmd.

(** [_initialize_git_repo].  An exception object is truthy, so
    [not read_err] holds when [read_err] is [None]. *)
Definition _initialize_git_repo (venv_name : str) : Setup W bool :=
  let git_init_cmd := [pystr "git"; pystr "init"] in
  git_init_result ← call_run_command git_init_cmd None;
  if (returncode git_init_result =? 0)%Z then
    asset ←
      ask (Facade.read_package_asset system (pystr "gitignore_template.txt")
             (pystr "utf-8"));
    (if truthy asset.1 && negb (bool_decide (is_Some asset.2)) then
       let gitignore_content :=
         str_replace (pystr "{{ venv_name }}") venv_name (default [] asset.1) in
       _ ← call_write_file (pystr ".gitignore") gitignore_content;
       mret tt
     else mret tt);;
    mret true
  else err_msg git_init_result;; mret false.

(** [_create_virtual_environment]. *)
Definition _create_virtual_environment
    (project_path python_executable venv_name : str) : Setup W bool :=
  found ← ask (Facade.which system python_executable);
  if negb (truthy found) then mret false
  else
    let venv_cmd :=
      [python_executable; pystr "-m"; pystr "venv"; venv_name] in
    venv_creation_result ← call_run_command venv_cmd (Some project_path);
    if negb (returncode venv_creation_result =? 0)%Z then
      err_msg venv_creation_result;; mret false
    else
      venv_path ←
        ask (Facade.get_absolute_path system (path_join project_path venv_name));
      let base_python_exe_name := basename python_executable in
      venv_python_exe ←
        _determine_venv_python_executable venv_path base_python_exe_name;
      if negb (truthy venv_python_exe) then mret false
      else
        pip_ready ←
          _ensure_pip_in_venv project_path (default [] venv_python_exe);
        if negb pip_ready then mret false else mret true.

(** [_restore_cwd]. *)
Definition _restore_cwd (original_cwd : str) : Setup W unit :=
  current_cwd ← ask (Facade.get_cwd system);
  if bool_decide (current_cwd ≠ original_cwd) then
    _ ← call_change_cwd original_cwd;
    mret tt
  else mret tt.

(** [setup_project_directory]: the body of the [try]. *)
Definition setup_body (project_path python_executable venv_name : str)
    : Setup W (option str) :=
  present ← ask (Facade.path_exists system project_path);
  if (present : bool) then mret (Some project_path)
  else
    made ← call_make_dirs project_path;
    if negb made.1 then mret None
    else
      _ ← call_change_cwd project_path;
      git_ready ← _initialize_git_repo venv_name;
      if negb git_ready then mret (Some project_path)
      else
        _ ← _create_virtual_environment project_path python_executable
              venv_name;
        mret (Some project_path).

Definition setup_project_directory
    (project_name base_path python_executable venv_name : str)
    : Setup W (option str) :=
  abs_base_path ← ask (Facade.get_absolute_path system base_path);
  project_path ←
    ask (Facade.get_absolute_path system (path_join abs_base_path project_name));
  original_cwd ← ask (Facade.get_cwd system);
  try_finally
    (p_try_except
       (setup_body project_path python_executable venv_name)
       (λ _, mret None))
    (_restore_cwd original_cwd).

End project_setup.

End ProjectSetup.
Export ProjectSetup.

(* ===================================================================== *)
(** ** A concrete machine *)
(* ===================================================================== *)

Module Machine.

(** A file system reduced to what the facade asks of it: the working
    directory, the directories and the files (with their modes). *)
Record machine : Type := Mk {
  cwd : str;
  dirs : list str;
  files : list (str * N);
}.

Definition has_file (path : str) (m : machine) : bool :=
  bool_decide (path ∈ (files m).*1).

Definition has_dir (path : str) (m : machine) : bool :=
  bool_decide (path ∈ dirs m).

Definition mode_of (path : str) (m : machine) : option N :=
  (list_find (λ f, f.1 = path) (files m)) ≫= λ x, Some x.2.2.

(** [os.path.abspath] for the paths of this file: an absolute path is
    kept, [.] is the working directory, a leading [./] is dropped, and
    the rest is joined to the working directory. *)
Definition absolute (path : str) (m : machine) : str :=
  if starts_with [slash] path then path
  else if bool_decide (path = pystr ".") then cwd m
  else match strip_prefix (pystr "./") path with
       | Some rest => path_join (cwd m) rest
       | None => path_join (cwd m) path
       end.

(** The library on such a machine.  [subprocess.run] checks its
    arguments as documented and every command it launches returns 0
    with empty output; the network delivers every file; [tar] and
    [python3] are on the [PATH]. *)
Definition os : SystemPy.OS machine := {|
  SystemPy.Response := unit;
  SystemPy.subprocess_run _ kw m :=
    if SystemPy.kw_capture_output kw
       && (bool_decide (is_Some (SystemPy.kw_stdout kw))
           || bool_decide (is_Some (SystemPy.kw_stderr kw)))
    then (Raises Exc.ValueError, m)
    else (Returns (Completed 0 None None), m);
  SystemPy.os_path_exists path m := has_file path m || has_dir path m;
  SystemPy.os_path_isfile path m := has_file path m;
  SystemPy.os_path_isdir path m := has_dir path m;
  SystemPy.os_access_X_OK path m :=
    match mode_of path m with
    | Some mode => N.testbit mode 6
    | None => has_dir path m
    end;
  SystemPy.os_makedirs path exist_ok m :=
    if has_dir path m && negb exist_ok then (Raises Exc.OSError, m)
    else if has_file path m then (Raises Exc.OSError, m)
    else (Returns tt, Mk (cwd m) (path :: dirs m) (files m));
  SystemPy.os_path_abspath path m := Returns (absolute path m);
  SystemPy.shutil_which command m := Some (pystr "/usr/bin/" ++ command);
  SystemPy.os_remove path m :=
    if has_file path m
    then (Returns tt, Mk (cwd m) (dirs m) (filter (λ f, f.1 ≠ path) (files m)))
    else (Raises Exc.FileNotFoundError, m);
  SystemPy.shutil_rmtree path m :=
    if has_dir path m
    then (Returns tt, Mk (cwd m) (filter (λ d, d ≠ path) (dirs m)) (files m))
    else (Raises Exc.FileNotFoundError, m);
  SystemPy.os_rmdir path m :=
    if has_dir path m
    then (Returns tt, Mk (cwd m) (filter (λ d, d ≠ path) (dirs m)) (files m))
    else (Raises Exc.FileNotFoundError, m);
  SystemPy.resources_files_read_text _ _ m := Returns (pystr "{{ venv_name }}/");
  SystemPy.resources_path_read_text _ _ m := Returns (pystr "{{ venv_name }}/");
  SystemPy.open_write path _ _ m :=
    (Returns tt, Mk (cwd m) (dirs m) ((path, 420%N) :: files m));
  SystemPy.open_read path _ m :=
    if has_file path m then Returns [] else Raises Exc.FileNotFoundError;
  SystemPy.os_getcwd m := Returns (cwd m);
  SystemPy.os_chdir path m :=
    if has_dir path m then (Returns tt, Mk path (dirs m) (files m))
    else (Raises Exc.FileNotFoundError, m);
  SystemPy.requests_get _ _ m := (Returns tt, m);
  SystemPy.raise_for_status _ := Returns tt;
  SystemPy.save_content destination_path _ m :=
    (Returns tt, Mk (cwd m) (dirs m) ((destination_path, 420%N) :: files m));
  SystemPy.os_path_expanduser path m := path;
  SystemPy.os_environ_get _ m := None;
  SystemPy.os_chmod path mode m :=
    if has_file path m
    then (Returns tt,
          Mk (cwd m) (dirs m)
             ((path, mode) :: filter (λ f, f.1 ≠ path) (files m)))
    else (Raises Exc.FileNotFoundError, m);
  SystemPy.os_stat_st_mode path m :=
    match mode_of path m with
    | Some mode => Returns mode
    | None => Raises Exc.FileNotFoundError
    end;
  SystemPy.platform_system m := pystr "Linux";
|}.

(** A notebook machine before anything is installed. *)
Definition fresh : machine := Mk (pystr "/content") [pystr "/content"] [].

(** The same with the CLI unpacked in [/content/code]. *)
Definition with_cli : machine :=
  Mk (pystr "/content") [pystr "/content"; pystr "/content/code"]
     [(pystr "/content/code/code", 493%N)].

(** A project in [/content/demo] whose environment [.venv] holds
    [python3] and [python], and the interpreter on the [PATH]. *)
Definition with_venv : machine :=
  Mk (pystr "/content")
     [pystr "/content"; pystr "/content/demo"; pystr "/content/demo/.venv";
      pystr "/content/demo/.venv/bin"]
     [(pystr "/content/demo/.venv/bin/python3", 493%N);
      (pystr "/content/demo/.venv/bin/python", 493%N);
      (pystr "/content/demo/.venv/pyvenv.cfg", 420%N)].

(** A stand-in for the facade, as a test of the package would inject:
    the class over the machine, except that [run_command] runs nothing
    and returns [result] for every command. *)
Definition stand_in (result : completed) : Facade.Interface machine :=
  let real := SystemPy.System os in {|
    Facade.run_command _ _ _ _ _ _ _ m := (Returns result, m);
    Facade.file_exists := Facade.file_exists real;
    Facade.dir_exists := Facade.dir_exists real;
    Facade.path_exists := Facade.path_exists real;
    Facade.make_dirs := Facade.make_dirs real;
    Facade.get_absolute_path := Facade.get_absolute_path real;
    Facade.which := Facade.which real;
    Facade.remove_file := Facade.remove_file real;
    Facade.remove_dir := Facade.remove_dir real;
    Facade.read_package_asset := Facade.read_package_asset real;
    Facade.write_file := Facade.write_file real;
    Facade.read_file := Facade.read_file real;
    Facade.get_cwd := Facade.get_cwd real;
    Facade.change_cwd := Facade.change_cwd real;
    Facade.download_file := Facade.download_file real;
    Facade.expand_user_path := Facade.expand_user_path real;
    Facade.get_env_var := Facade.get_env_var real;
    Facade.is_executable := Facade.is_executable real;
    Facade.change_permissions := Facade.change_permissions real;
    Facade.get_permissions := Facade.get_permissions real;
    Facade.get_platform_system := Facade.get_platform_system real;
    Facade.get_user_home_dir := Facade.get_user_home_dir real;
  |}.

(** [git] is not usable: every command returns 128 with a message. *)
Definition git_fails : completed :=
  Completed 128 (Some []) (Some (pystr "fatal: unable to run")).

End Machine.

(* ===================================================================== *)
(** ** Vocabulary of the further properties *)
(* ===================================================================== *)

(** The dealings of the driver with the process it has launched. *)
Definition process_event (e : event) : Prop :=
  match e with
  | EvPoll _ | EvTerminate | EvWait
  | EvDisplayAuth _ _ _ | EvDisplayTunnel _ _ _ => True
  | _ => False
  end.

(** A trace in two phases: preparatory steps, then at most one launch,
    of [cmd] in [cwd] for some [cmd] and [cwd] allowed by [L], followed
    only by dealings with that process (none if the launch failed). *)
Definition two_phases (L : popen_cmd → option str → Prop)
    (tr : list event) : Prop :=
  ∃ tr0 tr1,
    tr = tr0 ++ tr1 ∧ Forall preamble_event tr0 ∧
    (tr1 = [] ∨
     ∃ cmd cwd spawned rest,
       tr1 = EvPopen cmd cwd spawned :: rest ∧ L cmd cwd ∧
       Forall process_event rest ∧ (spawned = false → rest = [])).

(** Lines 300-319 of [connect]: the Python for the environment of a new
    project is [python3], unless a version is asked for and
    [setup_and_get_python_executable] gives one.  The step takes the
    world from [w] to [w']. *)
Definition python_for_venv {W : Type} (host : Host W) (a : connect_args)
    (w : W) (python : str) (w' : W) : Prop :=
  if truthy (setup_python_version a) then
    ∃ pyenv_res,
      setup_and_get_python_executable host (default [] (setup_python_version a))
        (force_python_reinstall a) w = (Ok pyenv_res, w') ∧
      python = default (pystr "python3") pyenv_res
  else python = pystr "python3" ∧ w' = w.

(** Lines 321-343: with a project asked for, the base path is made
    absolute and [setup_project_directory] is called for the project,
    that base path, the Python above and the name of the environment;
    the directory is the path it returns, if not empty.  In every other
    case it is [cwd0]. *)
Definition project_directory {W : Type} (system : System W) (host : Host W)
    (a : connect_args) (cwd0 python : str) (w : W) (dir : str) : Prop :=
  if truthy (create_new_project a) then
    ∃ abs_new_project_base_path w1 created_project_path w2,
      get_absolute_path system (new_project_base_path a) w
        = (Ok abs_new_project_base_path, w1) ∧
      Driver.setup_project_directory host (default [] (create_new_project a))
        abs_new_project_base_path python (venv_name_for_project a) w1
        = (Ok created_project_path, w2) ∧
      dir = (if truthy created_project_path
             then default [] created_project_path else cwd0)
  else dir = cwd0.

(** The directory in which [connect] starts the tunnel: [get_cwd] is
    asked, then the Python is chosen, then the project directory, each
    step in the world the one before has left. *)
Definition tunnel_directory {W : Type} (system : System W) (host : Host W)
    (a : connect_args) (dir : str) : Prop :=
  ∃ w0 cwd0 w1 python w2,
    get_cwd system w0 = (Ok cwd0, w1) ∧
    python_for_venv host a w1 python w2 ∧
    project_directory system host a cwd0 python w2 dir.


(** The calls allowed to the creation of the environment of the project
    [project_path]: commands run in the project directory, the download
    of [get-pip.py] and the removal of a file. *)
Definition venv_call (project_path : str) (c : fcall) : Prop :=
  match c with
  | CallRunCommand _ cwd => cwd = Some project_path
  | CallDownloadFile url _ => url = GET_PIP_URL
  | CallRemoveFile _ => True
  | _ => False
  end.


(* ===================================================================== *)
(** ** The matcher against the language of a pattern *)
(* ===================================================================== *)

Module RegexFacts.

Lemma strip_prefix_Some p s s' : strip_prefix p s = Some s' ↔ s = p ++ s'.
Proof.
  revert s. induction p as [|a p IH]; intros [|b s]; simpl.
  - split; congruence.
  - split; congruence.
  - split; [discriminate | intros [=]].
  - destruct (N.eqb_spec a b) as [->|Hne].
    + rewrite IH. split; congruence.
    + split; [discriminate | intros [=]; congruence].
Qed.

Lemma starts_with_true p s : starts_with p s = true ↔ ∃ s', s = p ++ s'.
Proof.
  revert s. induction p as [|a p IH]; intros [|b s]; simpl.
  - split; eauto.
  - split; eauto.
  - split; [discriminate | intros [s' [=]]].
  - rewrite andb_true_iff, N.eqb_eq, IH. split.
    + intros [-> [s' ->]]. eauto.
    + intros [s' [= -> ->]]. eauto.
Qed.

Lemma contains_true needle hay :
  contains needle hay = true ↔ substring needle hay.
Proof.
  unfold substring. induction hay as [|c hay IH]; simpl.
  - rewrite orb_false_r, starts_with_true. split.
    + intros [s' ->]. exists [], s'. done.
    + intros (pre & post & H). symmetry in H.
      apply app_eq_nil in H as [-> H]. exists post. done.
  - rewrite orb_true_iff, starts_with_true, IH. split.
    + intros [[s' ->]|(pre & post & ->)].
      * exists [], s'. done.
      * exists (c :: pre), post. done.
    + intros (pre & post & H). destruct pre as [|c' pre].
      * left. exists post. done.
      * right. injection H as -> ->. eauto.
Qed.

(** Bound of a counted repetition. *)
Definition within (hi : option nat) (n : nat) : Prop :=
  match hi with
  | Some h => n ≤ h
  | None => True
  end.

Lemma rep_sound p lo hi s k rest :
  rep p lo hi s k = Some rest →
  ∃ m s', s = m ++ s' ∧ Forall (λ c, p c = true) m ∧
          lo ≤ length m ∧ within hi (length m) ∧ k s' = Some rest.
Proof.
  revert lo hi. induction s as [|c s IH]; intros lo hi; simpl.
  - destruct lo; [|discriminate]. intros Hk.
    exists [], []. repeat split; auto; destruct hi; simpl; lia.
  - assert (Hstop : match lo with 0 => k (c :: s) | S _ => None end = Some rest →
      ∃ m s', c :: s = m ++ s' ∧ Forall (λ c, p c = true) m ∧
              lo ≤ length m ∧ within hi (length m) ∧ k s' = Some rest).
    { destruct lo; [|discriminate]. intros Hk.
      exists [], (c :: s). repeat split; auto; destruct hi; simpl; lia. }
    destruct (p c) eqn:Hp; simpl; [|exact Hstop].
    destruct (may_take hi) eqn:Hhi; [|exact Hstop].
    destruct (rep p (pred lo) (pred <$> hi) s k) as [r|] eqn:Hrep; [|exact Hstop].
    intros [= ->]. apply IH in Hrep as (m & s' & -> & Hall & Hlo & Hw & Hk).
    exists (c :: m), s'. repeat split; auto; simpl; [lia|].
    destruct hi as [[|h]|]; simpl in *; try discriminate; lia.
Qed.

Lemma rep_complete p lo hi m s' k :
  Forall (λ c, p c = true) m → lo ≤ length m → within hi (length m) →
  is_Some (k s') → is_Some (rep p lo hi (m ++ s') k).
Proof.
  revert lo hi. induction m as [|c m IH]; intros lo hi Hall Hlo Hw Hk; simpl in *.
  - assert (lo = 0) as -> by lia.
    destruct s' as [|c s']; simpl; [done|].
    destruct (p c && may_take hi); [|done].
    destruct (rep p 0 (pred <$> hi) s' k); [eauto | done].
  - apply Forall_cons in Hall as [Hc Hall]. rewrite Hc. simpl.
    assert (may_take hi = true) as ->.
    { destruct hi as [[|h]|]; simpl in *; auto; lia. }
    destruct (IH (pred lo) (pred <$> hi)) as [r ->]; eauto; [lia|].
    destruct hi as [[|h]|]; simpl in *; auto; lia.
Qed.

Lemma re_match_sound r s k rest :
  re_match r s k = Some rest →
  ∃ m s', s = m ++ s' ∧ lang r m ∧ k s' = Some rest.
Proof.
  revert s k. induction r as [l|p lo hi|r IH|r1 IH1 r2 IH2]; intros s k; simpl.
  - destruct (strip_prefix l s) as [s'|] eqn:Hs; [|discriminate].
    apply strip_prefix_Some in Hs as ->. eauto.
  - intros H. apply rep_sound in H as (m & s' & -> & ? & ? & Hw & ?).
    exists m, s'. repeat split; auto; destruct hi; exact Hw.
  - destruct (re_match r s k) as [x|] eqn:Hr.
    + intros [= ->]. apply IH in Hr as (m & s' & -> & ? & ?). eauto 6.
    + intros Hk. exists [], s. eauto.
  - intros H. apply IH1 in H as (m1 & s1 & -> & H1 & H).
    apply IH2 in H as (m2 & s2 & -> & H2 & H).
    exists (m1 ++ m2), s2. rewrite <- app_assoc. eauto 8.
Qed.

Lemma re_match_complete r m s' k :
  lang r m → is_Some (k s') → is_Some (re_match r (m ++ s') k).
Proof.
  revert m s' k. induction r as [l|p lo hi|r IH|r1 IH1 r2 IH2];
    intros m s' k; simpl.
  - intros -> Hk.
    destruct (strip_prefix l (l ++ s')) as [x|] eqn:Hs.
    + apply strip_prefix_Some, app_inv_head in Hs as <-. done.
    + assert (strip_prefix l (l ++ s') = Some s') as E
        by (by apply strip_prefix_Some).
      congruence.
  - intros (Hall & Hlo & Hhi) Hk. apply rep_complete; auto;
      destruct hi; exact Hhi.
  - intros [->|Hm] Hk.
    + simpl. destruct (re_match r s' k); [eauto | done].
    + destruct (IH m s' k Hm Hk) as [x ->]. eauto.
  - intros (m1 & m2 & -> & H1 & H2) Hk. rewrite <- app_assoc.
    apply IH1; auto.
Qed.

Lemma match_at_sound r s m :
  match_at r s = Some m → lang r m ∧ ∃ s', s = m ++ s'.
Proof.
  unfold match_at. destruct (re_match r s Some) as [rest|] eqn:H; [|discriminate].
  intros [= <-]. apply re_match_sound in H as (m & s' & -> & Hm & [= ->]).
  rewrite length_app, Nat.add_sub, take_app_length. eauto.
Qed.

Lemma match_at_complete r m s' :
  lang r m → is_Some (match_at r (m ++ s')).
Proof.
  intros Hm. unfold match_at.
  assert (is_Some (re_match r (m ++ s') Some)) as [x Hx]
    by (apply re_match_complete; eauto).
  rewrite Hx. eauto.
Qed.

(** [search] returns a member of the language, where it says, and no
    match starts further left. *)
Lemma re_search_sound r s i m :
  re_search r s = Some (i, m) →
  lang r m ∧
  (∃ pre post, s = pre ++ m ++ post ∧ length pre = i) ∧
  (∀ j, j < i → match_at r (drop j s) = None).
Proof.
  revert i. induction s as [|c s IH]; intros i; simpl.
  - destruct (match_at r []) as [m'|] eqn:H; [|discriminate].
    intros [= <- <-]. apply match_at_sound in H as [Hm [s' Hs]].
    split; [done|]. split; [|lia]. exists [], s'. done.
  - destruct (match_at r (c :: s)) as [m'|] eqn:H.
    + intros [= <- <-]. apply match_at_sound in H as [Hm [s' Hs]].
      split; [done|]. split; [|lia]. exists [], s'. done.
    + destruct (re_search r s) as [[i' m']|]; [|discriminate].
      intros [= <- <-]. destruct (IH i' eq_refl) as (Hm & (pre & post & -> & <-) & Hleft).
      split; [done|]. split.
      * exists (c :: pre), post. done.
      * intros [|j] Hj; [done|]. simpl. apply Hleft. lia.
Qed.

Lemma re_search_complete r s m :
  lang r m → substring m s → is_Some (re_search r s).
Proof.
  intros Hm (pre & post & ->). induction pre as [|c pre IH]; simpl.
  - destruct (match_at_complete r m post Hm) as [x Hx].
    destruct (m ++ post); simpl; rewrite Hx; eauto.
  - destruct (match_at r (c :: pre ++ m ++ post)); [eauto|].
    destruct IH as [[i x] ->]. eauto.
Qed.

Lemma search_group0_sound r s m :
  search_group0 r s = Some m → lang r m ∧ substring m s.
Proof.
  unfold search_group0. destruct (re_search r s) as [[i m']|] eqn:H; [|discriminate].
  intros [= <-]. apply re_search_sound in H as (Hm & (pre & post & -> & _) & _).
  split; [done|]. by exists pre, post.
Qed.

Lemma search_group0_complete r s m :
  lang r m → substring m s → is_Some (search_group0 r s).
Proof.
  intros Hm Hs. unfold search_group0.
  destruct (re_search_complete r s m Hm Hs) as [x ->]. eauto.
Qed.

Lemma search_group0_None r s :
  search_group0 r s = None ↔ ∀ m, substring m s → ¬ lang r m.
Proof.
  split.
  - intros H m Hs Hm. destruct (search_group0_complete r s m Hm Hs). congruence.
  - intros H. destruct (search_group0 r s) as [m|] eqn:E; [|done].
    apply search_group0_sound in E as [Hm Hs]. destruct (H m Hs Hm).
Qed.

(** The two patterns of [login] denote the shapes of the specification. *)
Lemma lang_code_re c : lang code_re c ↔ code_shaped c.
Proof.
  unfold code_shaped. simpl. split.
  - intros (g1 & m & -> & (H1 & ? & ?) & (l & g2 & -> & -> & (H2 & ? & ?))).
    exists g1, g2. repeat split; auto.
  - intros (g1 & g2 & -> & H1 & H2 & [? ?] & [? ?]).
    exists g1, (hyphen :: g2). repeat split; auto.
    exists [hyphen], g2. repeat split; auto.
Qed.

Lemma lang_url_re u : lang url_re u ↔ url_shaped u.
Proof.
  unfold url_shaped. simpl. split.
  - intros (m1 & m & -> & -> & (o & m' & -> & Ho & (l & body & -> & -> & (Hb & Hlen & _)))).
    exists body. split; [destruct Ho as [->| ->]; auto|]. split.
    + intros ->. simpl in Hlen. lia.
    + eapply Forall_impl; [exact Hb|]. intros x. simpl. by destruct (is_space x).
  - intros (body & Hu & Hne & Hb).
    assert (Forall (λ c, negb (is_space c) = true) body).
    { eapply Forall_impl; [exact Hb|]. intros x ->. done. }
    assert (1 ≤ length body) by (destruct body; simpl; [done | lia]).
    destruct Hu as [-> | ->].
    + exists (pystr "http"), (pystr "://" ++ body). repeat split.
      exists [], (pystr "://" ++ body). repeat split; auto.
      exists (pystr "://"), body. repeat split; auto.
    + exists (pystr "http"), (pystr "s://" ++ body). repeat split.
      exists (pystr "s"), (pystr "://" ++ body). repeat split; auto.
      exists (pystr "://"), body. repeat split; auto.
Qed.

Lemma code_shaped_nonempty c : code_shaped c → c ≠ [].
Proof. intros (g1 & g2 & -> & _). by destruct g1. Qed.

Lemma url_shaped_nonempty u : url_shaped u → u ≠ [].
Proof. intros (body & [-> | ->] & _); done. Qed.

Lemma truthy_Some (s : str) : s ≠ [] → truthy (Some s) = true.
Proof. by destruct s. Qed.

Lemma truthy_true o : truthy o = true → ∃ s, o = Some s ∧ s ≠ [].
Proof. destruct o as [[|c s]|]; simpl; try discriminate. eauto. Qed.

Lemma code_of_line_truthy line c :
  code_of_line line = Some c → truthy (Some c) = true.
Proof.
  intros H. apply search_group0_sound in H as [H _].
  by apply truthy_Some, code_shaped_nonempty, lang_code_re.
Qed.

Lemma url_of_line_Some line u :
  url_of_line line = Some u ↔
  search_group0 url_re line = Some u ∧ contains device_login_fragment u = true.
Proof.
  unfold url_of_line. destruct (search_group0 url_re line) as [um|].
  - destruct (contains device_login_fragment um) eqn:E.
    + split; [intros [= ->]; done | intros [[= ->] _]; done].
    + split; [discriminate | intros [[= ->] ?]; congruence].
  - split; [discriminate | intros [? _]; discriminate].
Qed.

Lemma url_of_line_truthy line u :
  url_of_line line = Some u → truthy (Some u) = true.
Proof.
  intros [H _]%url_of_line_Some. apply search_group0_sound in H as [H _].
  by apply truthy_Some, url_shaped_nonempty, lang_url_re.
Qed.

End RegexFacts.
Import RegexFacts.

(* ===================================================================== *)
(** ** Reasoning about runs *)
(* ===================================================================== *)

#[local] Arguments pystr : simpl never.
#[local] Arguments scan_line : simpl never.
#[local] Arguments both_found : simpl never.
#[local] Arguments timed_out : simpl never.
#[local] Arguments search_group0 : simpl never.
#[local] Arguments path_join : simpl never.
#[local] Arguments cmd_list : simpl never.
#[local] Arguments final_extensions : simpl never.

Module RunFacts.

Section run_facts.
Context {W : Type}.
Implicit Types (s : rt W) (tr : list event).

(** [prepend tr0 x]: the run [x] after the events [tr0]. *)
Definition prepend {A} (tr0 : list event) (x : ran A * rt W * list event)
    : ran A * rt W * list event :=
  (x.1.1, x.1.2, tr0 ++ x.2).

Lemma bind_eq {A B} (m : M W A) (f : A → M W B) s :
  (m ≫= f) s =
  match m s with
  | (Returned (Ok a), s1, t1) => prepend t1 (f a s1)
  | (Returned (Raise e), s1, t1) => (Raise e, s1, t1)
  | (Blocked, s1, t1) => (Blocked, s1, t1)
  end.
Proof.
  unfold mbind, M_bind, bind, prepend.
  destruct (m s) as [[[[a|e]|] s1] t1]; [|done..].
  by destruct (f a s1) as [[? ?] ?].
Qed.

Lemma try_except_eq {A} (m : M W A) (h : exn → M W A) s :
  try_except m h s =
  match m s with
  | (Returned (Raise e), s1, t1) => prepend t1 (h e s1)
  | other => other
  end.
Proof.
  unfold try_except, prepend.
  destruct (m s) as [[[[a|e]|] s1] t1]; [done| |done].
  by destruct (h e s1) as [[? ?] ?].
Qed.

Lemma prepend_nil {A} (x : ran A * rt W * list event) : prepend [] x = x.
Proof. by destruct x as [[? ?] ?]. Qed.

Lemma prepend_prepend {A} t1 t2 (x : ran A * rt W * list event) :
  prepend t1 (prepend t2 x) = prepend (t1 ++ t2) x.
Proof. unfold prepend. simpl. by rewrite app_assoc. Qed.

Lemma call_bind_Ok {A B} (f : W → res A * W) (k : A → M W B) s a w' :
  f (world s) = (Ok a, w') → (call f ≫= k) s = k a (Rt w' (proc s)).
Proof.
  intros H. rewrite bind_eq. unfold call. rewrite H. apply prepend_nil.
Qed.

Lemma call_bind_Raise {A B} (f : W → res A * W) (k : A → M W B) s e w' :
  f (world s) = (Raise e, w') →
  (call f ≫= k) s = (Raise e, Rt w' (proc s), []).
Proof. intros H. rewrite bind_eq. unfold call. by rewrite H. Qed.

Lemma ret_bind {A B} (a : A) (k : A → M W B) s : (mret a ≫= k) s = k a s.
Proof. rewrite bind_eq. apply prepend_nil. Qed.

Lemma emit_bind {B} ev (k : unit → M W B) s :
  (emit ev ≫= k) s = prepend [ev] (k tt s).
Proof. by rewrite bind_eq. Qed.

Lemma observe_bind {B} ex (k : unit → M W B) w h :
  (observe ex ≫= k) (Rt w (Some h)) =
  k tt (Rt w (Some (Handle (returncode_seen h) ex))).
Proof. rewrite bind_eq. apply prepend_nil. Qed.

(** *** Computations that stay within a class of events, leave the
    variable [proc] alone and return *)

Definition preserves (E : event → Prop) {A} (m : M W A) : Prop :=
  ∀ s, Forall E (m s).2 ∧ proc (m s).1.2 = proc s ∧ (m s).1.1 ≠ Blocked.

Lemma preserves_ret E {A} (a : A) : preserves E (mret a : M W A).
Proof. intros s. split; [constructor | done]. Qed.

Lemma preserves_raise E {A} e : preserves E (raise e : M W A).
Proof. intros s. split; [constructor | done]. Qed.

Lemma preserves_call E {A} (f : W → res A * W) : preserves E (call f).
Proof.
  intros s. unfold call. destruct (f (world s)). split; [constructor | done].
Qed.

Lemma preserves_emit E ev : E ev → preserves E (emit ev : M W unit).
Proof. intros H s. split; [by repeat constructor | done]. Qed.

Lemma preserves_bind E {A B} (m : M W A) (f : A → M W B) :
  preserves E m → (∀ a, preserves E (f a)) → preserves E (m ≫= f).
Proof.
  intros Hm Hf s. rewrite bind_eq. destruct (Hm s) as (H1 & H2 & H3).
  destruct (m s) as [[[[a|e]|] s1] t1]; simpl in *; [|done..].
  destruct (Hf a s1) as (H4 & H5 & H6). split; [|split].
  - by apply Forall_app.
  - congruence.
  - done.
Qed.

Lemma preserves_try E {A} (m : M W A) (h : exn → M W A) :
  preserves E m → (∀ e, preserves E (h e)) → preserves E (try_except m h).
Proof.
  intros Hm Hh s. rewrite try_except_eq. destruct (Hm s) as (H1 & H2 & H3).
  destruct (m s) as [[[[a|e]|] s1] t1]; simpl in *; [done| |done].
  destruct (Hh e s1) as (H4 & H5 & H6). split; [|split].
  - by apply Forall_app.
  - congruence.
  - done.
Qed.

Lemma preserves_weaken (E E' : event → Prop) {A} (m : M W A) :
  (∀ e, E e → E' e) → preserves E m → preserves E' m.
Proof.
  intros HE Hm s. destruct (Hm s) as [H1 H2]. split; [|done].
  eapply Forall_impl; eauto.
Qed.

End run_facts.

Ltac preserves_step :=
  first
    [ apply preserves_ret
    | apply preserves_raise
    | apply preserves_call
    | apply preserves_emit; exact I
    | apply preserves_bind; [|intros ?]
    | apply preserves_try; [|intros ?]
    | match goal with
      | |- preserves _ (if ?b then _ else _) => destruct b
      | |- preserves _ (match ?x with _ => _ end) => destruct x
      end ].

Section preamble.
Context {W : Type} (system : System W) (host : Host W).

(** Events of the preparatory steps other than a download. *)
Definition quiet_event (e : event) : Prop :=
  preamble_event e ∧ ¬ is_download e.

Lemma sys_remove_file_quiet path :
  preserves quiet_event (sys_remove_file system path).
Proof.
  unfold sys_remove_file. apply preserves_bind; [|intros ?; apply preserves_call].
  apply preserves_emit. split; [exact I | tauto].
Qed.

Lemma sys_run_command_quiet argv :
  preserves quiet_event (sys_run_command system argv).
Proof.
  unfold sys_run_command. apply preserves_bind; [|intros ?; apply preserves_call].
  apply preserves_emit. split; [exact I | tauto].
Qed.

Lemma sys_change_permissions_quiet path mode :
  preserves quiet_event (sys_change_permissions system path mode).
Proof.
  unfold sys_change_permissions.
  apply preserves_bind; [|intros ?; apply preserves_call].
  apply preserves_emit. split; [exact I | tauto].
Qed.

Lemma error_output_quiet r :
  preserves quiet_event (error_output (W:=W) r).
Proof. unfold error_output. repeat preserves_step. Qed.

Lemma sys_download_file_preamble url dest :
  preserves preamble_event (sys_download_file system url dest).
Proof. unfold sys_download_file. repeat preserves_step. Qed.

Lemma quiet_preamble {A} (m : M W A) :
  preserves quiet_event m → preserves preamble_event m.
Proof. apply preserves_weaken. by intros e [? _]. Qed.

Ltac quiet_step :=
  first
    [ apply sys_remove_file_quiet
    | apply sys_run_command_quiet
    | apply sys_change_permissions_quiet
    | apply error_output_quiet
    | preserves_step ].

(** After the download, [download_vscode_cli] only extracts. *)
Definition after_download (tarball exe : str) : M W bool :=
  tar_exe ← call (which system (pystr "tar"));
  if negb (truthy tar_exe) then
    sys_remove_file system tarball;; mret false
  else
    let extract_cmd := [default [] tar_exe; pystr "-xf"; tarball] in
    extract_result ← sys_run_command system extract_cmd;
    sys_remove_file system tarball;;
    if negb (returncode extract_result =? 0)%Z then
      error_output extract_result;; mret false
    else
      extracted ← call (path_exists system exe);
      if negb extracted then mret false
      else
        actual_cli_binary ←
          call (get_absolute_path system (path_join exe (pystr "code")));
        is_file ← call (file_exists system actual_cli_binary);
        (if (is_file : bool) then
           try_except
             (current_mode ← call (get_permissions system actual_cli_binary);
              sys_change_permissions system actual_cli_binary
                (N.lor current_mode 73))
             (λ _, mret tt)
         else mret tt);;
        mret true.

Lemma after_download_quiet tarball exe :
  preserves quiet_event (after_download tarball exe).
Proof. unfold after_download. repeat quiet_step. Qed.

Lemma download_vscode_cli_eq force :
  download_vscode_cli system force =
  (abs_cli_tarball_path ← call (get_absolute_path system (pystr "vscode_cli.tar.gz"));
   abs_cli_executable_path ← call (get_absolute_path system (pystr "./code"));
   present ← call (path_exists system abs_cli_executable_path);
   if present && negb force then mret true
   else
     download_success ← sys_download_file system cli_download_url abs_cli_tarball_path;
     if negb download_success then mret false
     else after_download abs_cli_tarball_path abs_cli_executable_path).
Proof. reflexivity. Qed.

Lemma download_vscode_cli_preamble force :
  preserves preamble_event (download_vscode_cli system force).
Proof.
  rewrite download_vscode_cli_eq.
  repeat first [ apply sys_download_file_preamble
               | apply quiet_preamble, after_download_quiet
               | preserves_step ].
Qed.

End preamble.

End RunFacts.
Import RunFacts.

(* ===================================================================== *)
(** ** The monitoring loops *)
(* ===================================================================== *)

Module LoopFacts.

Section loop_facts.
Context {W : Type} (system : System W) (host : Host W).
Implicit Types (w : W) (t : tokens) (rs : list read_event).

(** The state while a launched process is monitored. *)
Definition monitoring (w : W) (exited : bool) : rt W :=
  Rt w (Some (Handle false exited)).

(** The state once the process has been seen to exit. *)
Definition reaped_state (w : W) (exited : bool) : rt W :=
  Rt w (Some (Handle true exited)).

Lemma terminate_if_alive_monitoring w (ex : bool) :
  terminate_if_alive (monitoring w ex) =
  if ex then (Ok tt, reaped_state w true, [EvPoll true])
  else (Ok tt, reaped_state w true, [EvPoll false; EvTerminate; EvWait]).
Proof. by destruct ex. Qed.

Lemma terminate_if_alive_reaped w ex :
  terminate_if_alive (reaped_state w ex) =
  (Ok tt, reaped_state w ex, [EvPoll true]).
Proof. done. Qed.

Lemma terminate_if_alive_reaping w ex :
  ∃ s' tail, terminate_if_alive (monitoring w ex) = (Ok tt, s', tail) ∧
             reaping tail.
Proof.
  rewrite terminate_if_alive_monitoring. unfold reaping.
  destruct ex; eauto 10.
Qed.

Lemma login_after_loop_eq t :
  both_found t = false →
  login_after_loop (W:=W) t = (terminate_if_alive;; mret false).
Proof. intros Ht. unfold login_after_loop. by rewrite Ht. Qed.

Lemma login_after_loop_failed t w ex :
  both_found t = false →
  ∃ s' tail, login_after_loop t (monitoring w ex) = (Ok false, s', tail) ∧
             reaping tail.
Proof.
  intros Ht. unfold login_after_loop. rewrite Ht. simpl.
  rewrite bind_eq, terminate_if_alive_monitoring. unfold reaping.
  destruct ex; simpl; eauto 10.
Qed.

Lemma login_loop_nil p t :
  login_loop host p [] t = (observe (exited_at_eof p);; login_after_loop t).
Proof. done. Qed.

Lemma login_loop_empty_line p now exited rs t :
  login_loop host p (Line now [] exited :: rs) t =
  (observe (exited_at_eof p);; login_after_loop t).
Proof. done. Qed.

Lemma login_loop_read_error p exited rs t :
  login_loop host p (ReadError exited :: rs) t =
  (observe exited;; raise OtherException).
Proof. done. Qed.

Lemma login_loop_silence p rs t : login_loop host p (Silence :: rs) t = block.
Proof. done. Qed.

Lemma login_loop_line p now c text exited rs t :
  login_loop host p (Line now (c :: text) exited :: rs) t =
  (observe exited;;
   if timed_out (start_time p) now then terminate;; wait;; mret false
   else
     let t' := scan_line t (c :: text) in
     if both_found t' then
       show_login_prompt host (default [] (auth_url_found t'))
         (default [] (auth_code_found t'));;
       mret true
     else
       ended ← poll;
       if (ended : bool) then login_after_loop t'
       else login_loop host p rs t').
Proof. done. Qed.



(** The display event of [login] for the tokens [t]. *)
Definition auth_event (t : tokens) (shown : bool) : event :=
  EvDisplayAuth (default [] (auth_url_found t))
    (default [] (auth_code_found t)) shown.

(** What the caller of a display gets: the value of the function when
    the display returns, its exception otherwise. *)
Definition after_display (r : res unit) : res bool :=
  match r with
  | Ok _ => Ok true
  | Raise e => Raise e
  end.

(** How the loop of [login] can end, from the tokens [t] and over the
    reads [rs]: with the presentation call made, for the tokens
    completed by some prefix of the lines, and ending as [r]; with a
    read raising; with [False], the process reaped; or not at all, at a
    read that does not return. *)
Inductive login_loop_end (w : W) (t : tokens) (rs : list read_event)
    : ran bool * rt W * list event → Prop :=
  | End_display n lines w0 w' ex (r : res unit) :
      lines `prefix_of` line_texts rs →
      both_found (scan_lines t lines) = true →
      display_github_auth_link host
        (default [] (auth_url_found (scan_lines t lines)))
        (default [] (auth_code_found (scan_lines t lines))) w0 = (r, w') →
      login_loop_end w t rs
        (after_display r, monitoring w' ex,
         polls n ++ [auth_event (scan_lines t lines) (returned r)])
  | End_read_error n ex :
      login_loop_end w t rs (Raise OtherException, monitoring w ex, polls n)
  | End_failed n s' tail :
      reaping tail →
      login_loop_end w t rs (Ok false, s', polls n ++ tail)
  | End_blocked n :
      Silence ∈ rs →
      login_loop_end w t rs (Blocked, monitoring w false, polls n).

Lemma login_loop_end_step w t now l exited rs x :
  login_loop_end w (scan_line t l) rs x →
  login_loop_end w t (Line now l exited :: rs) (prepend [EvPoll false] x).
Proof.
  intros [n lines w0 w' ex r Hpre Hb Hd|n ex|n s' tail Hr|n Hin];
    unfold prepend; simpl.
  - apply (End_display w t _ (S n) (l :: lines) w0 w' ex r).
    + by apply prefix_cons.
    + done.
    + done.
  - apply (End_read_error w t _ (S n) ex).
  - by apply (End_failed w t _ (S n) s' tail).
  - apply (End_blocked w t _ (S n)). by apply list_elem_of_further.
Qed.

Lemma login_after_loop_end w t rs ex :
  both_found t = false →
  login_loop_end w t rs (login_after_loop t (monitoring w ex)).
Proof.
  intros Ht. destruct (login_after_loop_failed t w ex Ht) as (s' & tail & -> & Hr).
  by apply (End_failed w t rs 0 s' tail).
Qed.

Lemma login_loop_shape p rs t w :
  both_found t = false →
  login_loop_end w t rs (login_loop host p rs t (monitoring w false)).
Proof.
  revert t. induction rs as [|r rs IH]; intros t Ht.
  - rewrite login_loop_nil. unfold monitoring. rewrite observe_bind.
    by apply login_after_loop_end.
  - destruct r as [now text exited|exited|].
    2:{ rewrite login_loop_read_error. unfold monitoring.
        rewrite observe_bind. apply (End_read_error w t _ 0 exited). }
    2:{ rewrite login_loop_silence. apply (End_blocked w t _ 0).
        apply list_elem_of_here. }
    destruct text as [|c text].
    { rewrite login_loop_empty_line. unfold monitoring. rewrite observe_bind.
      by apply login_after_loop_end. }
    rewrite login_loop_line. unfold monitoring. rewrite observe_bind.
    simpl returncode_seen.
    destruct (timed_out (start_time p) now) eqn:Htime.
    { apply (End_failed w t _ 0 (reaped_state w true) [EvTerminate; EvWait]).
      by left. }
    cbv zeta.
    pose proof (End_display w t (Line now (c :: text) exited :: rs)
                  0 [c :: text]) as Hshow.
    change (scan_lines t [c :: text]) with (scan_line t (c :: text)) in Hshow.
    remember (scan_line t (c :: text)) as t' eqn:Et'.
    destruct (both_found t') eqn:Hfound.
    { unfold show_login_prompt. rewrite bind_eq.
      change (world (Rt w ?x)) with w.
      destruct (display_github_auth_link host _ _ w) as [r w'] eqn:Hd.
      specialize (Hshow w w' exited r).
      destruct r as [[]|e]; apply Hshow; try done;
        by apply prefix_cons, prefix_nil. }
    rewrite bind_eq. destruct exited.
    + change (poll _) with
        (Returned (Ok true), reaped_state w true, [EvPoll true]).
      cbv iota beta.
      rewrite login_after_loop_eq by done.
      rewrite bind_eq, terminate_if_alive_reaped.
      apply (End_failed w t _ 0 _ [EvPoll true; EvPoll true]).
      unfold reaping. auto.
    + change (poll _) with
        (Returned (Ok false), monitoring w false, [EvPoll false]).
      cbv iota beta. subst t'.
      apply (login_loop_end_step w t now (c :: text) false), IH, Hfound.
Qed.

(** *** The scanner over a sequence of lines *)

(** Each variable is unset or holds a non-empty match. *)
Definition tokens_wf (t : tokens) : Prop :=
  (∀ u, auth_url_found t = Some u → u ≠ []) ∧
  (∀ c, auth_code_found t = Some c → c ≠ []).

Lemma scan_line_eq t line :
  tokens_wf t →
  scan_line t line =
  Tokens (match auth_url_found t with
          | Some u => Some u
          | None => url_of_line line
          end)
         (match auth_code_found t with
          | Some c => Some c
          | None => code_of_line line
          end).
Proof.
  intros [Hu Hc]. unfold scan_line, url_of_line, code_of_line. f_equal.
  - destruct (auth_url_found t) as [u|] eqn:E.
    + rewrite truthy_Some by auto. done.
    + simpl. destruct (search_group0 url_re line); [|done].
      by destruct (contains _ _).
  - destruct (auth_code_found t) as [c|] eqn:E.
    + rewrite truthy_Some by auto. done.
    + simpl. by destruct (search_group0 code_re line).
Qed.

Lemma scan_line_wf t line : tokens_wf t → tokens_wf (scan_line t line).
Proof.
  intros Hwf. rewrite scan_line_eq by done. destruct Hwf as [Hu Hc].
  split; simpl.
  - intros u. destruct (auth_url_found t) as [u'|] eqn:E.
    + intros [= <-]. auto.
    + intros H%url_of_line_truthy. by destruct u.
  - intros c. destruct (auth_code_found t) as [c'|] eqn:E.
    + intros [= <-]. auto.
    + intros H%code_of_line_truthy. by destruct c.
Qed.

Lemma scan_lines_eq t lines :
  tokens_wf t →
  scan_lines t lines =
  Tokens (match auth_url_found t with
          | Some u => Some u
          | None => first_match url_of_line lines
          end)
         (match auth_code_found t with
          | Some c => Some c
          | None => first_match code_of_line lines
          end).
Proof.
  revert t. induction lines as [|l lines IH]; intros t Hwf.
  - unfold scan_lines. simpl. destruct t as [[u|] [c|]]; done.
  - change (scan_lines t (l :: lines)) with (scan_lines (scan_line t l) lines).
    rewrite IH by by apply scan_line_wf. rewrite scan_line_eq by done. simpl.
    f_equal.
    + destruct (auth_url_found t); [done|]. by destruct (url_of_line l).
    + destruct (auth_code_found t); [done|]. by destruct (code_of_line l).
Qed.

Lemma no_tokens_wf : tokens_wf no_tokens.
Proof. split; intros ? [=]. Qed.

Lemma scan_lines_no_tokens lines :
  scan_lines no_tokens lines =
  Tokens (first_match url_of_line lines) (first_match code_of_line lines).
Proof. by rewrite scan_lines_eq by apply no_tokens_wf. Qed.

Lemma first_match_prefix f (lines all : list str) x :
  lines `prefix_of` all → first_match f lines = Some x →
  first_match f all = Some x.
Proof.
  intros [k ->]. induction lines as [|l lines IH]; simpl; [done|].
  destruct (f l); auto.
Qed.

Lemma first_match_truthy f lines x :
  (∀ l m, f l = Some m → truthy (Some m) = true) →
  first_match f lines = Some x → truthy (Some x) = true.
Proof.
  intros Hf. induction lines as [|l lines IH]; simpl; [done|].
  destruct (f l) eqn:E; [intros [= <-]; eauto | done].
Qed.

(** With both tokens found over a prefix of the lines, the prompt shows
    the first URL and the first code of the whole sequence. *)
Lemma auth_event_first_match lines all shown :
  lines `prefix_of` all →
  both_found (scan_lines no_tokens lines) = true →
  ∃ u c, auth_event (scan_lines no_tokens lines) shown = EvDisplayAuth u c shown ∧
         first_match url_of_line all = Some u ∧
         first_match code_of_line all = Some c.
Proof.
  intros Hpre. rewrite scan_lines_no_tokens. unfold both_found, auth_event. simpl.
  intros [Hu Hc]%andb_true_iff.
  apply truthy_true in Hu as (u & Eu & _). apply truthy_true in Hc as (c & Ec & _).
  exists u, c. rewrite Eu, Ec. split; [done|].
  split; eapply first_match_prefix; eauto.
Qed.

(** A line with a recognisable URL and a code completes the pair,
    whatever was found before. *)
Lemma scan_line_completes t line u c :
  url_of_line line = Some u → code_of_line line = Some c →
  both_found (scan_line t line) = true.
Proof.
  intros Hu Hc. unfold both_found, scan_line. simpl. apply andb_true_iff. split.
  - destruct (truthy (auth_url_found t)) eqn:E; simpl; [done|].
    pose proof (url_of_line_truthy _ _ Hu) as Ht.
    apply url_of_line_Some in Hu as [Hs Hf]. by rewrite Hs, Hf.
  - destruct (truthy (auth_code_found t)) eqn:E; simpl; [done|].
    unfold code_of_line in Hc. rewrite Hc. by eapply code_of_line_truthy.
Qed.

(** *** The loop of [connect] *)

Lemma connect_loop_nil tunnel_name p :
  connect_loop host tunnel_name p [] =
  (observe (exited_at_eof p);; connect_eof).
Proof. done. Qed.

Lemma connect_loop_empty_line tunnel_name p now exited rs :
  connect_loop host tunnel_name p (Line now [] exited :: rs) =
  (observe (exited_at_eof p);; connect_eof).
Proof. done. Qed.

Lemma connect_loop_read_error tunnel_name p exited rs :
  connect_loop host tunnel_name p (ReadError exited :: rs) =
  (observe exited;; raise OtherException).
Proof. done. Qed.

Lemma connect_loop_silence tunnel_name p rs :
  connect_loop host tunnel_name p (Silence :: rs) = block.
Proof. done. Qed.

Lemma connect_loop_line tunnel_name p now c text exited rs :
  connect_loop host tunnel_name p (Line now (c :: text) exited :: rs) =
  (observe exited;;
   if timed_out (start_time p) now then terminate;; wait;; mret false
   else
     match search_group0 (tunnel_re (unicode_alnum host)) (c :: text) with
     | Some tunnel_url =>
         show_tunnel_ready host tunnel_url tunnel_name;; mret true
     | None =>
         ended ← poll;
         if (ended : bool) then
           (if drain_raises p then raise OtherException else mret tt);;
           mret false
         else connect_loop host tunnel_name p rs
     end).
Proof. done. Qed.

Lemma connect_eof_monitoring w (ex : bool) :
  connect_eof (monitoring w ex) =
  if ex then (Ok false, reaped_state w true, [EvPoll true])
  else (Ok false, reaped_state w true, [EvPoll false; EvTerminate; EvWait]).
Proof. by destruct ex. Qed.



(** How the loop of [connect] can end. *)
Inductive connect_loop_end (w : W) (tunnel_name : str) (rs : list read_event)
    : ran bool * rt W * list event → Prop :=
  | CEnd_display n text url w0 w' ex (r : res unit) :
      text ∈ line_texts rs →
      search_group0 (tunnel_re (unicode_alnum host)) text = Some url →
      display_vscode_connection_options host url tunnel_name w0 = (r, w') →
      connect_loop_end w tunnel_name rs
        (after_display r, monitoring w' ex,
         polls n ++ [EvDisplayTunnel url tunnel_name (returned r)])
  | CEnd_read_error n ex :
      connect_loop_end w tunnel_name rs
        (Raise OtherException, monitoring w ex, polls n)
  | CEnd_drain_error n ex :
      connect_loop_end w tunnel_name rs
        (Raise OtherException, reaped_state w ex, polls n ++ [EvPoll true])
  | CEnd_failed n s' tail :
      reaping tail →
      connect_loop_end w tunnel_name rs (Ok false, s', polls n ++ tail)
  | CEnd_blocked n :
      Silence ∈ rs →
      connect_loop_end w tunnel_name rs (Blocked, monitoring w false, polls n).

Lemma connect_loop_end_step w tunnel_name now l exited rs x :
  connect_loop_end w tunnel_name rs x →
  connect_loop_end w tunnel_name (Line now l exited :: rs)
    (prepend [EvPoll false] x).
Proof.
  intros [n text url w0 w' ex r Hin Hs Hd|n ex|n ex|n s' tail Hr|n Hin];
    unfold prepend; simpl.
  - apply (CEnd_display w tunnel_name _ (S n) text url w0 w' ex r);
      [by apply list_elem_of_further | done | done].
  - apply (CEnd_read_error w tunnel_name _ (S n) ex).
  - apply (CEnd_drain_error w tunnel_name _ (S n) ex).
  - by apply (CEnd_failed w tunnel_name _ (S n) s' tail).
  - apply (CEnd_blocked w tunnel_name _ (S n)). by apply list_elem_of_further.
Qed.

Lemma connect_eof_end w tunnel_name rs ex :
  connect_loop_end w tunnel_name rs (connect_eof (monitoring w ex)).
Proof.
  rewrite connect_eof_monitoring. destruct ex.
  - apply (CEnd_failed w tunnel_name rs 0 _ [EvPoll true]). unfold reaping. auto.
  - apply (CEnd_failed w tunnel_name rs 0 _ [EvPoll false; EvTerminate; EvWait]).
    unfold reaping. auto.
Qed.

Lemma connect_loop_shape tunnel_name p rs w :
  connect_loop_end w tunnel_name rs
    (connect_loop host tunnel_name p rs (monitoring w false)).
Proof.
  induction rs as [|r rs IH].
  - rewrite connect_loop_nil. unfold monitoring. rewrite observe_bind.
    apply connect_eof_end.
  - destruct r as [now text exited|exited|].
    2:{ rewrite connect_loop_read_error. unfold monitoring.
        rewrite observe_bind. apply (CEnd_read_error w _ _ 0 exited). }
    2:{ rewrite connect_loop_silence. apply (CEnd_blocked w _ _ 0).
        apply list_elem_of_here. }
    destruct text as [|c text].
    { rewrite connect_loop_empty_line. unfold monitoring. rewrite observe_bind.
      apply connect_eof_end. }
    rewrite connect_loop_line. unfold monitoring. rewrite observe_bind.
    simpl returncode_seen.
    destruct (timed_out (start_time p) now) eqn:Htime.
    { apply (CEnd_failed w _ _ 0 (reaped_state w true) [EvTerminate; EvWait]).
      by left. }
    destruct (search_group0 _ (c :: text)) as [url|] eqn:Hs.
    { unfold show_tunnel_ready. rewrite bind_eq.
      change (world (Rt w ?x)) with w.
      destruct (display_vscode_connection_options host _ _ w) as [r w'] eqn:Hd.
      pose proof (CEnd_display w tunnel_name
                    (Line now (c :: text) exited :: rs)
                    0 (c :: text) url w w' exited r) as H.
      destruct r as [[]|e]; apply H; try done; apply list_elem_of_here. }
    rewrite bind_eq. destruct exited.
    + change (poll _) with (Returned (Ok true), reaped_state w true, [EvPoll true]).
      cbv iota beta. rewrite bind_eq. destruct (drain_raises p).
      * apply (CEnd_drain_error w _ _ 0 true).
      * apply (CEnd_failed w _ _ 0 _ [EvPoll true]). unfold reaping. auto.
    + change (poll _) with
        (Returned (Ok false), monitoring w false, [EvPoll false]).
      cbv iota beta.
      apply (connect_loop_end_step w tunnel_name now (c :: text) false), IH.
Qed.

(** *** The guarded block: launch, monitor, handlers *)

(** The presentation calls a block may make for the process [p], with
    the event each leaves and how it ends. *)
Definition login_display (p : process) (d : event) (r : res unit) : Prop :=
  ∃ lines w0 w',
    lines `prefix_of` line_texts (reads p) ∧
    both_found (scan_lines no_tokens lines) = true ∧
    display_github_auth_link host
      (default [] (auth_url_found (scan_lines no_tokens lines)))
      (default [] (auth_code_found (scan_lines no_tokens lines))) w0 = (r, w') ∧
    d = auth_event (scan_lines no_tokens lines) (returned r).

Definition connect_display (tunnel_name : str) (p : process) (d : event)
    (r : res unit) : Prop :=
  ∃ text url w0 w',
    text ∈ line_texts (reads p) ∧
    search_group0 (tunnel_re (unicode_alnum host)) text = Some url ∧
    display_vscode_connection_options host url tunnel_name w0 = (r, w') ∧
    d = EvDisplayTunnel url tunnel_name (returned r).

(** The runs of a guarded block from the world [w]: [Popen] raises; or
    the process is launched and the display succeeds after [n] polls; or
    it is launched, and reaped after a failed display or none; or it is
    launched and the display raises [FileNotFoundError], which the first
    handler takes for a failed launch: the failure value is returned
    with the process as it is; or it is launched and a read of its
    output never returns. *)
Inductive monitor_end (cmd : popen_cmd) (cwd : option str) (w : W)
    (D : process → event → res unit → Prop)
    : ran bool * rt W * list event → Prop :=
  | Mon_not_spawned e w' :
      Popen host cmd cwd w = (Raise e, w') →
      monitor_end cmd cwd w D (Ok false, Rt w' None, [EvPopen cmd cwd false])
  | Mon_shown p w1 n d w' ex :
      Popen host cmd cwd w = (Ok p, w1) →
      D p d (Ok tt) →
      monitor_end cmd cwd w D
        (Ok true, monitoring w' ex, EvPopen cmd cwd true :: polls n ++ [d])
  | Mon_failed p w1 n mid tail s' :
      Popen host cmd cwd w = (Ok p, w1) →
      reaping tail →
      mid = [] ∨ (∃ d, D p d (Raise OtherException) ∧ mid = [d]) →
      monitor_end cmd cwd w D
        (Ok false, s', EvPopen cmd cwd true :: polls n ++ mid ++ tail)
  | Mon_left_running p w1 n d w' ex :
      Popen host cmd cwd w = (Ok p, w1) →
      D p d (Raise FileNotFoundError) →
      monitor_end cmd cwd w D
        (Ok false, monitoring w' ex, EvPopen cmd cwd true :: polls n ++ [d])
  | Mon_blocked p w1 n :
      Popen host cmd cwd w = (Ok p, w1) →
      Silence ∈ reads p →
      monitor_end cmd cwd w D
        (Blocked, monitoring w1 false, EvPopen cmd cwd true :: polls n).

Lemma on_exception_monitoring e w ex :
  e = OtherException →
  ∃ s' tail, on_exception (W:=W) false e (monitoring w ex) = (Ok false, s', tail) ∧
             (tail = [EvPoll true] ∨ tail = [EvPoll false; EvTerminate; EvWait]).
Proof.
  intros ->. destruct ex; eexists _, _; (split; [reflexivity | auto]).
Qed.

Lemma on_exception_no_process e w :
  on_exception (W:=W) false e (Rt w None) = (Ok false, Rt w None, []).
Proof. by destruct e. Qed.

Lemma on_exception_not_found s :
  on_exception (W:=W) false FileNotFoundError s = (Ok false, s, []).
Proof. done. Qed.

Ltac mon_reduce := unfold prepend; cbn [fst snd app].

Lemma login_monitor_shape cli provider w :
  monitor_end
    (ShellCmd (cli ++ pystr " tunnel user login --provider " ++ provider))
    None w login_display
    (login_monitor host cli provider (Rt w None)).
Proof.
  unfold login_monitor. rewrite try_except_eq, bind_eq. unfold popen.
  change (world (Rt w None)) with w.
  set (cmd := ShellCmd _).
  destruct (Popen host cmd None w) as [[p|e] w1] eqn:HP; cbv iota beta.
  2:{ rewrite on_exception_no_process. by eapply Mon_not_spawned. }
  change (Rt w1 (Some _)) with (monitoring w1 false).
  destruct (login_loop_shape p (reads p) no_tokens w1 eq_refl)
    as [n lines w0 w' ex r Hpre Hb Hd|n ex|n s' tail Hr|n Hin].
  - assert (login_display p (auth_event (scan_lines no_tokens lines) (returned r)) r)
      as HD by by exists lines, w0, w'.
    destruct r as [[]|[]]; simpl after_display; mon_reduce.
    + by eapply Mon_shown.
    + rewrite on_exception_not_found. mon_reduce. rewrite app_nil_r.
      by eapply Mon_left_running.
    + destruct (on_exception_monitoring OtherException w' ex eq_refl)
        as (s' & tail & -> & Ht). mon_reduce.
      rewrite <- (app_assoc (polls n)).
      eapply Mon_failed; [done| |].
      * unfold reaping. destruct Ht; auto.
      * right. eexists. split; [|done]. done.
  - mon_reduce.
    destruct (on_exception_monitoring OtherException w1 ex eq_refl)
      as (s' & tail & -> & Ht). mon_reduce.
    change (polls n ++ tail) with (polls n ++ [] ++ tail).
    eapply Mon_failed; [done| |by left].
    unfold reaping. destruct Ht; auto.
  - mon_reduce. change (polls n ++ tail) with (polls n ++ [] ++ tail).
    eapply Mon_failed; [done|done|by left].
  - mon_reduce. by eapply Mon_blocked.
Qed.

Lemma connect_monitor_shape cli a cwd w :
  monitor_end
    (ArgvCmd (cmd_list cli (name a)
                (final_extensions (include_default_extensions a) (extensions a))))
    (Some cwd) w (connect_display (name a))
    (connect_monitor host cli a cwd (Rt w None)).
Proof.
  unfold connect_monitor. rewrite try_except_eq, bind_eq. unfold popen.
  change (world (Rt w None)) with w.
  set (cmd := ArgvCmd _).
  destruct (Popen host cmd (Some cwd) w) as [[p|e] w1] eqn:HP; cbv iota beta.
  2:{ rewrite on_exception_no_process. by eapply Mon_not_spawned. }
  change (Rt w1 (Some _)) with (monitoring w1 false).
  destruct (connect_loop_shape (name a) p (reads p) w1)
    as [n text url w0 w' ex r Hin Hs Hd|n ex|n ex|n s' tail Hr|n Hin].
  - assert (connect_display (name a) p
              (EvDisplayTunnel url (name a) (returned r)) r)
      as HD by by exists text, url, w0, w'.
    destruct r as [[]|[]]; simpl after_display; mon_reduce.
    + by eapply Mon_shown.
    + rewrite on_exception_not_found. mon_reduce. rewrite app_nil_r.
      by eapply Mon_left_running.
    + destruct (on_exception_monitoring OtherException w' ex eq_refl)
        as (s' & tail & -> & Ht). mon_reduce.
      rewrite <- (app_assoc (polls n)).
      eapply Mon_failed; [done| |].
      * unfold reaping. destruct Ht; auto.
      * right. eexists. split; [|done]. done.
  - mon_reduce.
    destruct (on_exception_monitoring OtherException w1 ex eq_refl)
      as (s' & tail & -> & Ht). mon_reduce.
    change (polls n ++ tail) with (polls n ++ [] ++ tail).
    eapply Mon_failed; [done| |by left].
    unfold reaping. destruct Ht; auto.
  - mon_reduce.
    change (on_exception false OtherException (reaped_state w1 ex))
      with (Returned (Ok false), reaped_state w1 ex, [EvPoll true]).
    mon_reduce. rewrite <- (app_assoc (polls n)).
    change (polls n ++ [EvPoll true] ++ [EvPoll true])
      with (polls n ++ [] ++ [EvPoll true; EvPoll true]).
    eapply Mon_failed; [done| |by left]. unfold reaping. auto.
  - mon_reduce. change (polls n ++ tail) with (polls n ++ [] ++ tail).
    eapply Mon_failed; [done|done|by left].
  - mon_reduce. by eapply Mon_blocked.
Qed.

End loop_facts.
End LoopFacts.
Import LoopFacts.

(* ===================================================================== *)
(** ** Whole runs of [login] and [connect] *)
(* ===================================================================== *)

Module TopFacts.

Section top_facts.
Context {W : Type} (system : System W) (host : Host W).

(** From a state with no process, [m] runs preparatory steps and then
    either gives up, never with [Ok true], or hands over to one of the
    guarded blocks [K]. *)
Definition staged (K : M W bool → Prop) (m : M W bool) : Prop :=
  ∀ s, proc s = None →
    ∃ tr0, Forall preamble_event tr0 ∧
      ((∃ (r : res bool) s', m s = (r, s', tr0) ∧ r ≠ Ok true ∧ proc s' = None)
       ∨ (∃ k s0, K k ∧ proc s0 = None ∧ m s = prepend tr0 (k s0))).

Lemma staged_ret_false K : staged K (mret false).
Proof.
  intros s Hs. exists []. split; [constructor|]. left.
  exists (Ok false), s. done.
Qed.

Lemma staged_here (K : M W bool → Prop) k : K k → staged K k.
Proof.
  intros Hk s Hs. exists []. split; [constructor|]. right.
  exists k, s. by rewrite prepend_nil.
Qed.

Lemma staged_bind {A} K (m : M W A) (f : A → M W bool) :
  preserves preamble_event m → (∀ a, staged K (f a)) → staged K (m ≫= f).
Proof.
  intros Hm Hf s Hs. rewrite bind_eq. destruct (Hm s) as (H1 & H2 & H3).
  destruct (m s) as [[[[a|e]|] s1] t1]; simpl in *; [| |done].
  - destruct (Hf a s1) as (tr0 & Htr0 & Hcases); [congruence|].
    exists (t1 ++ tr0). split; [by apply Forall_app|].
    destruct Hcases as [(r & s' & -> & Hr & Hp)|(k & s0 & Hk & Hp & ->)].
    + left. exists r, s'. done.
    + right. exists k, s0. by rewrite prepend_prepend.
  - exists t1. split; [done|]. left. exists (Raise e), s1.
    split; [done|]. split; [done | congruence].
Qed.

Lemma configure_git_preamble user_name user_email :
  preserves preamble_event (configure_git system user_name user_email).
Proof.
  unfold configure_git.
  repeat first [ apply quiet_preamble, sys_run_command_quiet
               | apply quiet_preamble, error_output_quiet
               | preserves_step ].
Qed.

Lemma login_staged provider :
  staged (λ k, ∃ cli, k = login_monitor host cli provider)
    (login system host provider).
Proof.
  unfold login.
  repeat first
    [ apply staged_ret_false
    | apply staged_here; eauto; fail
    | apply staged_bind; [|intros ?]
    | apply download_vscode_cli_preamble
    | apply preserves_call
    | match goal with |- staged _ (if ?b then _ else _) => destruct b end ].
Qed.

Lemma connect_staged a :
  staged (λ k, ∃ cli cwd, k = connect_monitor host cli a cwd)
    (connect system host a).
Proof.
  unfold connect.
  repeat first
    [ apply staged_ret_false
    | apply staged_here; eauto; fail
    | apply staged_bind; [|intros ?]
    | apply download_vscode_cli_preamble
    | apply configure_git_preamble
    | match goal with |- staged _ (if ?b then _ else _) => destruct b end
    | preserves_step ].
Qed.

(** Every run of [login]: preparatory events, then nothing more and no
    success, or one run of the guarded block. *)
Lemma login_run provider w :
  ∃ tr0, Forall preamble_event tr0 ∧
    ((∃ (r : res bool) s',
        run (login system host provider) w = (r, s', tr0) ∧ r ≠ Ok true)
     ∨ (∃ cli w0 y,
          monitor_end host
            (ShellCmd (cli ++ pystr " tunnel user login --provider " ++ provider))
            None w0 (login_display host) y ∧
          run (login system host provider) w = prepend tr0 y)).
Proof.
  destruct (login_staged provider (Rt w None) eq_refl) as (tr0 & Htr0 & Hcases).
  exists tr0. split; [done|].
  destruct Hcases as [(r & s' & E & Hr & _)|(k & [w0 pr] & [cli ->] & Hp & E)].
  - left. eauto.
  - right. simpl in Hp. subst pr.
    exists cli, w0, (login_monitor host cli provider (Rt w0 None)).
    split; [apply login_monitor_shape | done].
Qed.

Lemma connect_run a w :
  ∃ tr0, Forall preamble_event tr0 ∧
    ((∃ (r : res bool) s',
        run (connect system host a) w = (r, s', tr0) ∧ r ≠ Ok true)
     ∨ (∃ cli cwd w0 y,
          monitor_end host
            (ArgvCmd (cmd_list cli (name a)
               (final_extensions (include_default_extensions a) (extensions a))))
            (Some cwd) w0 (connect_display host (name a)) y ∧
          run (connect system host a) w = prepend tr0 y)).
Proof.
  destruct (connect_staged a (Rt w None) eq_refl) as (tr0 & Htr0 & Hcases).
  exists tr0. split; [done|].
  destruct Hcases as [(r & s' & E & Hr & _)|(k & [w0 pr] & (cli & cwd & ->) & Hp & E)].
  - left. eauto.
  - right. simpl in Hp. subst pr.
    exists cli, cwd, w0, (connect_monitor host cli a cwd (Rt w0 None)).
    split; [apply connect_monitor_shape | done].
Qed.

End top_facts.

(** *** Status of the process along a trace *)

Lemma status_of_app tr1 tr2 :
  status_of (tr1 ++ tr2) = foldl step_status (status_of tr1) tr2.
Proof. unfold status_of. apply foldl_app. Qed.

Lemma status_of_preamble tr0 :
  Forall preamble_event tr0 → status_of tr0 = NotStarted.
Proof.
  induction tr0 as [|e tr0 IH] using rev_ind; [done|].
  intros [H0 He]%Forall_app. apply Forall_cons in He as [He _].
  rewrite status_of_app, IH by done. destruct e; simpl in *; done.
Qed.

Lemma status_after_preamble tr0 tr :
  Forall preamble_event tr0 → status_of (tr0 ++ tr) = status_of tr.
Proof. intros H. by rewrite status_of_app, status_of_preamble. Qed.

Lemma foldl_polls st n :
  foldl step_status st (polls n) = st.
Proof. induction n as [|n IH]; [done|]. simpl. by destruct st. Qed.

Lemma status_running_polls cmd cwd n tr :
  status_of (EvPopen cmd cwd true :: polls n ++ tr) =
  foldl step_status Running tr.
Proof.
  unfold status_of. simpl. by rewrite foldl_app, foldl_polls.
Qed.

Lemma reaping_status tail :
  reaping tail → foldl step_status Running tail = Reaped.
Proof. intros [->|[->|[->| ->]]]; done. Qed.

End TopFacts.
Import TopFacts.

(* ===================================================================== *)
(** ** The order on strings and the sorted extension flags *)
(* ===================================================================== *)

Module OrderFacts.

Lemma str_leb_total a b : str_leb a b = true ∨ str_leb b a = true.
Proof.
  revert b. induction a as [|x a IH]; intros [|y b]; simpl; auto.
  destruct (N.ltb_spec x y), (N.ltb_spec y x), (N.eqb_spec x y),
    (N.eqb_spec y x); auto; lia.
Qed.

Lemma str_leb_trans a b c :
  str_leb a b = true → str_leb b c = true → str_leb a c = true.
Proof.
  revert b c. induction a as [|x a IH]; intros [|y b] [|z c]; simpl; auto;
    try discriminate.
  destruct (N.ltb_spec x y), (N.ltb_spec y z), (N.ltb_spec x z),
    (N.eqb_spec x y), (N.eqb_spec y z), (N.eqb_spec x z);
    try discriminate; try lia; eauto.
Qed.

Lemma str_leb_antisym a b :
  str_leb a b = true → str_leb b a = true → a = b.
Proof.
  revert b. induction a as [|x a IH]; intros [|y b]; simpl; auto;
    try discriminate.
  destruct (N.ltb_spec x y), (N.ltb_spec y x), (N.eqb_spec x y),
    (N.eqb_spec y x); try discriminate; try lia.
  intros. subst. f_equal. auto.
Qed.

#[global] Instance str_le_total : Total str_le.
Proof. intros a b. apply str_leb_total. Qed.
#[global] Instance str_le_trans : Transitive str_le.
Proof. intros a b c. apply str_leb_trans. Qed.
#[global] Instance str_le_antisym : AntiSymm (=) str_le.
Proof. intros a b. apply str_leb_antisym. Qed.

Lemma sorted_Sorted l : Sorted str_le (sorted l).
Proof. apply Sorted_merge_sort, _. Qed.

Lemma sorted_perm l : sorted l ≡ₚ l.
Proof. apply merge_sort_Permutation. Qed.

(** Any sorted arrangement of the same identifiers is the one [sorted]
    returns: the result does not depend on the order in which the set is
    listed, nor on the sorting algorithm. *)
Lemma sorted_unique l l' :
  Sorted str_le l' → l' ≡ₚ l → l' = sorted l.
Proof.
  intros Hs Hp. apply (Sorted_unique str_le); [done | apply sorted_Sorted |].
  by rewrite sorted_perm.
Qed.

Lemma sorted_of_perm l1 l2 : l1 ≡ₚ l2 → sorted l1 = sorted l2.
Proof.
  intros Hp. apply sorted_unique; [apply sorted_Sorted|].
  by rewrite sorted_perm.
Qed.

Lemma foldl_extend base (ids : list str) :
  foldl (λ acc ext_id, acc ++ [pystr "--install-extension"; ext_id]) base ids =
  base ++ (ids ≫= λ ext_id, [pystr "--install-extension"; ext_id]).
Proof.
  revert base. induction ids as [|x ids IH]; intros base; simpl.
  - by rewrite app_nil_r.
  - rewrite IH, <- app_assoc. done.
Qed.

Lemma cmd_list_eq (cli tunnel_name : str) (exts : gset str) :
  cmd_list cli tunnel_name exts =
  [cli; pystr "tunnel"; pystr "--accept-server-license-terms";
   pystr "--name"; tunnel_name]
  ++ (sorted (elements exts) ≫= λ ext_id, [pystr "--install-extension"; ext_id]).
Proof.
  unfold cmd_list. destruct (decide (exts = ∅)) as [->|_].
  - by rewrite elements_empty.
  - apply foldl_extend.
Qed.

Lemma final_extensions_perm inc (e1 e2 : list str) :
  e1 ≡ₚ e2 → final_extensions inc (Some e1) = final_extensions inc (Some e2).
Proof.
  intros Hp. unfold final_extensions.
  destruct e1 as [|x1 e1], e2 as [|x2 e2].
  - done.
  - by apply Permutation_nil_cons in Hp.
  - symmetry in Hp. by apply Permutation_nil_cons in Hp.
  - f_equal. by apply list_to_set_perm_L.
Qed.

End OrderFacts.
Import OrderFacts.

(* ===================================================================== *)
(** ** Events of a run *)
(* ===================================================================== *)

Module TraceFacts.

Lemma count_app P `{!∀ e, Decision (P e)} tr1 tr2 :
  count P (tr1 ++ tr2) = count P tr1 + count P tr2.
Proof. unfold count. by rewrite filter_app, length_app. Qed.

Lemma count_cons P `{!∀ e, Decision (P e)} e tr :
  count P (e :: tr) = (if decide (P e) then 1 else 0) + count P tr.
Proof. unfold count. rewrite filter_cons. by destruct (decide (P e)). Qed.

Lemma count_none P `{!∀ e, Decision (P e)} tr :
  Forall (λ e, ¬ P e) tr → count P tr = 0.
Proof.
  induction 1 as [|e tr He _ IH]; [done|].
  rewrite count_cons, IH. by destruct (decide (P e)).
Qed.

Lemma polls_Forall (P : event → Prop) n : P (EvPoll false) → Forall P (polls n).
Proof. intros H. unfold polls. apply Forall_replicate. done. Qed.

Lemma count_display_auth_polls n : count is_display_auth (polls n) = 0.
Proof. apply count_none, polls_Forall. by intros []. Qed.

Lemma elem_of_polls e n : e ∈ polls n → e = EvPoll false.
Proof. unfold polls. by intros [-> _]%elem_of_replicate. Qed.

Lemma reaping_Forall (P : event → Prop) tail :
  P EvTerminate → P EvWait → P (EvPoll true) → P (EvPoll false) →
  reaping tail → Forall P tail.
Proof. intros ???? [->|[->|[->| ->]]]; repeat constructor; done. Qed.

Lemma preamble_not P tr0 :
  (∀ e, preamble_event e → ¬ P e) → Forall preamble_event tr0 →
  Forall (λ e, ¬ P e) tr0.
Proof. intros H H0. eapply Forall_impl; eauto. Qed.

Section monitor_traces.
Context {W : Type} (host : Host W).

(** The display events of a guarded block are those allowed to it. *)
Lemma monitor_end_display cmd cwd w D y e :
  monitor_end host cmd cwd w D y → e ∈ y.2 →
  is_display_auth e ∨ is_display_tunnel e →
  ∃ p w1 r, Popen host cmd cwd w = (Ok p, w1) ∧ D p e r.
Proof.
  intros [e' w' HP|p w1 n d w' ex HP Hd|p w1 n mid tail s' HP Hr Hmid
         |p w1 n d w' ex HP Hd|p w1 n HP Hs] Hin Hdisp;
    simpl in Hin.
  - apply list_elem_of_singleton in Hin as ->. by destruct Hdisp.
  - apply elem_of_cons in Hin as [->|Hin]; [by destruct Hdisp|].
    apply elem_of_app in Hin as [->%elem_of_polls|Hin]; [by destruct Hdisp|].
    apply list_elem_of_singleton in Hin as ->. eauto.
  - apply elem_of_cons in Hin as [->|Hin]; [by destruct Hdisp|].
    apply elem_of_app in Hin as [->%elem_of_polls|Hin]; [by destruct Hdisp|].
    apply elem_of_app in Hin as [Hin|Hin].
    + destruct Hmid as [->|(d & Hd & ->)]; [by apply elem_of_nil in Hin|].
      apply list_elem_of_singleton in Hin as ->. eauto.
    + exfalso.
      assert (Forall (λ e, ¬ (is_display_auth e ∨ is_display_tunnel e)) tail)
        as HF by (apply reaping_Forall; try done; by intros [? | ?]).
      rewrite Forall_forall in HF. by apply (HF e).
  - apply elem_of_cons in Hin as [->|Hin]; [by destruct Hdisp|].
    apply elem_of_app in Hin as [->%elem_of_polls|Hin]; [by destruct Hdisp|].
    apply list_elem_of_singleton in Hin as ->. eauto.
  - apply elem_of_cons in Hin as [->|Hin]; [by destruct Hdisp|].
    apply elem_of_polls in Hin as ->. by destruct Hdisp.
Qed.

Lemma login_display_event p d r :
  login_display host p d r →
  ∃ u c, d = EvDisplayAuth u c (returned r) ∧
         first_match url_of_line (line_texts (reads p)) = Some u ∧
         first_match code_of_line (line_texts (reads p)) = Some c.
Proof.
  intros (lines & w0 & w' & Hpre & Hb & _ & ->).
  by apply auth_event_first_match.
Qed.

(** Counting the prompts of a guarded [login] block. *)
Lemma login_monitor_count cmd cwd w y :
  monitor_end host cmd cwd w (login_display host) y →
  count is_display_auth y.2 ≤ 1 ∧
  (y.1.1 = Ok true → count is_display_auth y.2 = 1) ∧
  (y.1.1 = Ok true ↔ ∃ u c, EvDisplayAuth u c true ∈ y.2).
Proof.
  intros [e' w' HP|p w1 n d w' ex HP Hd|p w1 n mid tail s' HP Hr Hmid
         |p w1 n d w' ex HP Hd|p w1 n HP Hs]; simpl.
  - split; [compute; lia|]. split; [intros [=]|]. split; [intros [=]|].
    intros (u & c & Hin). by apply list_elem_of_singleton in Hin.
  - destruct (login_display_event _ _ _ Hd) as (u & c & -> & _).
    rewrite count_cons, count_app, count_display_auth_polls.
    split; [compute; lia|]. split; [done|]. split; [|done].
    intros _. exists u, c. apply list_elem_of_further, elem_of_app. right.
    apply list_elem_of_here.
  - assert (count is_display_auth tail = 0) as Htail.
    { apply count_none. apply reaping_Forall; auto. }
    rewrite count_cons, !count_app, count_display_auth_polls, Htail.
    split; [|split; [intros [=]|split; [intros [=]|]]].
    + destruct Hmid as [->|(d & Hd & ->)]; [compute; lia|].
      destruct (login_display_event _ _ _ Hd) as (u & c & -> & _).
      compute; lia.
    + intros (u & c & Hin). exfalso.
      apply elem_of_cons in Hin as [?|Hin]; [done|].
      apply elem_of_app in Hin as [?%elem_of_polls|Hin]; [done|].
      apply elem_of_app in Hin as [Hin|Hin].
      * destruct Hmid as [->|(d & Hd & ->)]; [by apply elem_of_nil in Hin|].
        apply list_elem_of_singleton in Hin as <-.
        by destruct (login_display_event _ _ _ Hd) as (u' & c' & [=] & _).
      * assert (Forall (λ e, ¬ is_display_auth e) tail) as HF
          by (apply reaping_Forall; auto).
        rewrite Forall_forall in HF. by apply (HF _ Hin).
  - destruct (login_display_event _ _ _ Hd) as (u & c & -> & _).
    rewrite count_cons, count_app, count_display_auth_polls.
    split; [compute; lia|]. split; [intros [=]|]. split; [intros [=]|].
    intros (u' & c' & Hin). exfalso.
    apply elem_of_cons in Hin as [?|Hin]; [done|].
    apply elem_of_app in Hin as [?%elem_of_polls|Hin]; [done|].
    by apply list_elem_of_singleton in Hin.
  - rewrite count_cons, count_display_auth_polls.
    split; [compute; lia|]. split; [intros [=]|]. split; [intros [=]|].
    intros (u & c & Hin). exfalso.
    apply elem_of_cons in Hin as [?|Hin]; [done|].
    by apply elem_of_polls in Hin.
Qed.

Lemma login_display_kind p d r :
  login_display host p d r → is_display_auth d ∨ is_display_tunnel d.
Proof. intros (lines & w0 & w' & _ & _ & _ & ->). by left. Qed.

Lemma connect_display_kind tunnel_name p d r :
  connect_display host tunnel_name p d r →
  is_display_auth d ∨ is_display_tunnel d.
Proof. intros (text & url & w0 & w' & _ & _ & _ & ->). by right. Qed.

Lemma login_display_found p d :
  displays_found host → ¬ login_display host p d (Raise FileNotFoundError).
Proof.
  intros [Hfound _] (lines & w0 & w' & _ & _ & Hd & _).
  eapply Hfound. by rewrite Hd.
Qed.

Lemma connect_display_found tunnel_name p d :
  displays_found host →
  ¬ connect_display host tunnel_name p d (Raise FileNotFoundError).
Proof.
  intros [_ Hfound] (text & url & w0 & w' & _ & _ & Hd & _).
  eapply Hfound. by rewrite Hd.
Qed.

(** Where the process stands after a guarded block: running with the
    success value; never launched or reaped with the failure value; or
    running still, with the failure value after a display that raised
    [FileNotFoundError], with no value at a read that does not
    return. *)
Lemma monitor_end_status cmd cwd w D y :
  monitor_end host cmd cwd w D y →
  (∀ p d r, D p d r → is_display_auth d ∨ is_display_tunnel d) →
  (y.1.1 = Ok true ∧ status_of y.2 = Running) ∨
  (y.1.1 = Ok false ∧ (status_of y.2 = NotStarted ∨ status_of y.2 = Reaped)) ∨
  (y.1.1 = Ok false ∧ status_of y.2 = Running ∧
   ∃ p d, D p d (Raise FileNotFoundError)) ∨
  (y.1.1 = Blocked ∧ status_of y.2 = Running ∧
   ∃ p w1, Popen host cmd cwd w = (Ok p, w1) ∧ Silence ∈ reads p).
Proof.
  intros [e' w' HP|p w1 n d w' ex HP Hd|p w1 n mid tail s' HP Hr Hmid
         |p w1 n d w' ex HP Hd|p w1 n HP Hs] HD; simpl.
  - right. left. auto.
  - left. split; [done|]. rewrite status_running_polls.
    destruct (HD _ _ _ Hd); by destruct d.
  - right. left. split; [done|]. right. rewrite status_running_polls, foldl_app.
    destruct Hmid as [->|(d & Hd & ->)].
    + by apply reaping_status.
    + simpl. destruct (HD _ _ _ Hd); destruct d; try done;
        by apply reaping_status.
  - right. right. left. split; [done|]. split; [|eauto].
    rewrite status_running_polls. destruct (HD _ _ _ Hd); by destruct d.
  - right. right. right. split; [done|]. split; [|eauto].
    rewrite <- (app_nil_r (polls n)). by rewrite status_running_polls.
Qed.

End monitor_traces.

End TraceFacts.
Import TraceFacts.

(* ===================================================================== *)
(** ** The scanner and the command line *)
(* ===================================================================== *)

Lemma scan_line_code_unset u line :
  auth_code_found (scan_line (Tokens u None) line) = code_of_line line.
Proof. unfold scan_line, code_of_line. simpl. by destruct (search_group0 _ _). Qed.

Lemma hyphen_not_upper_alnum g :
  Forall (λ x, upper_alnum x = true) g → hyphen ∉ g.
Proof.
  rewrite Forall_forall. intros H Hin. by apply H in Hin.
Qed.

Lemma split_at_first_hyphen (g1 g2 h1 h2 : str) :
  hyphen ∉ g1 → hyphen ∉ h1 →
  g1 ++ hyphen :: g2 = h1 ++ hyphen :: h2 → g1 = h1 ∧ g2 = h2.
Proof.
  revert h1. induction g1 as [|x g1 IH]; intros [|y h1] Hg Hh; simpl.
  - by intros [= ->].
  - intros [= <- _]. destruct Hh. apply list_elem_of_here.
  - intros [= -> _]. destruct Hg. apply list_elem_of_here.
  - intros [= -> E]. apply not_elem_of_cons in Hg as [_ Hg].
    apply not_elem_of_cons in Hh as [_ Hh].
    destruct (IH h1 Hg Hh E) as [-> ->]. done.
Qed.

Lemma code_shaped_split (g1 g2 : str) :
  hyphen ∉ g1 → code_shaped (g1 ++ hyphen :: g2) →
  4 ≤ length g1 ≤ 8 ∧ 4 ≤ length g2 ≤ 8.
Proof.
  intros Hg (h1 & h2 & E & H1 & H2 & Hl1 & Hl2).
  apply split_at_first_hyphen in E as [-> ->];
    [done | done | by apply hyphen_not_upper_alnum].
Qed.

Lemma connect_ext {W} (system : System W) (host : Host W) a e1 e2 :
  final_extensions (include_default_extensions a) e1 =
  final_extensions (include_default_extensions a) e2 →
  connect system host (with_extensions a e1) =
  connect system host (with_extensions a e2).
Proof.
  intros H. unfold connect, connect_monitor, with_extensions.
  cbn [name include_default_extensions extensions git_user_name
       git_user_email setup_python_version force_python_reinstall
       create_new_project new_project_base_path venv_name_for_project].
  by rewrite H.
Qed.

(* ===================================================================== *)
(** ** A run of [login] *)
(* ===================================================================== *)

Module LoginFacts.

Ltac mon_reduce := unfold prepend; cbn [fst snd app].

Section login_facts.
Context {W : Type} (system : System W) (host : Host W).

Lemma enters_run (m k : M W bool) w tr0 w' :
  enters m k w tr0 w' → run m w = prepend tr0 (run k w').
Proof. by intros [_ ->]. Qed.

(** With the CLI in place, [login] goes straight to the launch. *)
Lemma login_ready provider w cli w' :
  cli_checked system w cli true w' →
  enters (login system host provider) (login_monitor host cli provider) w [] w'.
Proof.
  intros (dir & w1 & w2 & H1 & H2 & H3). split; [constructor|].
  unfold run, login. rewrite (call_bind_Ok _ _ _ dir w1) by done.
  rewrite (call_bind_Ok _ _ _ cli w2) by done.
  rewrite (call_bind_Ok _ _ _ true w') by done.
  cbn [proc world negb]. by destruct (login_monitor _ _ _ _) as [[? ?] ?].
Qed.

(** The values of the prompt are the first matches of the output. *)
Lemma login_prompt_first_match provider w u c shown :
  EvDisplayAuth u c shown ∈ trace_of (run (login system host provider) w) →
  ∃ cmd w0 w1 p,
    Popen host cmd None w0 = (Ok p, w1) ∧
    first_match url_of_line (line_texts (reads p)) = Some u ∧
    first_match code_of_line (line_texts (reads p)) = Some c.
Proof.
  intros Hin.
  destruct (login_run system host provider w) as (tr0 & Htr0 & Hcases).
  assert (Hnot : EvDisplayAuth u c shown ∉ tr0).
  { intros H. rewrite Forall_forall in Htr0. by apply Htr0 in H. }
  destruct Hcases as [(r & s' & E & _)|(cli & w0 & y & Hy & E)];
    rewrite E in Hin; unfold trace_of in Hin; simpl in Hin; [done|].
  apply elem_of_app in Hin as [Hin|Hin]; [done|].
  destruct (monitor_end_display host _ _ _ _ _ _ Hy Hin) as (p & w1 & sh & HP & Hd);
    [by left|].
  apply login_display_event in Hd as (u' & c' & [= -> -> _] & Hu & Hc).
  eauto 10.
Qed.

Lemma count_display_auth_preamble tr0 :
  Forall preamble_event tr0 → count is_display_auth tr0 = 0.
Proof.
  intros H. apply count_none. eapply Forall_impl; [exact H|].
  intros e He Hd. destruct e; simpl in *; done.
Qed.

(** [True] exactly when the prompt was shown, and never two prompts. *)
Lemma login_prompt_count provider w :
  let x := run (login system host provider) w in
  (result_of x = Ok true ↔ ∃ u c, EvDisplayAuth u c true ∈ trace_of x) ∧
  count is_display_auth (trace_of x) ≤ 1.
Proof.
  cbv zeta.
  destruct (login_run system host provider w) as (tr0 & Htr0 & Hcases).
  pose proof (count_display_auth_preamble tr0 Htr0) as H0.
  assert (Hnot : ∀ u c, EvDisplayAuth u c true ∉ tr0).
  { intros u c H. rewrite Forall_forall in Htr0. by apply Htr0 in H. }
  destruct Hcases as [(r & s' & -> & Hr)|(cli & w0 & y & Hy & ->)];
    unfold result_of, trace_of, prepend; simpl.
  - split; [|lia]. split; [by intros [= ->]|].
    intros (u & c & H). by apply Hnot in H.
  - destruct (login_monitor_count host _ _ _ _ Hy) as (Hle & _ & Hiff).
    rewrite count_app, H0. split; [|lia]. rewrite Hiff.
    split; intros (u & c & H); exists u, c.
    + apply elem_of_app. by right.
    + apply elem_of_app in H as [H|H]; [by apply Hnot in H | done].
Qed.

Lemma show_login_prompt_ok u c w ex :
  (display_github_auth_link host u c w).1 = Ok tt →
  ∃ w', (show_login_prompt host u c;; mret true) (monitoring w ex) =
        (Ok true, monitoring w' ex, [EvDisplayAuth u c true]).
Proof.
  intros H. rewrite bind_eq. unfold show_login_prompt.
  change (world (monitoring w ex)) with w.
  destruct (display_github_auth_link host u c w) as [r w']. simpl in H.
  subst r. by exists w'.
Qed.

Lemma url_of_line_nonempty text u : url_of_line text = Some u → text ≠ [].
Proof. by intros H ->. Qed.

(** The loop reaches a line that completes the pair when nothing stops
    it before. *)
Lemma login_loop_live p pre now text exited post t w u c :
  Forall (undisturbed (start_time p)) pre →
  timed_out (start_time p) now = false →
  url_of_line text = Some u → code_of_line text = Some c →
  (∀ u c, (display_github_auth_link host u c w).1 = Ok tt) →
  ∃ n u' c' s',
    login_loop host p (pre ++ Line now text exited :: post) t (monitoring w false) =
    (Ok true, s', polls n ++ [EvDisplayAuth u' c' true]).
Proof.
  intros Hpre Htime Hu Hc Hshow. revert t.
  induction Hpre as [|r pre Hr _ IH]; intros t.
  - pose proof (url_of_line_nonempty _ _ Hu) as Hne.
    destruct text as [|ch text]; [done|].
    rewrite app_nil_l, login_loop_line. unfold monitoring.
    rewrite observe_bind, Htime. cbv zeta.
    rewrite (scan_line_completes t _ u c) by done.
    edestruct (show_login_prompt_ok) as [w' E]; [apply Hshow|].
    unfold monitoring in E. rewrite E. by eexists 0, _, _, _.
  - destruct r as [now' text' exited'| |]; [|done..].
    destruct Hr as (Hne & Htime' & ->).
    destruct text' as [|ch text']; [done|].
    rewrite <- app_comm_cons, login_loop_line. unfold monitoring at 1.
    rewrite observe_bind, Htime'. cbv zeta.
    destruct (both_found (scan_line t (ch :: text'))).
    + edestruct (show_login_prompt_ok) as [w' E]; [apply Hshow|].
      unfold monitoring in E. rewrite E. by eexists 0, _, _, _.
    + rewrite bind_eq.
      change (poll _) with
        (Returned (Ok false), monitoring w false, [EvPoll false]).
      cbv iota beta.
      destruct (IH (scan_line t (ch :: text'))) as (n & u' & c' & s' & ->).
      by exists (S n), u', c', s'.
Qed.

Lemma login_monitor_live cli provider w p w1 pre now text exited post u c :
  Popen host (login_cmd cli provider) None w = (Ok p, w1) →
  reads p = pre ++ Line now text exited :: post →
  Forall (undisturbed (start_time p)) pre →
  timed_out (start_time p) now = false →
  url_of_line text = Some u → code_of_line text = Some c →
  (∀ u c, (display_github_auth_link host u c w1).1 = Ok tt) →
  ∃ n u' c' s',
    run (login_monitor host cli provider) w =
    (Ok true, s', EvPopen (login_cmd cli provider) None true
                    :: polls n ++ [EvDisplayAuth u' c' true]).
Proof.
  intros HP Hreads Hpre Htime Hu Hc Hshow.
  unfold run, login_monitor. rewrite try_except_eq, bind_eq. unfold popen.
  change (world (Rt w None)) with w. unfold login_cmd in HP. rewrite HP.
  cbv iota beta. change (Rt w1 (Some _)) with (monitoring w1 false).
  rewrite Hreads.
  destruct (login_loop_live p pre now text exited post no_tokens w1 u c)
    as (n & u' & c' & s' & ->); try done.
  by exists n, u', c', s'.
Qed.

(** *** Acquisition of the CLI *)





Lemma count_popen_preamble tr0 :
  Forall preamble_event tr0 → count is_popen tr0 = 0.
Proof.
  intros H. apply count_none. eapply Forall_impl; [exact H|].
  intros e He Hd. destruct e; simpl in *; done.
Qed.

(** [login] when the CLI is not in place: one acquisition, and no
    launch unless the CLI is executable afterwards. *)
Lemma login_missing provider w cli w1 dl s2 tr :
  cli_checked system w cli false w1 →
  download_vscode_cli system false (Rt w1 None) = (dl, s2, tr) →
  dl = Ok false ∨
    (dl = Ok true ∧ ∃ w3, is_executable system cli (world s2) = (Ok false, w3)) →
  ∃ s', run (login system host provider) w = (Ok false, s', tr).
Proof.
  intros (dir & w0 & w0' & H1 & H2 & H3) Hdl Hcases.
  unfold run, login. rewrite (call_bind_Ok _ _ _ dir w0) by done.
  rewrite (call_bind_Ok _ _ _ cli w0') by done.
  rewrite (call_bind_Ok _ _ _ false w1) by done.
  change (negb false) with true. cbv iota.
  rewrite bind_eq. change (proc (Rt w0' _)) with (@None handle).
  change (proc (Rt w0 (proc (Rt w None)))) with (@None handle).
  rewrite Hdl. destruct Hcases as [->|(-> & w3 & H4)]; mon_reduce.
  - exists s2. by rewrite app_nil_r.
  - change (negb true) with false. cbv iota.
    rewrite (call_bind_Ok _ _ _ false w3) by done. mon_reduce.
    eexists. by rewrite app_nil_r.
Qed.

End login_facts.
End LoginFacts.
Import LoginFacts.

Lemma device_line_tokens :
  (∃ u, substring u device_line ∧ url_shaped u ∧
        contains device_login_fragment u = true) ∧
  (∃ c, substring c device_line ∧ code_shaped c).
Proof.
  split.
  - exists (pystr "https://github.com/login/device"). split; [|split].
    + by exists (pystr "Open "), (pystr " and enter code WXYZ-1234").
    + exists (pystr "github.com/login/device"). split; [by right|].
      split; [done|]. repeat constructor.
    + by vm_compute.
  - exists (pystr "WXYZ-1234"). split.
    + by exists (pystr "Open https://github.com/login/device and enter code "), [].
    + exists (pystr "WXYZ"), (pystr "1234").
      split; [done|]. split; [repeat constructor|]. split; [repeat constructor|].
      simpl. lia.
Qed.

Lemma sys_ready_checked :
  cli_checked sys_ready tt (pystr "/content/code/code") true tt.
Proof. by exists (pystr "/content/code"), tt, tt. Qed.

(* ===================================================================== *)
(** ** Life cycle of the process *)
(* ===================================================================== *)

Module LifecycleFacts.

Ltac mon_reduce := unfold prepend; cbn [fst snd app].

Section lifecycle.
Context {W : Type} (system : System W) (host : Host W).

(** A run in preparatory steps and, possibly, one guarded block. *)
Definition decomposed (x : ran bool * rt W * list event) : Prop :=
  ∃ tr0, Forall preamble_event tr0 ∧
    ((∃ (r : res bool) s', x = (r, s', tr0) ∧ r ≠ Ok true)
     ∨ (∃ cmd cwd w0 D y,
          monitor_end host cmd cwd w0 D y ∧
          (∀ p d r, D p d r → is_display_auth d ∨ is_display_tunnel d) ∧
          (displays_found host → ∀ p d, ¬ D p d (Raise FileNotFoundError)) ∧
          x = prepend tr0 y)).

Lemma login_decomposed provider w :
  decomposed (run (login system host provider) w).
Proof.
  destruct (login_run system host provider w) as (tr0 & Htr0 & Hcases).
  exists tr0. split; [done|].
  destruct Hcases as [?|(cli & w0 & y & Hy & E)]; [by left|]. right.
  eexists _, _, w0, (login_display host), y.
  split; [exact Hy|]. split; [apply login_display_kind|].
  split; [|done]. intros Hfound p d. by apply login_display_found.
Qed.

Lemma connect_decomposed a w :
  decomposed (run (connect system host a) w).
Proof.
  destruct (connect_run system host a w) as (tr0 & Htr0 & Hcases).
  exists tr0. split; [done|].
  destruct Hcases as [?|(cli & cwd & w0 & y & Hy & E)]; [by left|]. right.
  eexists _, _, w0, (connect_display host (name a)), y.
  split; [exact Hy|]. split; [apply connect_display_kind|].
  split; [|done]. intros Hfound p d. by apply connect_display_found.
Qed.

(** How a run leaves the process.  It is running with the success
    value; never launched, or reaped, with the failure value or an
    exception; and it is left running in two more cases: with the
    failure value, after a display that raised [FileNotFoundError], and
    with no value at all, at a read that does not return. *)
Lemma decomposed_status x :
  decomposed x →
  (result_of x = Ok true ∧ status_of (trace_of x) = Running) ∨
  ((∃ r : res bool, result_of x = r ∧ r ≠ Ok true) ∧
   (status_of (trace_of x) = NotStarted ∨ status_of (trace_of x) = Reaped)) ∨
  (result_of x = Ok false ∧ status_of (trace_of x) = Running ∧
   ¬ displays_found host) ∨
  (result_of x = Blocked ∧ status_of (trace_of x) = Running ∧
   ¬ reads_return host).
Proof.
  intros (tr0 & Htr0 & [(r & s' & -> & Hr)
                       |(cmd & cwd & w0 & D & y & Hy & HD & HF & ->)]);
    unfold result_of, trace_of, prepend; simpl.
  - rewrite status_of_preamble by done. right. left. eauto.
  - rewrite status_after_preamble by done.
    destruct (monitor_end_status host _ _ _ _ _ Hy HD)
      as [[-> ->]|[[-> Hst]|[(-> & -> & p & d & Hd)|(-> & -> & p & w1 & HP & Hs)]]].
    + by left.
    + right. left. split; [|done]. by exists (Ok false).
    + right. right. left. split; [done|]. split; [done|].
      intros Hfound. by apply (HF Hfound p d).
    + right. right. right. split; [done|]. split; [done|].
      intros Hreads. by apply (Hreads _ _ _ _ _ HP).
Qed.

(** With displays that do not raise [FileNotFoundError] and reads that
    return, the run returns, and the process is left running exactly on
    success. *)
Lemma decomposed_returns x :
  decomposed x → displays_found host → reads_return host →
  (∃ r : res bool, result_of x = r) ∧
  ((result_of x = Ok true ∧ status_of (trace_of x) = Running) ∨
   (result_of x ≠ Ok true ∧
    (status_of (trace_of x) = NotStarted ∨ status_of (trace_of x) = Reaped))) ∧
  (status_of (trace_of x) ≠ NotStarted → ∃ b, result_of x = Ok b).
Proof.
  intros Hx Hfound Hreads.
  assert (status_of (trace_of x) ≠ NotStarted → ¬ ∃ e, result_of x = Raise e)
    as Hraise.
  { destruct Hx as (tr0 & Htr0 & [(r & s' & -> & Hr)
                                 |(cmd & cwd & w0 & D & y & Hy & _ & _ & ->)]);
      unfold result_of, trace_of, prepend; simpl.
    - by rewrite status_of_preamble.
    - intros _ [e He]. by destruct Hy. }
  destruct (decomposed_status x Hx)
    as [[Hr Hs]|[[(r & Hr & Hne) Hs]|[(_ & _ & H)|(_ & _ & H)]]]; [| |done..].
  - split; [by exists (Ok true)|]. split; [by left|]. by exists true.
  - split; [by exists r|]. split.
    + right. split; [|done]. rewrite Hr. by intros [= ->].
    + intros Hst. destruct r as [b|e]; [by exists b|].
      exfalso. apply (Hraise Hst). by exists e.
Qed.




(** *** The time-out *)


Lemma terminate_wait w ex :
  ((terminate;; wait;; mret false) : M W bool) (monitoring w ex) =
  (Ok false, reaped_state w true, [EvTerminate; EvWait]).
Proof. done. Qed.



(** *** A read that does not return *)



End lifecycle.
End LifecycleFacts.
Import LifecycleFacts.

Module ConnectFacts.

Ltac mon_reduce := unfold prepend; cbn [fst snd app].

Section connect_facts.
Context {W : Type} (system : System W) (host : Host W).








End connect_facts.
End ConnectFacts.
Import ConnectFacts.

(* ===================================================================== *)
(** ** The properties of the specification *)
(* ===================================================================== *)

(** C1 (amended).  [login] returns [True] exactly when the presentation
    call was made and completed; it is made at most once in a run, with
    the first URL and the first code recognised in the output; and it is
    made, and [login] returns [True], when a line is read, within the
    60-second deadline and with nothing having stopped the loop before,
    whose first URL-shaped substring contains the device-login fragment
    and which contains a code of the grouped shape, provided the
    presentation call does not fail. *)
Theorem C1_login_shows_prompt {W : Type} (system : System W) (host : Host W)
    (provider : str) (w : W) :
  let x := run (login system host provider) w in
  (result_of x = Ok true ↔ ∃ u c, EvDisplayAuth u c true ∈ trace_of x) ∧
  count is_display_auth (trace_of x) ≤ 1 ∧
  (∀ u c shown,
     EvDisplayAuth u c shown ∈ trace_of x →
     ∃ cmd w0 w1 p,
       Popen host cmd None w0 = (Ok p, w1) ∧
       first_match url_of_line (line_texts (reads p)) = Some u ∧
       first_match code_of_line (line_texts (reads p)) = Some c) ∧
  (∀ cli tr0 w0 p w1 pre now text exited post u c,
     enters (login system host provider) (login_monitor host cli provider)
       w tr0 w0 →
     Popen host (login_cmd cli provider) None w0 = (Ok p, w1) →
     (∀ u c, (display_github_auth_link host u c w1).1 = Ok tt) →
     reads p = pre ++ Line now text exited :: post →
     Forall (undisturbed (start_time p)) pre →
     timed_out (start_time p) now = false →
     search_group0 url_re text = Some u →
     contains device_login_fragment u = true →
     substring c text → code_shaped c →
     result_of x = Ok true ∧ count is_display_auth (trace_of x) = 1).
Proof.
  cbv zeta. destruct (login_prompt_count system host provider w) as [Hiff Hle].
  split; [done|]. split; [done|].
  split; [intros u c shown; apply login_prompt_first_match|].
  intros cli tr0 w0 p w1 pre now text exited post u c
    Henter HP Hshow Hreads Hpre Htime Hu Hfrag Hsub Hcode.
  assert (Hurl : url_of_line text = Some u) by by apply url_of_line_Some.
  destruct (search_group0_complete code_re text c) as [c' Hc'];
    [by apply lang_code_re | done |].
  destruct (login_monitor_live host cli provider w0 p w1 pre now text exited
              post u c' HP Hreads Hpre Htime Hurl Hc' Hshow)
    as (n & u' & c'' & s' & E).
  destruct Henter as [Htr0 Hrun]. rewrite Hrun, E. unfold result_of, trace_of.
  simpl. split; [done|].
  rewrite count_app, count_display_auth_preamble by done.
  rewrite count_cons, count_app, count_display_auth_polls. by compute.
Qed.

(** The example of the specification: the prompt on the second line. *)
Lemma C1_witness :
  result_of (run (login sys_ready (host_of prompt_process true) github) tt)
    = Ok true ∧
  count is_display_auth
    (trace_of (run (login sys_ready (host_of prompt_process true) github) tt))
    = 1 ∧
  EvDisplayAuth (pystr "https://github.com/login/device") (pystr "WXYZ-1234") true
    ∈ trace_of (run (login sys_ready (host_of prompt_process true) github) tt).
Proof.
  destruct (C1_login_shows_prompt sys_ready (host_of prompt_process true)
              github tt) as (_ & _ & _ & Hlive).
  destruct device_line_tokens as [_ (c & Hsub & Hcode)].
  destruct (Hlive (pystr "/content/code/code") [] tt prompt_process tt
              [Line 1 (pystr "Starting login") false] 2%Q device_line false []
              (pystr "https://github.com/login/device") c) as [H1 H2];
    [ apply login_ready, sys_ready_checked | done | done | done
    | repeat constructor; done | done | by vm_compute | by vm_compute
    | done | done | ].
  split; [done|]. split; [done|]. vm_compute.
  apply list_elem_of_further, list_elem_of_further, list_elem_of_here.
Defined.

(** C1 as stated fails in two ways.  A process that prints the line with
    the device URL and the code within the deadline, but has exited by
    the time the line before it has been processed: the loop stops at
    the poll and the line is never read.  And a line that holds the
    device URL and the code after another URL: only the first URL of a
    line is tested. *)
Lemma C1_counterexample :
  (Line 1 device_line true ∈ reads hasty_process ∧
   timed_out (start_time hasty_process) 1 = false ∧
   (∃ u, substring u device_line ∧ url_shaped u ∧
         contains device_login_fragment u = true) ∧
   (∃ c, substring c device_line ∧ code_shaped c) ∧
   result_of (run (login sys_ready (host_of hasty_process true) github) tt)
     = Ok false ∧
   count is_display_auth
     (trace_of (run (login sys_ready (host_of hasty_process true) github) tt))
     = 0) ∧
  (Line 1 two_url_line false ∈ reads two_url_process ∧
   timed_out (start_time two_url_process) 1 = false ∧
   (∃ u, substring u two_url_line ∧ url_shaped u ∧
         contains device_login_fragment u = true) ∧
   (∃ c, substring c two_url_line ∧ code_shaped c) ∧
   result_of (run (login sys_ready (host_of two_url_process true) github) tt)
     = Ok false ∧
   count is_display_auth
     (trace_of (run (login sys_ready (host_of two_url_process true) github) tt))
     = 0).
Proof.
  split.
  - split; [apply list_elem_of_further, list_elem_of_here|].
    split; [done|]. destruct device_line_tokens as [Hu Hc].
    split; [done|]. split; [done|]. split; by vm_compute.
  - split; [apply list_elem_of_here|]. split; [done|]. split; [|split; [|split]].
    + exists (pystr "https://github.com/login/device"). split; [|split].
      * by exists (pystr "See http://aka.ms/help or "), (pystr " code WXYZ-1234").
      * exists (pystr "github.com/login/device"). split; [by right|].
        split; [done|]. repeat constructor.
      * by vm_compute.
    + exists (pystr "WXYZ-1234"). split.
      * by exists (pystr "See http://aka.ms/help or https://github.com/login/device code "), [].
      * exists (pystr "WXYZ"), (pystr "1234").
        split; [done|]. split; [repeat constructor|]. split; [repeat constructor|].
        simpl. lia.
    + by vm_compute.
    + by vm_compute.
Qed.

(** C2.  [connect] returns [None] and leaves the tunnel running when
    the display of the connection options raises [FileNotFoundError].
    The call is made inside the [try]; the exception is taken by the
    first handler, written for a launch that failed, which returns at
    once: the process is neither polled, terminated nor waited for.
    With any other exception the second handler reaps it.  Here the CLI
    is installed and the tunnel prints its URL on the second line. *)
Theorem C2_none_with_tunnel_running :
  let system := Facade.as_called (SystemPy.System Machine.os) in
  let y :=
    run (connect system (host_with tunnel_process (Raise FileNotFoundError))
           default_args) Machine.with_cli in
  let z :=
    run (connect system (host_with tunnel_process (Raise OtherException))
           default_args) Machine.with_cli in
  result_of y = Ok false ∧
  trace_of y =
    [EvPopen (connect_cmd (pystr "/content/code/code") default_args)
       (Some (pystr "/content")) true;
     EvPoll false;
     EvDisplayTunnel (pystr "https://vscode.dev/tunnel/colab/abc123")
       (pystr "colab") false] ∧
  status_of (trace_of y) = Running ∧
  result_of z = Ok false ∧
  status_of (trace_of z) = Reaped.
Proof. cbv zeta. split_and!; by vm_compute. Qed.

(** C3.  A token once set is not overwritten: one line leaves a set URL
    and a set code as they are; over any sequence of lines the two
    variables hold the first URL and the first code recognised; and the
    values any run of [login] passes to the presentation call are those
    first matches in the output of the process it launched. *)
Theorem C3_first_match_never_overwritten {W : Type} (system : System W)
    (host : Host W) (provider : str) (w : W) :
  (∀ t line,
     (truthy (auth_url_found t) = true →
      auth_url_found (scan_line t line) = auth_url_found t) ∧
     (truthy (auth_code_found t) = true →
      auth_code_found (scan_line t line) = auth_code_found t)) ∧
  (∀ lines,
     scan_lines no_tokens lines =
     Tokens (first_match url_of_line lines) (first_match code_of_line lines)) ∧
  (∀ u c shown,
     EvDisplayAuth u c shown ∈ trace_of (run (login system host provider) w) →
     ∃ cmd w0 w1 p,
       Popen host cmd None w0 = (Ok p, w1) ∧
       first_match url_of_line (line_texts (reads p)) = Some u ∧
       first_match code_of_line (line_texts (reads p)) = Some c).
Proof.
  split; [|split].
  - intros t line. unfold scan_line. simpl. split; intros ->; done.
  - apply scan_lines_no_tokens.
  - intros u c shown. apply login_prompt_first_match.
Qed.

(** C4 (amended).  For every line, what the login driver takes as the
    authentication code (when none is set yet) is a substring of the line
    of the exact shape "4 to 8 uppercase alphanumerics, a hyphen, 4 to 8
    uppercase alphanumerics", and the leftmost place where one starts; it
    takes one exactly when the line has a substring of that shape; and a
    hyphen-joined token one of whose groups is shorter than 4 or longer
    than 8 is never taken whole.  The search is not anchored at the ends
    of a token: whatever surrounds a substring of the shape, a code is
    taken. *)
Theorem C4_code_recognition (line : str) (url_so_far : option str) :
  let found := auth_code_found (scan_line (Tokens url_so_far None) line) in
  (∀ c, found = Some c → substring c line ∧ code_shaped c) ∧
  ((∃ c, found = Some c) ↔ (∃ s, substring s line ∧ code_shaped s)) ∧
  (∀ c, found = Some c →
     ∃ pre post, line = pre ++ c ++ post ∧
       ∀ pre' s post', line = pre' ++ s ++ post' → code_shaped s →
                       length pre ≤ length pre') ∧
  (∀ g1 g2, hyphen ∉ g1 →
     ¬ (4 ≤ length g1 ≤ 8 ∧ 4 ≤ length g2 ≤ 8) →
     found ≠ Some (g1 ++ hyphen :: g2)).
Proof.
  cbv zeta. rewrite scan_line_code_unset. unfold code_of_line.
  assert (Hsound : ∀ c, search_group0 code_re line = Some c →
                        substring c line ∧ code_shaped c).
  { intros c [Hl Hs]%search_group0_sound. split; [done|]. by apply lang_code_re. }
  assert (Hcomplete : ∀ s, substring s line → code_shaped s →
                           ∃ c, search_group0 code_re line = Some c).
  { intros s Hs Hshape. apply lang_code_re in Hshape.
    destruct (search_group0_complete code_re line s Hshape Hs) as [c Hc]. eauto. }
  split; [exact Hsound|]. split; [|split].
  - split.
    + intros [c Hc]. exists c. auto.
    + intros (s & Hs & Hshape). eauto.
  - intros c. unfold search_group0.
    destruct (re_search code_re line) as [[i m]|] eqn:E; [|done].
    intros [= <-]. apply re_search_sound in E as (_ & (pre & post & -> & <-) & Hleft).
    exists pre, post. split; [done|]. intros pre' s post' E Hshape.
    destruct (decide (length pre ≤ length pre')) as [|Hlt]; [done|]. exfalso.
    assert (is_Some (match_at code_re (drop (length pre') (pre ++ m ++ post))))
      as [? Hm].
    { rewrite E, drop_app_length. by apply match_at_complete, lang_code_re. }
    rewrite Hleft in Hm by lia. done.
  - intros g1 g2 Hg Hlen Hfound. apply Hsound in Hfound as [_ Hshape].
    by apply code_shaped_split in Hshape.
Qed.

(** C4 as stated fails on a token with a group of nine characters: the
    token does not have the shape, yet a code is taken from it; and a
    banner of that kind ahead of the real code wins over it. *)
Lemma C4_counterexample :
  pystr "ABCDEFGHI-1234" = pystr "ABCDEFGHI" ++ hyphen :: pystr "1234" ∧
  length (pystr "ABCDEFGHI") = 9 ∧
  ¬ code_shaped (pystr "ABCDEFGHI-1234") ∧
  auth_code_found (scan_line no_tokens (pystr "ABCDEFGHI-1234"))
    = Some (pystr "BCDEFGHI-1234") ∧
  ¬ code_shaped (pystr "RELEASE20240513-PREVIEW") ∧
  auth_code_found
    (scan_lines no_tokens
       [pystr "vscode RELEASE20240513-PREVIEW"; device_line])
    = Some (pystr "20240513-PREVIEW").
Proof.
  split; [done|]. split; [done|]. split; [|split; [by vm_compute|split]].
  - intros H.
    apply (code_shaped_split (pystr "ABCDEFGHI") (pystr "1234")) in H.
    + simpl in H. lia.
    + apply hyphen_not_upper_alnum. repeat constructor.
  - intros H.
    apply (code_shaped_split (pystr "RELEASE20240513") (pystr "PREVIEW")) in H.
    + simpl in H. lia.
    + apply hyphen_not_upper_alnum. repeat constructor.
  - by vm_compute.
Qed.

(** The example of the specification. *)
Example url_re_example :
  search_group0 url_re device_line = Some (pystr "https://github.com/login/device").
Proof. by vm_compute. Qed.

Example code_re_example :
  search_group0 code_re device_line = Some (pystr "WXYZ-1234").
Proof. by vm_compute. Qed.

Example tunnel_re_example :
  search_group0 (tunnel_re ascii_alnum) tunnel_line
  = Some (pystr "https://vscode.dev/tunnel/colab/abc123").
Proof. by vm_compute. Qed.

(** C5 (amended).  When every read of the output returns and the
    presentation call does not raise [FileNotFoundError], a run of
    [login] or [connect] ends in one result, and a launched process is
    left running exactly when that result is success: [connect] then
    returns its handle, [login] returns [True] and leaves the process to
    the interactive log-in.  In every other case the process was never
    launched, or has exited and been reaped; and once a process is
    launched the result is [True]/handle or [False]/[None], never an
    exception. *)
Theorem C5_running_only_on_success {W : Type} (system : System W)
    (host : Host W) (provider : str) (a : connect_args) (w : W) :
  displays_found host →
  reads_return host →
  let x := run (login system host provider) w in
  let y := run (connect system host a) w in
  ((∃ r : res bool, result_of x = r) ∧ (∃ r : res bool, result_of y = r)) ∧
  ((result_of x = Ok true ∧ status_of (trace_of x) = Running) ∨
   (result_of x ≠ Ok true ∧
    (status_of (trace_of x) = NotStarted ∨ status_of (trace_of x) = Reaped))) ∧
  ((result_of y = Ok true ∧ status_of (trace_of y) = Running) ∨
   (result_of y ≠ Ok true ∧
    (status_of (trace_of y) = NotStarted ∨ status_of (trace_of y) = Reaped))) ∧
  (status_of (trace_of x) ≠ NotStarted → ∃ b, result_of x = Ok b) ∧
  (status_of (trace_of y) ≠ NotStarted → ∃ b, result_of y = Ok b).
Proof.
  intros Hfound Hreads. cbv zeta.
  destruct (decomposed_returns host _ (login_decomposed system host provider w)
              Hfound Hreads) as (Hx0 & Hx & Hx').
  destruct (decomposed_returns host _ (connect_decomposed system host a w)
              Hfound Hreads) as (Hy0 & Hy & Hy').
  done.
Qed.

(** The tunnel of the example: the handle is returned and the process
    runs; and a tunnel that exits early: [None], and the process is
    reaped. *)
Lemma C5_witness :
  (result_of (run (connect sys_ready (host_of tunnel_process true) default_args) tt)
     = Ok true ∧
   status_of
     (trace_of (run (connect sys_ready (host_of tunnel_process true) default_args) tt))
     = Running) ∧
  (result_of (run (connect sys_ready (host_of dying_process true) default_args) tt)
     = Ok false ∧
   status_of
     (trace_of (run (connect sys_ready (host_of dying_process true) default_args) tt))
     = Reaped).
Proof.
  assert (∀ p, Silence ∉ reads p →
               displays_found (host_of (W:=unit) p true) ∧
               reads_return (host_of (W:=unit) p true)) as Hhost.
  { intros p Hp. split; [by split|]. by intros cmd cwd w q w' [= <- _]. }
  split.
  - destruct (Hhost tunnel_process) as [Hfound Hreads];
      [by intros [[=]|[[=]|[]%elem_of_nil]%elem_of_cons]%elem_of_cons|].
    destruct (C5_running_only_on_success sys_ready (host_of tunnel_process true)
                github default_args tt Hfound Hreads)
      as (_ & _ & [Hy|[Hy _]] & _); [done|].
    exfalso. apply Hy. by vm_compute.
  - destruct (Hhost dying_process) as [Hfound Hreads];
      [by intros [[=]|[]%elem_of_nil]%elem_of_cons|].
    destruct (C5_running_only_on_success sys_ready (host_of dying_process true)
                github default_args tt Hfound Hreads)
      as (_ & _ & [[Hy _]|[_ [Hy|Hy]]] & _).
    + exfalso. revert Hy. by vm_compute.
    + exfalso. revert Hy. by vm_compute.
    + split; [by vm_compute | done].
Defined.

(** C5 as stated fails for a successful [login]: the prompt is shown,
    [True] is returned (a boolean, not a handle), and the process has
    been neither terminated nor waited for. *)
Lemma C5_counterexample :
  result_of (run (login sys_ready (host_of prompt_process true) github) tt)
    = Ok true ∧
  trace_of (run (login sys_ready (host_of prompt_process true) github) tt)
    = [EvPopen (login_cmd (pystr "/content/code/code") github) None true;
       EvPoll false;
       EvDisplayAuth (pystr "https://github.com/login/device")
         (pystr "WXYZ-1234") true] ∧
  status_of
    (trace_of (run (login sys_ready (host_of prompt_process true) github) tt))
    = Running.
Proof. split; [by vm_compute|]. split; by vm_compute. Qed.

(** C6.  Two calls of [connect] whose extension lists are permutations of
    one another (name and default-extension flag being the same) build
    the same command line, and behave the same in every world: the
    [--install-extension] flags follow the fixed arguments in the sorted
    order of the identifiers, each identifier once, whatever the order in
    which the set is listed. *)
Theorem C6_extension_flags_sorted {W : Type} (system : System W)
    (host : Host W) (a : connect_args) (e1 e2 : list str) (w : W) :
  e1 ≡ₚ e2 →
  let exts1 := final_extensions (include_default_extensions a) (Some e1) in
  let exts2 := final_extensions (include_default_extensions a) (Some e2) in
  (∀ cli, cmd_list cli (name a) exts1 = cmd_list cli (name a) exts2) ∧
  run (connect system host (with_extensions a (Some e1))) w =
    run (connect system host (with_extensions a (Some e2))) w ∧
  (∀ cli, ∃ ids,
     cmd_list cli (name a) exts1 =
       [cli; pystr "tunnel"; pystr "--accept-server-license-terms";
        pystr "--name"; name a]
       ++ (ids ≫= λ ext_id, [pystr "--install-extension"; ext_id]) ∧
     Sorted str_le ids ∧ NoDup ids ∧ (∀ x, x ∈ ids ↔ x ∈ exts1)) ∧
  (∀ listing, listing ≡ₚ elements exts1 →
     sorted listing = sorted (elements exts1)).
Proof.
  intros Hp exts1 exts2.
  assert (exts1 = exts2) as Hext by by apply final_extensions_perm.
  split; [by intros cli; rewrite Hext|]. split; [|split].
  - unfold run. by rewrite (connect_ext system host a (Some e1) (Some e2)).
  - intros cli. exists (sorted (elements exts1)).
    split; [apply cmd_list_eq|]. split; [apply sorted_Sorted|]. split.
    + rewrite sorted_perm. apply NoDup_elements.
    + intros x. rewrite sorted_perm. apply elem_of_elements.
  - intros listing Hl. by apply sorted_of_perm.
Qed.

Lemma C6_witness :
  let e1 := [pystr "ms-python.python"; pystr "golang.go"] in
  let e2 := [pystr "golang.go"; pystr "ms-python.python"] in
  e1 ≡ₚ e2 ∧
  cmd_list (pystr "/content/code/code") (pystr "colab")
    (final_extensions false (Some e1)) =
  cmd_list (pystr "/content/code/code") (pystr "colab")
    (final_extensions false (Some e2)).
Proof.
  cbv zeta.
  assert (Hp : [pystr "ms-python.python"; pystr "golang.go"]
               ≡ₚ [pystr "golang.go"; pystr "ms-python.python"])
    by apply Permutation_swap.
  split; [exact Hp|].
  exact (proj1 (C6_extension_flags_sorted sys_ready
                  (host_of tunnel_process true)
                  (ConnectArgs (pystr "colab") false None None None None false
                     None (pystr ".") (pystr ".venv"))
                  _ _ tt Hp) (pystr "/content/code/code")).
Defined.

Example cmd_list_example :
  cmd_list (pystr "/content/code/code") (pystr "colab")
    (final_extensions false
       (Some [pystr "ms-python.python"; pystr "golang.go"; pystr "ms-python.python"]))
  = [pystr "/content/code/code"; pystr "tunnel";
     pystr "--accept-server-license-terms"; pystr "--name"; pystr "colab";
     pystr "--install-extension"; pystr "golang.go";
     pystr "--install-extension"; pystr "ms-python.python"].
Proof. by vm_compute. Qed.

(** C7.  A process that goes silent is never timed out.  The deadline
    is tested after [readline] has returned a line: with a CLI that
    prints nothing and keeps its output open, and with one that goes
    silent after its first line, the read does not return, the test is
    never reached, and [login] and [connect] neither terminate the
    process nor return, however long it lasts. *)
Theorem C7_silent_process_never_timed_out :
  let system := Facade.as_called (SystemPy.System Machine.os) in
  let x := run (login system (host_of mute_process true) github)
             Machine.with_cli in
  let y := run (connect system (host_of stalled_process true) default_args)
             Machine.with_cli in
  result_of x = Blocked ∧
  trace_of x =
    [EvPopen (login_cmd (pystr "/content/code/code") github) None true] ∧
  status_of (trace_of x) = Running ∧
  result_of y = Blocked ∧
  trace_of y =
    [EvPopen (connect_cmd (pystr "/content/code/code") default_args)
       (Some (pystr "/content")) true;
     EvPoll false] ∧
  status_of (trace_of y) = Running.
Proof. cbv zeta. split_and!; by vm_compute. Qed.

(** C8.  An exception leaves [connect] on the facade of [system.py]:
    with the CLI installed and a Git name and e-mail given,
    [configure_git] runs [git config] through
    [run_command(..., capture_output=True)], [subprocess.run] refuses
    the arguments with [ValueError], and nothing between that call and
    the caller of [connect] catches it.  The same on a machine without
    the CLI, from the extraction of the archive. *)
Theorem C8_exception_leaves_connect :
  let system := Facade.as_called (SystemPy.System Machine.os) in
  let a :=
    ConnectArgs (pystr "colab") true None (Some (pystr "Ada"))
      (Some (pystr "ada@example.org")) None false None (pystr ".")
      (pystr ".venv") in
  let y := run (connect system (host_of tunnel_process true) a)
             Machine.with_cli in
  let z := run (connect system (host_of tunnel_process true) default_args)
             Machine.fresh in
  result_of y = Raise OtherException ∧
  trace_of y =
    [EvRunCommand [pystr "git"; pystr "config"; pystr "--global";
                   pystr "user.name"; pystr "Ada"]] ∧
  result_of z = Raise OtherException ∧
  trace_of z =
    [EvDownloadFile cli_download_url (pystr "/content/vscode_cli.tar.gz");
     EvRunCommand [pystr "/usr/bin/tar"; pystr "-xf";
                   pystr "/content/vscode_cli.tar.gz"]].
Proof. cbv zeta. split_and!; by vm_compute. Qed.

(** C9.  On the facade of [system.py] and a machine without the CLI,
    [login] does not return [False]: the archive is downloaded, the
    extraction goes through [run_command(..., capture_output=True)],
    and the [ValueError] of [subprocess.run] leaves
    [download_vscode_cli] and [login].  No process is launched; the
    archive is neither unpacked nor removed. *)
Theorem C9_login_raises_without_cli :
  let system := Facade.as_called (SystemPy.System Machine.os) in
  let x := run (login system (host_of prompt_process true) github)
             Machine.fresh in
  result_of x = Raise OtherException ∧
  trace_of x =
    [EvDownloadFile cli_download_url (pystr "/content/vscode_cli.tar.gz");
     EvRunCommand [pystr "/usr/bin/tar"; pystr "-xf";
                   pystr "/content/vscode_cli.tar.gz"]] ∧
  count is_popen (trace_of x) = 0.
Proof. cbv zeta. split_and!; by vm_compute. Qed.

(** C10.  When the first match of the generic URL pattern on a line does
    not contain the device-login fragment, the line leaves the URL token
    as it was: nothing further to the right is looked at, even a
    device-login URL. *)
Theorem C10_only_first_url (line : str) (t : tokens) (i : nat) (um : str) :
  re_search url_re line = Some (i, um) →
  contains device_login_fragment um = false →
  (∀ j, j < i → match_at url_re (drop j line) = None) ∧
  url_of_line line = None ∧
  auth_url_found (scan_line t line) = auth_url_found t.
Proof.
  intros Hs Hc. split; [|split].
  - by apply re_search_sound in Hs as (_ & _ & Hleft).
  - unfold url_of_line, search_group0. rewrite Hs. simpl. by rewrite Hc.
  - unfold scan_line, search_group0. rewrite Hs. simpl. rewrite Hc.
    by destruct (negb _).
Qed.

(** A line whose second URL is the device-login URL. *)
Lemma C10_witness :
  (∃ u, substring u two_url_line ∧ url_shaped u ∧
        contains device_login_fragment u = true) ∧
  url_of_line two_url_line = None ∧
  auth_url_found (scan_line no_tokens two_url_line) = None.
Proof.
  split.
  - exists (pystr "https://github.com/login/device"). split; [|split].
    + exists (pystr "See http://aka.ms/help or "), (pystr " code WXYZ-1234"). done.
    + exists (pystr "github.com/login/device"). split; [by right|].
      split; [done|]. repeat constructor.
    + by vm_compute.
  - apply (C10_only_first_url two_url_line no_tokens 4 (pystr "http://aka.ms/help"));
      by vm_compute.
Defined.

(* ===================================================================== *)
(** ** Further properties of the code *)
(* ===================================================================== *)

(* ===================================================================== *)
(** ** Acquisition of the CLI and Git identity *)
(* ===================================================================== *)

Module AcquisitionFacts.

Lemma ret_run {W A} (a : A) (s : rt W) : (mret a : M W A) s = (Ok a, s, []).
Proof. reflexivity. Qed.

Ltac mon_reduce := unfold prepend; rewrite ?ret_run; cbn [fst snd app].

Section acquisition.
Context {W : Type} (system : System W).

Lemma call_cases {A B} (f : W → res A * W) (k : A → M W B) s :
  (call f ≫= k) s =
  match f (world s) with
  | (Ok a, w') => k a (Rt w' (proc s))
  | (Raise e, w') => (Raise e, Rt w' (proc s), [])
  end.
Proof.
  rewrite bind_eq. unfold call.
  destruct (f (world s)) as [[a|e] w']; [apply prepend_nil | done].
Qed.

Lemma acting_cases {A B} ev (f : W → res A * W) (k : A → M W B) s :
  ((emit ev;; call f) ≫= k) s =
  match f (world s) with
  | (Ok a, w') => prepend [ev] (k a (Rt w' (proc s)))
  | (Raise e, w') => (Raise e, Rt w' (proc s), [ev])
  end.
Proof.
  rewrite bind_eq, emit_bind. unfold call, prepend.
  destruct (f (world s)) as [[a|e] w']; simpl; [|done].
  by destruct (k a _) as [[? ?] ?].
Qed.

Lemma acting_run {A} ev (f : W → res A * W) s :
  (emit ev;; call f) s =
  match f (world s) with
  | (r, w') => (r, Rt w' (proc s), [ev])
  end.
Proof.
  rewrite emit_bind. unfold call, prepend. by destruct (f (world s)) as [? ?].
Qed.

Lemma error_output_run (r : completed) s :
  error_output (W:=W) r s = (Ok tt, s, []) ∨
  error_output (W:=W) r s = (Raise OtherException, s, []).
Proof.
  unfold error_output. destruct (truthy (stderr r)); [by left|].
  destruct (stdout r); [by left | by right].
Qed.

(** The part of [download_vscode_cli] that sets the execute bits. *)
Lemma set_execute_bits_run binary s :
  let m :=
    try_except
      (current_mode ← call (get_permissions system binary);
       sys_change_permissions system binary (N.lor current_mode 73))
      (λ _, mret tt) in
  ∃ s', (m s = (Ok tt, s', []) ∨
         ∃ mode, m s = (Ok tt, s', [EvChangePermissions binary (N.lor mode 73)])).
Proof.
  cbv zeta. rewrite try_except_eq, call_cases.
  destruct (get_permissions system binary (world s)) as [[mode|e] w1].
  - unfold sys_change_permissions. rewrite acting_run. cbn [world proc].
    destruct (change_permissions system binary _ w1) as [[[]|e] w2];
      mon_reduce; eexists; right; by exists mode.
  - mon_reduce. eexists. by left.
Qed.

(** The runs of [download_vscode_cli] once the archive is there. *)
Lemma after_download_shape tarball exe s :
  let y := after_download system tarball exe s in
  ∃ tar binary mode,
    let extract := EvRunCommand [tar; pystr "-xf"; tarball] in
    let cleanup := EvRemoveFile tarball in
    let chmod := EvChangePermissions binary (N.lor mode 73) in
    (y.2 = [] ∧ ∃ e, y.1.1 = Raise e) ∨
    (y.2 = [cleanup] ∧ y.1.1 ≠ Ok true) ∨
    (y.2 = [extract] ∧ ∃ e, y.1.1 = Raise e) ∨
    y.2 = [extract; cleanup] ∨
    (y.2 = [extract; cleanup; chmod] ∧ y.1.1 = Ok true).
Proof.
  cbv zeta. unfold after_download. rewrite call_cases.
  destruct (which system (pystr "tar") (world s)) as [[tar_exe|e] w1].
  2:{ exists [], [], 0%N. left. simpl. eauto. }
  destruct (truthy tar_exe) eqn:Htar; cbn [negb].
  2:{ unfold sys_remove_file. rewrite acting_cases. cbn [world proc].
      exists [], [], 0%N. right. left.
      destruct (remove_file system tarball w1) as [[[]|e] w2]; by mon_reduce. }
  unfold sys_run_command. rewrite acting_cases. cbn [world proc].
  set (tar := default [] tar_exe).
  destruct (run_command system _ w1) as [[r|e] w2].
  2:{ exists tar, [], 0%N. right. right. left. simpl. eauto. }
  unfold sys_remove_file. rewrite acting_cases. cbn [world proc].
  destruct (remove_file system tarball w2) as [[[]|e] w3]; mon_reduce.
  2:{ exists tar, [], 0%N. do 3 right. by left. }
  destruct (returncode r =? 0)%Z; cbn [negb].
  2:{ rewrite bind_eq.
      destruct (error_output_run r (Rt w3 (proc s))) as [-> | ->]; mon_reduce;
        exists tar, [], 0%N; do 3 right; by left. }
  rewrite call_cases. cbn [world proc].
  destruct (path_exists system exe w3) as [[extracted|e] w4].
  2:{ exists tar, [], 0%N. do 3 right. by left. }
  destruct extracted; cbn [negb].
  2:{ exists tar, [], 0%N. do 3 right. by left. }
  rewrite call_cases. cbn [world proc].
  destruct (get_absolute_path system _ w4) as [[binary|e] w5].
  2:{ exists tar, [], 0%N. do 3 right. by left. }
  rewrite call_cases. cbn [world proc].
  destruct (file_exists system binary w5) as [[is_file|e] w6].
  2:{ exists tar, [], 0%N. do 3 right. by left. }
  destruct is_file.
  2:{ rewrite ret_bind. exists tar, [], 0%N. do 3 right. by left. }
  rewrite bind_eq.
  destruct (set_execute_bits_run binary (Rt w6 (proc s))) as (s' & [E|(mode & E)]);
    cbv zeta in E; rewrite E; mon_reduce.
  - exists tar, [], 0%N. do 3 right. by left.
  - exists tar, binary, mode. do 4 right. done.
Qed.

(** What a failed command leaves as the result: [False], or the
    exception of [None.strip()]. *)
Definition failed (r : completed) : res bool :=
  if truthy (stderr r) || bool_decide (is_Some (stdout r)) then Ok false
  else Raise OtherException.

Lemma error_output_false r s :
  (error_output (W:=W) r;; mret false) s = (failed r, s, []).
Proof.
  rewrite bind_eq. unfold error_output, failed.
  destruct (truthy (stderr r)); [done|]. by destruct (stdout r).
Qed.

Lemma configure_git_both user_name user_email w :
  truthy user_name = true → truthy user_email = true →
  let name_cmd :=
    [pystr "git"; pystr "config"; pystr "--global"; pystr "user.name";
     default [] user_name] in
  let email_cmd :=
    [pystr "git"; pystr "config"; pystr "--global"; pystr "user.email";
     default [] user_email] in
  configure_git system user_name user_email (Rt w None) =
  match run_command system name_cmd w with
  | (Raise e, w1) => (Raise e, Rt w1 None, [EvRunCommand name_cmd])
  | (Ok r1, w1) =>
      if (returncode r1 =? 0)%Z then
        match run_command system email_cmd w1 with
        | (Raise e, w2) =>
            (Raise e, Rt w2 None, [EvRunCommand name_cmd; EvRunCommand email_cmd])
        | (Ok r2, w2) =>
            (if (returncode r2 =? 0)%Z then Ok true else failed r2,
             Rt w2 None, [EvRunCommand name_cmd; EvRunCommand email_cmd])
        end
      else (failed r1, Rt w1 None, [EvRunCommand name_cmd])
  end.
Proof.
  intros Hn He. cbv zeta. unfold configure_git. rewrite Hn, He.
  cbn [negb andb orb]. unfold sys_run_command.
  rewrite bind_eq, acting_cases. cbn [world proc].
  destruct (run_command system _ w) as [[r1|e] w1]; [|done].
  destruct (returncode r1 =? 0)%Z.
  - mon_reduce. cbn [negb]. rewrite acting_cases. cbn [world proc].
    destruct (run_command system _ w1) as [[r2|e] w2]; [|done].
    destruct (returncode r2 =? 0)%Z; [done|].
    rewrite error_output_false. by mon_reduce.
  - rewrite error_output_false. mon_reduce. unfold failed.
    by destruct (_ || _).
Qed.

End acquisition.
End AcquisitionFacts.
Import AcquisitionFacts.

Ltac in_list :=
  repeat first [apply list_elem_of_here | apply list_elem_of_further].

Ltac not_in H :=
  repeat (apply elem_of_cons in H as [H|H]; [done|]); by apply elem_of_nil in H.

Ltac same_call :=
  repeat match goal with
         | H1 : ?t = _, H2 : ?t = _ |- _ => rewrite H1 in H2
         end.

Ltac git_leaf :=
  unfold result_of, trace_of;
  repeat (split_and?; intros; same_call; simplify_eq/=);
  try done; auto.

Ltac shape_leaf :=
  unfold result_of, trace_of; mon_reduce; simpl;
  split; [in_list|];
  split; [intros ?; try done; in_list|];
  split; [intros ?; try done; in_list|];
  split; [intros Hin; try done; exfalso; not_in Hin|];
  intros ?; try done; eauto.


(** X1.  What one call of [download_vscode_cli] does to the world is one
    of six sequences: nothing; the download alone; the download and the
    removal of the archive; the download and the extraction; these and
    the removal; these and a change of permissions.  It downloads from
    the one fixed URL to the absolute path of [vscode_cli.tar.gz], runs
    nothing but [tar -xf] on that archive and removes nothing but that
    archive.  It returns [True] only having done nothing or after
    extraction and removal; [False] only after a download, and never
    with the permissions changed; the new mode is the old one with the
    bits [0o111] (73) added, and once the change is attempted the result
    is [True] whether it succeeds or not. *)
Theorem download_vscode_cli_effects {W : Type} (system : System W)
    (force_download : bool) (w : W) :
  let x := run (download_vscode_cli system force_download) w in
  ∃ tarball tar binary mode,
    let fetch := EvDownloadFile cli_download_url tarball in
    let extract := EvRunCommand [tar; pystr "-xf"; tarball] in
    let cleanup := EvRemoveFile tarball in
    let chmod := EvChangePermissions binary (N.lor mode 73) in
    trace_of x ∈ [ []; [fetch]; [fetch; cleanup]; [fetch; extract];
                   [fetch; extract; cleanup];
                   [fetch; extract; cleanup; chmod] ] ∧
    (result_of x = Ok true →
       trace_of x ∈ [ []; [fetch; extract; cleanup];
                      [fetch; extract; cleanup; chmod] ]) ∧
    (result_of x = Ok false →
       trace_of x ∈ [ [fetch]; [fetch; cleanup]; [fetch; extract; cleanup] ]) ∧
    (chmod ∈ trace_of x → result_of x = Ok true) ∧
    (trace_of x ≠ [] →
       ∃ w1, get_absolute_path system (pystr "vscode_cli.tar.gz") w
             = (Ok tarball, w1)).
Proof.
  cbv zeta. unfold run. rewrite download_vscode_cli_eq, call_cases.
  cbn [world proc].
  destruct (get_absolute_path system (pystr "vscode_cli.tar.gz") w)
    as [[tarball|e] w1]; [|exists [], [], [], 0%N; shape_leaf].
  rewrite call_cases. cbn [world proc].
  destruct (get_absolute_path system (pystr "./code") w1) as [[exe|e] w2];
    [|exists [], [], [], 0%N; shape_leaf].
  rewrite call_cases. cbn [world proc].
  destruct (path_exists system exe w2) as [[present|e] w3];
    [|exists [], [], [], 0%N; shape_leaf].
  destruct (present && negb force_download);
    [exists [], [], [], 0%N; shape_leaf|].
  unfold sys_download_file. rewrite acting_cases. cbn [world proc].
  destruct (download_file system cli_download_url tarball w3) as [[ok|e] w4];
    [|exists tarball, [], [], 0%N; shape_leaf].
  destruct ok; cbn [negb]; [|exists tarball, [], [], 0%N; shape_leaf].
  destruct (after_download_shape system tarball exe (Rt w4 None))
    as (tar & binary & mode & Hshape).
  cbv zeta in Hshape. exists tarball, tar, binary, mode.
  destruct (after_download system tarball exe (Rt w4 None)) as [[r s'] tr].
  simpl in Hshape.
  destruct Hshape as [[-> [e ->]]|[[-> Hr]|[[-> [e ->]]|[->|[-> ->]]]]];
    shape_leaf.
Qed.

(** X2.  [download_vscode_cli] leaves the world alone and returns [True]
    exactly when the CLI directory is there and the download is not
    forced; otherwise its first act is the download, to the absolute
    path of [vscode_cli.tar.gz], even when the directory exists. *)
Theorem download_vscode_cli_skips {W : Type} (system : System W)
    (force_download : bool) (w w1 w2 w3 : W) (tarball exe : str)
    (present : bool) :
  get_absolute_path system (pystr "vscode_cli.tar.gz") w = (Ok tarball, w1) →
  get_absolute_path system (pystr "./code") w1 = (Ok exe, w2) →
  path_exists system exe w2 = (Ok present, w3) →
  let x := run (download_vscode_cli system force_download) w in
  if present && negb force_download
  then x = (Ok true, Rt w3 None, [])
  else ∃ rest, trace_of x = EvDownloadFile cli_download_url tarball :: rest.
Proof.
  intros H1 H2 H3. cbv zeta. unfold run.
  rewrite download_vscode_cli_eq, call_cases. cbn [world proc]. rewrite H1.
  rewrite call_cases. cbn [world proc]. rewrite H2.
  rewrite call_cases. cbn [world proc]. rewrite H3.
  destruct (present && negb force_download); [done|].
  unfold sys_download_file. rewrite acting_cases. cbn [world proc].
  destruct (download_file system cli_download_url tarball w3) as [[ok|e] w4];
    unfold trace_of; mon_reduce; eauto.
Qed.

(** The CLI in place: a plain call does nothing, a forced one downloads. *)
Lemma download_vscode_cli_skips_witness :
  run (download_vscode_cli sys_ready false) tt = (Ok true, Rt tt None, []) ∧
  ∃ rest,
    trace_of (run (download_vscode_cli sys_ready true) tt) =
    EvDownloadFile cli_download_url (pystr "/content/vscode_cli.tar.gz") :: rest.
Proof.
  split.
  - exact (download_vscode_cli_skips sys_ready false tt tt tt tt
             (pystr "/content/vscode_cli.tar.gz") (pystr "/content/code") true
             eq_refl eq_refl eq_refl).
  - exact (download_vscode_cli_skips sys_ready true tt tt tt tt
             (pystr "/content/vscode_cli.tar.gz") (pystr "/content/code") true
             eq_refl eq_refl eq_refl).
Defined.

(** X3.  [configure_git] runs nothing and returns [True] unless both the
    name and the e-mail are given (non-empty).  With both, it sets
    [user.name], then [user.email], by [git config --global]; the e-mail
    is not attempted when setting the name returned a non-zero code, and
    [True] is returned only after both commands. *)
Theorem configure_git_commands {W : Type} (system : System W)
    (git_user_name git_user_email : option str) (w : W) :
  let x := run (configure_git system git_user_name git_user_email) w in
  let name_cmd :=
    [pystr "git"; pystr "config"; pystr "--global"; pystr "user.name";
     default [] git_user_name] in
  let email_cmd :=
    [pystr "git"; pystr "config"; pystr "--global"; pystr "user.email";
     default [] git_user_email] in
  (truthy git_user_name && truthy git_user_email = false →
     x = (Ok true, Rt w None, [])) ∧
  (truthy git_user_name && truthy git_user_email = true →
     (trace_of x = [EvRunCommand name_cmd] ∨
      trace_of x = [EvRunCommand name_cmd; EvRunCommand email_cmd]) ∧
     (result_of x = Ok true →
        trace_of x = [EvRunCommand name_cmd; EvRunCommand email_cmd]) ∧
     (∀ r1 w1,
        run_command system name_cmd w = (Ok r1, w1) →
        returncode r1 ≠ 0%Z →
        trace_of x = [EvRunCommand name_cmd] ∧ result_of x ≠ Ok true) ∧
     (∀ r1 w1 r2 w2,
        run_command system name_cmd w = (Ok r1, w1) →
        returncode r1 = 0%Z →
        run_command system email_cmd w1 = (Ok r2, w2) →
        trace_of x = [EvRunCommand name_cmd; EvRunCommand email_cmd] ∧
        (returncode r2 = 0%Z → result_of x = Ok true) ∧
        (returncode r2 ≠ 0%Z → result_of x ≠ Ok true))).
Proof.
  cbv zeta. unfold run. split.
  - intros H. unfold configure_git.
    destruct (truthy git_user_name), (truthy git_user_email); done.
  - intros [Hn He]%andb_true_iff. rewrite configure_git_both by done.
    destruct (run_command system _ w) as [[r1|e] w1] eqn:E1;
      [|git_leaf].
    destruct (returncode r1 =? 0)%Z eqn:Hrc1;
      [apply Z.eqb_eq in Hrc1 | apply Z.eqb_neq in Hrc1].
    2:{ unfold failed. destruct (_ || _);
          git_leaf. }
    destruct (run_command system _ w1) as [[r2|e] w2] eqn:E2;
      [|git_leaf].
    destruct (returncode r2 =? 0)%Z eqn:Hrc2;
      [apply Z.eqb_eq in Hrc2 | apply Z.eqb_neq in Hrc2].
    + git_leaf.
    + unfold failed. destruct (_ || _);
        git_leaf.
Qed.

(* ===================================================================== *)
(** ** The phases of a run *)
(* ===================================================================== *)

Module PhaseFacts.

Lemma process_event_not_popen e : process_event e → ¬ is_popen e.
Proof. destruct e; simpl; tauto. Qed.

Lemma two_phases_count L tr : two_phases L tr → count is_popen tr ≤ 1.
Proof.
  intros (tr0 & tr1 & -> & H0 & H1).
  rewrite count_app, count_popen_preamble by done.
  destruct H1 as [->|(cmd & cwd & spawned & rest & -> & _ & Hrest & _)].
  - compute. lia.
  - rewrite count_cons, count_none.
    + destruct (decide _); simpl; lia.
    + eapply Forall_impl; [exact Hrest|]. apply process_event_not_popen.
Qed.

Section phases.
Context {W : Type} (host : Host W).

Lemma monitor_end_events cmd cwd w D y :
  monitor_end host cmd cwd w D y →
  (∀ p d r, D p d r → process_event d) →
  ∃ spawned rest,
    y.2 = EvPopen cmd cwd spawned :: rest ∧
    Forall process_event rest ∧ (spawned = false → rest = []).
Proof.
  intros [e' w' HP|p w1 n d w' ex HP Hd|p w1 n mid tail s' HP Hr Hmid
         |p w1 n d w' ex HP Hd|p w1 n HP Hs] HD; simpl.
  - exists false, []. done.
  - exists true, (polls n ++ [d]). split; [done|]. split; [|done].
    apply Forall_app. split; [by apply polls_Forall|].
    apply Forall_singleton. eauto.
  - exists true, (polls n ++ mid ++ tail). split; [done|]. split; [|done].
    apply Forall_app. split; [by apply polls_Forall|].
    apply Forall_app. split.
    + destruct Hmid as [->|(d & Hd & ->)]; [constructor|].
      apply Forall_singleton. eauto.
    + by apply reaping_Forall.
  - exists true, (polls n ++ [d]). split; [done|]. split; [|done].
    apply Forall_app. split; [by apply polls_Forall|].
    apply Forall_singleton. eauto.
  - exists true, (polls n). split; [done|]. split; [|done].
    by apply polls_Forall.
Qed.

Lemma login_display_process p d r :
  login_display host p d r → process_event d.
Proof. by intros (lines & w0 & w' & _ & _ & _ & ->). Qed.

Lemma connect_display_process tunnel_name p d r :
  connect_display host tunnel_name p d r → process_event d.
Proof. by intros (text & url & w0 & w' & _ & _ & _ & ->). Qed.

End phases.
End PhaseFacts.
Import PhaseFacts.

(** X4.  A call of [login] or of [connect] goes through two phases:
    preparatory steps (download, extraction, clean-up, permissions, Git
    and environment set-up), then at most one launch, after which it
    only polls, terminates, waits for and displays: nothing is
    downloaded, run or removed once the process is started, and no
    second process is started.  [login] launches the shell command
    ["<cli> tunnel user login --provider <provider>"] in the current
    directory, [connect] the argument vector of the tunnel in a given
    directory. *)
Theorem one_launch_after_preparation {W : Type} (system : System W)
    (host : Host W) (provider : str) (a : connect_args) (w : W) :
  let x := run (login system host provider) w in
  let y := run (connect system host a) w in
  (two_phases (λ cmd cwd, cwd = None ∧ ∃ cli, cmd = login_cmd cli provider)
     (trace_of x) ∧
   count is_popen (trace_of x) ≤ 1) ∧
  (two_phases (λ cmd cwd, ∃ cli dir, cwd = Some dir ∧ cmd = connect_cmd cli a)
     (trace_of y) ∧
   count is_popen (trace_of y) ≤ 1).
Proof.
  cbv zeta. split.
  - assert (H : two_phases
                  (λ cmd cwd, cwd = None ∧ ∃ cli, cmd = login_cmd cli provider)
                  (trace_of (run (login system host provider) w))).
    { destruct (login_run system host provider w) as (tr0 & Htr0 & Hcases).
      exists tr0.
      destruct Hcases as [(r & s' & -> & _)|(cli & w0 & y & Hy & ->)].
      - exists []. unfold trace_of. simpl. rewrite app_nil_r. auto.
      - destruct (monitor_end_events host _ _ _ _ _ Hy
                    (login_display_process host))
          as (spawned & rest & E & Hrest & Hfail).
        exists y.2. split; [done|]. split; [done|]. right.
        exists (login_cmd cli provider), None, spawned, rest. eauto 10. }
    split; [done | by eapply two_phases_count].
  - assert (H : two_phases
                  (λ cmd cwd, ∃ cli dir, cwd = Some dir ∧ cmd = connect_cmd cli a)
                  (trace_of (run (connect system host a) w))).
    { destruct (connect_run system host a w) as (tr0 & Htr0 & Hcases).
      exists tr0.
      destruct Hcases as [(r & s' & -> & _)|(cli & cwd & w0 & y & Hy & ->)].
      - exists []. unfold trace_of. simpl. rewrite app_nil_r. auto.
      - destruct (monitor_end_events host _ _ _ _ _ Hy
                    (connect_display_process host (name a)))
          as (spawned & rest & E & Hrest & Hfail).
        exists y.2. split; [done|]. split; [done|]. right.
        exists (connect_cmd cli a), (Some cwd), spawned, rest. eauto 10. }
    split; [done | by eapply two_phases_count].
Qed.

(* ===================================================================== *)
(** ** The working directory of the tunnel *)
(* ===================================================================== *)

Module DirectoryFacts.

Section directory.
Context {W : Type} (system : System W) (host : Host W).

(** [staged], from one state. *)
Definition staged_at (K : M W bool → Prop) (m : M W bool) (s : rt W) : Prop :=
  ∃ tr0, Forall preamble_event tr0 ∧
    ((∃ (r : res bool) s', m s = (r, s', tr0) ∧ r ≠ Ok true ∧ proc s' = None)
     ∨ (∃ k s0, K k ∧ proc s0 = None ∧ m s = prepend tr0 (k s0))).

Lemma staged_staged_at K m s : staged K m → proc s = None → staged_at K m s.
Proof. intros H Hs. by apply H. Qed.

Lemma staged_at_bind {A} K (m : M W A) (f : A → M W bool) s :
  preserves preamble_event m → proc s = None →
  (∀ a s1 t1, m s = (Returned (Ok a), s1, t1) → proc s1 = None →
              staged_at K (f a) s1) →
  staged_at K (m ≫= f) s.
Proof.
  intros Hm Hs Hf. unfold staged_at. rewrite bind_eq.
  destruct (Hm s) as (H1 & H2 & H3).
  destruct (m s) as [[[[a|e]|] s1] t1]; simpl in *; [| |done].
  - destruct (Hf a s1 t1 eq_refl) as (tr0 & Htr0 & Hcases); [congruence|].
    exists (t1 ++ tr0). split; [by apply Forall_app|].
    destruct Hcases as [(r & s' & -> & Hr & Hp)|(k & s0 & Hk & Hp & ->)].
    + left. exists r, s'. done.
    + right. exists k, s0. by rewrite prepend_prepend.
  - exists t1. split; [done|]. left. exists (Raise e), s1.
    split; [done|]. split; [done | congruence].
Qed.

Lemma call_returns {A} (f : W → res A * W) s a s1 t1 :
  call f s = (Returned (Ok a), s1, t1) → f (world s) = (Ok a, world s1).
Proof.
  unfold call. destruct (f (world s)) as [r w1]. by intros [= -> <- _].
Qed.

(** Lines 300-319 of [connect]. *)
Lemma python_for_venv_run a s python s1 t1 :
  (if truthy (setup_python_version a) then
     let version := default [] (setup_python_version a) in
     emit (EvSetupPython version (force_python_reinstall a));;
     pyenv_res ← call (setup_and_get_python_executable host version
                         (force_python_reinstall a));
     mret (default (pystr "python3") pyenv_res)
   else mret (pystr "python3")) s = (Returned (Ok python), s1, t1) →
  python_for_venv host a (world s) python (world s1).
Proof.
  unfold python_for_venv. destruct (truthy (setup_python_version a)).
  2:{ by intros [= <- <- _]. }
  cbv zeta. rewrite emit_bind, call_cases.
  destruct (setup_and_get_python_executable host _ _ (world s))
    as [[pyenv_res|e] w1]; [|done].
  rewrite ret_run. unfold prepend. cbn [fst snd]. intros [= <- <- _].
  by exists pyenv_res.
Qed.

(** Lines 321-343 of [connect]. *)
Lemma project_directory_run a cwd0 python s dir s1 t1 :
  (if truthy (create_new_project a) then
     let project := default [] (create_new_project a) in
     abs_new_project_base_path ←
       call (get_absolute_path system (new_project_base_path a));
     emit (EvSetupProject project abs_new_project_base_path python
             (venv_name_for_project a));;
     created_project_path ←
       call (Driver.setup_project_directory host project
               abs_new_project_base_path python (venv_name_for_project a));
     mret (if truthy created_project_path
           then default [] created_project_path else cwd0)
   else mret cwd0) s = (Returned (Ok dir), s1, t1) →
  project_directory system host a cwd0 python (world s) dir.
Proof.
  unfold project_directory. destruct (truthy (create_new_project a)).
  2:{ by intros [= <- _ _]. }
  cbv zeta. rewrite call_cases.
  destruct (get_absolute_path system _ (world s)) as [[base|e] w1] eqn:E1;
    [|done].
  rewrite emit_bind, call_cases. cbn [world proc].
  destruct (Driver.setup_project_directory host _ base python _ w1)
    as [[created|e] w2] eqn:E2; [|done].
  rewrite ret_run. unfold prepend. cbn [fst snd]. intros [= <- _ _].
  by exists base, w1, created, w2.
Qed.

Lemma connect_staged_directory a s :
  proc s = None →
  staged_at (λ k, ∃ cli dir, k = connect_monitor host cli a dir ∧
                             tunnel_directory system host a dir)
    (connect system host a) s.
Proof.
  intros Hs. unfold connect.
  apply staged_at_bind; [apply download_vscode_cli_preamble | done |].
  intros available s1 t1 _ Hs1.
  destruct (negb available);
    [by apply staged_staged_at; [apply staged_ret_false|]|].
  apply staged_at_bind; [|done|].
  { destruct (_ && _); [|apply preserves_ret].
    apply preserves_bind; [apply configure_git_preamble|].
    intros ?. apply preserves_ret. }
  intros _ s2 t2 _ Hs2.
  apply staged_at_bind; [apply preserves_call | done |].
  intros cwd0 s3 t3 Hcwd0%call_returns Hs3.
  apply staged_at_bind; [repeat preserves_step | done |].
  intros python s4 t4 Hpython%python_for_venv_run Hs4.
  apply staged_at_bind; [repeat preserves_step | done |].
  intros dir s5 t5 Hdir%project_directory_run Hs5.
  assert (tunnel_directory system host a dir) as Htunnel
    by by exists (world s2), cwd0, (world s3), python, (world s4).
  apply staged_staged_at; [|done].
  repeat first
    [ apply staged_ret_false
    | apply staged_here; eauto; fail
    | apply staged_bind; [|intros ?]
    | apply download_vscode_cli_preamble
    | match goal with |- staged _ (if ?b then _ else _) => destruct b end
    | preserves_step ].
Qed.

End directory.
End DirectoryFacts.
Import DirectoryFacts.

(** X5.  Where [connect] starts the tunnel.  Every launch made by
    [connect] names a working directory.  It is the directory reported
    by the first [get_cwd], unless [create_new_project] is given and
    [setup_project_directory], called for that project, the absolute
    path of [new_project_base_path], the Python chosen ([python3], or
    the one set up for [setup_python_version]) and
    [venv_name_for_project], returns a path that is not empty: then it
    is that path. *)
Theorem connect_tunnel_directory {W : Type} (system : System W)
    (host : Host W) (a : connect_args) (w : W) :
  let y := run (connect system host a) w in
  Forall (λ e,
            match e with
            | EvPopen _ cwd _ =>
                ∃ dir, cwd = Some dir ∧ tunnel_directory system host a dir ∧
                       (truthy (create_new_project a) = false →
                        ∃ w0 w1, get_cwd system w0 = (Ok dir, w1))
            | _ => True
            end) (trace_of y).
Proof.
  cbv zeta.
  destruct (connect_staged_directory system host a (Rt w None) eq_refl)
    as (tr0 & Htr0 & Hcases).
  assert (∀ P : event → Prop,
            (∀ e, ¬ is_popen e → P e) → Forall preamble_event tr0 →
            Forall P tr0) as Hpre.
  { intros P HP H. eapply Forall_impl; [exact H|].
    intros e He. apply HP. destruct e; simpl in *; tauto. }
  destruct Hcases as [(r & s' & E & _)|(k & [w0 pr] & Hk & Hp & E)].
  - unfold run. rewrite E. unfold trace_of. simpl.
    apply Hpre; [|done]. intros e He. destruct e; try done.
  - destruct Hk as (cli & dir & -> & Hdir). simpl in Hp. subst pr.
    unfold run. rewrite E. unfold trace_of, prepend. cbn [fst snd].
    apply Forall_app. split.
    { apply Hpre; [|done]. intros e He. destruct e; try done. }
    destruct (monitor_end_events host _ _ _ _ _
                (connect_monitor_shape host cli a dir w0)
                (connect_display_process host (name a)))
      as (spawned & rest & -> & Hrest & _).
    constructor.
    + exists dir. split; [done|]. split; [done|].
      intros Hno.
      destruct Hdir as (w1 & cwd0 & w2 & python & w3 & Hcwd & _ & Hproj).
      unfold project_directory in Hproj. rewrite Hno in Hproj. subst dir.
      eauto.
    + eapply Forall_impl; [exact Hrest|]. by intros [].
Qed.

(* ===================================================================== *)
(** ** The paths of the guarded block *)
(* ===================================================================== *)

Module PathFacts.

Section paths.
Context {W : Type} (system : System W) (host : Host W).



End paths.
End PathFacts.
Import PathFacts.








(* ===================================================================== *)
(** ** The methods of [System] *)
(* ===================================================================== *)

Module SystemFacts.

Lemma isinstance_OSError_FileNotFoundError e :
  Exc.isinstance e Exc.OSError = false → e ≠ Exc.FileNotFoundError.
Proof. by intros H ->. Qed.

Section system_facts.
Context {W : Type} (os : SystemPy.OS W).

Lemma reported_cases cls (x : outcome unit * W) :
  (SystemPy.reported cls x).2 = x.2 ∧
  match x.1 with
  | Returns _ => (SystemPy.reported cls x).1 = Returns (true, None)
  | Raises e =>
      (SystemPy.reported cls x).1 =
      if Exc.isinstance e cls then Returns (false, Some e) else Raises e
  end.
Proof.
  destruct x as [[[]|e] w']; simpl; [done|]. by destruct (Exc.isinstance e cls).
Qed.

Lemma reported_raises cls (x : outcome unit * W) e :
  (SystemPy.reported cls x).1 = Raises e → Exc.isinstance e cls = false.
Proof.
  destruct x as [[[]|e'] w']; simpl; [done|].
  destruct (Exc.isinstance e' cls) eqn:E; [done|]. by intros [= <-].
Qed.

Lemma reported_consistent cls (x : outcome unit * W) ok err :
  (SystemPy.reported cls x).1 = Returns (ok, err) → ok = true ↔ err = None.
Proof.
  destruct x as [[[]|e'] w']; simpl.
  - by intros [= <- <-].
  - destruct (Exc.isinstance e' cls); [|done]. by intros [= <- <-].
Qed.

(** With the arguments [run_command] builds, [subprocess.run] refuses. *)
Lemma run_command_refused command cwd env text check stderr_to_stdout w :
  SystemPy.refuses_capture_with_streams os →
  SystemPy.run_command os command cwd env true text check stderr_to_stdout w
  = (Raises Exc.ValueError, w).
Proof. intros H. unfold SystemPy.run_command. apply H; [done|]. by left. Qed.

Lemma as_called_run_command command w :
  SystemPy.refuses_capture_with_streams os →
  run_command (Facade.as_called (SystemPy.System os)) command w
  = (Raise OtherException, w).
Proof.
  intros H. simpl. by rewrite run_command_refused.
Qed.

(** Under [missing_ok], [remove_file] returns a report unless the
    library raises something that is not an [OSError]. *)
Lemma remove_file_outcome path w :
  (∃ rep w', SystemPy.remove_file os path true w = (Returns rep, w')) ∨
  (∃ e w', SystemPy.remove_file os path true w = (Raises e, w') ∧
           Exc.isinstance e Exc.OSError = false).
Proof.
  unfold SystemPy.remove_file. destruct (SystemPy.file_exists os path w).
  - unfold SystemPy.reported.
    destruct (SystemPy.os_remove os path w) as [[[]|e] w']; [eauto|].
    destruct (Exc.isinstance e Exc.OSError) eqn:E; eauto 6.
  - eauto.
Qed.

End system_facts.

Lemma machine_refuses : SystemPy.refuses_capture_with_streams Machine.os.
Proof.
  intros command kw m Hc Hs. simpl. rewrite Hc. simpl.
  destruct (SystemPy.kw_stdout kw), (SystemPy.kw_stderr kw); simpl; try done.
  by destruct Hs.
Qed.

End SystemFacts.
Import SystemFacts.

(** X6.  [remove_file] and [remove_dir] report instead of raising.  When
    the file (directory) is not there, nothing is touched and the report
    is [(True, None)] under [missing_ok], [(False, FileNotFoundError)]
    otherwise: the error is returned, not raised.  When it is there, the
    report is [(True, None)] if the library call returns and
    [(False, e)] if it raises an [OSError] [e]; only an exception that is
    not an [OSError] is let through.  In a report the flag is [True]
    exactly when no error comes with it. *)
Theorem removals_report {W : Type} (os : SystemPy.OS W) (path : str)
    (recursive missing_ok : bool) (w : W) :
  let contract (present : bool) (library x : outcome (report bool) * W) :=
    (present = false →
       x = (Returns (missing_ok,
                     if missing_ok then None else Some Exc.FileNotFoundError),
            w)) ∧
    (present = true → x = library) ∧
    (∀ e, x.1 = Raises e →
          Exc.isinstance e Exc.OSError = false ∧ e ≠ Exc.FileNotFoundError) ∧
    (∀ ok err, x.1 = Returns (ok, err) → ok = true ↔ err = None) in
  let removed (y : outcome unit * W) : outcome (report bool) * W :=
    match y with
    | (Returns _, w') => (Returns (true, None), w')
    | (Raises e, w') =>
        (if Exc.isinstance e Exc.OSError then Returns (false, Some e)
         else Raises e, w')
    end in
  contract (SystemPy.file_exists os path w)
    (removed (SystemPy.os_remove os path w))
    (SystemPy.remove_file os path missing_ok w) ∧
  contract (SystemPy.dir_exists os path w)
    (removed (if recursive then SystemPy.shutil_rmtree os path w
              else SystemPy.os_rmdir os path w))
    (SystemPy.remove_dir os path recursive missing_ok w).
Proof.
  cbv zeta. split.
  - unfold SystemPy.remove_file.
    destruct (SystemPy.file_exists os path w).
    + split; [done|]. split.
      { intros _. unfold SystemPy.reported.
        destruct (SystemPy.os_remove os path w) as [[[]|e] w']; [done|].
        by destruct (Exc.isinstance e Exc.OSError). }
      split.
      * intros e He. apply reported_raises in He. split; [done|].
        by apply isinstance_OSError_FileNotFoundError.
      * intros ok err. apply reported_consistent.
    + split; [by destruct missing_ok|]. split; [done|]. split.
      * intros e. by destruct missing_ok.
      * intros ok err. destruct missing_ok; by intros [= <- <-].
  - unfold SystemPy.remove_dir.
    destruct (SystemPy.dir_exists os path w).
    + split; [done|]. split.
      { intros _. unfold SystemPy.reported.
        destruct (if recursive then _ else _) as [[[]|e] w']; [done|].
        by destruct (Exc.isinstance e Exc.OSError). }
      split.
      * intros e He. apply reported_raises in He. split; [done|].
        by apply isinstance_OSError_FileNotFoundError.
      * intros ok err. apply reported_consistent.
    + split; [by destruct missing_ok|]. split; [done|]. split.
      * intros e. by destruct missing_ok.
      * intros ok err. destruct missing_ok; by intros [= <- <-].
Qed.

(** X7.  [run_command] hands [subprocess.run] both [capture_output] and
    the [stdout] and [stderr] it has derived from it.  With
    [capture_output=True] (the default, and what every caller in the
    package passes) the library refuses the combination: the call raises
    [ValueError] and nothing is launched.  With [capture_output=False]
    the command is run with neither stream redirected. *)
Theorem run_command_capture_refused {W : Type} (os : SystemPy.OS W)
    (command : list str) (cwd : option str) (env : option (gmap str str))
    (text check stderr_to_stdout : bool) (w : W) :
  SystemPy.refuses_capture_with_streams os →
  SystemPy.run_command os command cwd env true text check stderr_to_stdout w
    = (Raises Exc.ValueError, w) ∧
  SystemPy.run_command os command cwd env false text check stderr_to_stdout w
    = SystemPy.subprocess_run os command
        (SystemPy.RunKwargs cwd env false text check None None) w.
Proof.
  intros H. split; [by apply run_command_refused | done].
Qed.

Lemma run_command_capture_refused_witness :
  SystemPy.run_command Machine.os [pystr "git"; pystr "init"] None None
    true true false true Machine.fresh
  = (Raises Exc.ValueError, Machine.fresh) ∧
  SystemPy.run_command Machine.os [pystr "git"; pystr "init"] None None
    false true false true Machine.fresh
  = (Returns (Completed 0 None None), Machine.fresh).
Proof.
  destruct (run_command_capture_refused Machine.os [pystr "git"; pystr "init"]
              None None true false true Machine.fresh machine_refuses)
    as [H1 H2].
  split; [exact H1 | by rewrite H2].
Defined.

(** X8.  The reporting methods never raise: [change_cwd],
    [download_file], [write_file], [read_file] and [read_package_asset]
    return a pair for every outcome of the library calls they make, with
    an error in it exactly when the value is [False] (or [None]).
    [make_dirs] reports an [OSError] in the same way and lets through
    only an exception that is not one. *)
Theorem reporting_methods_never_raise {W : Type} (os : SystemPy.OS W) (w : W) :
  (∀ path, ∃ ok err,
     (SystemPy.change_cwd os path w).1 = Returns (ok, err) ∧
     (ok = true ↔ err = None)) ∧
  (∀ url destination_path timeout, ∃ ok err,
     (SystemPy.download_file os url destination_path timeout w).1
       = Returns (ok, err) ∧
     (ok = true ↔ err = None)) ∧
  (∀ path content mode encoding, ∃ ok err,
     (SystemPy.write_file os path content mode encoding w).1
       = Returns (ok, err) ∧
     (ok = true ↔ err = None)) ∧
  (∀ path mode encoding, ∃ content err,
     SystemPy.read_file os path mode encoding w = Returns (content, err) ∧
     (is_Some content ↔ err = None)) ∧
  (∀ asset_path encoding, ∃ content err,
     SystemPy.read_package_asset os asset_path encoding w
       = Returns (content, err) ∧
     (is_Some content ↔ err = None)) ∧
  (∀ path exist_ok,
     (∀ e, (SystemPy.make_dirs os path exist_ok w).1 = Raises e →
           Exc.isinstance e Exc.OSError = false) ∧
     (∀ ok err, (SystemPy.make_dirs os path exist_ok w).1 = Returns (ok, err) →
                ok = true ↔ err = None)).
Proof.
  split_and!.
  - intros path. unfold SystemPy.change_cwd.
    destruct (SystemPy.os_chdir os path w) as [[[]|e] w']; simpl.
    + by exists true, None.
    + exists false, (Some e). split; [|done].
      by destruct e.
  - intros url destination_path timeout. unfold SystemPy.download_file.
    destruct (SystemPy.requests_get os url timeout w) as [[response|e] w1].
    + destruct (SystemPy.raise_for_status os response) as [[]|e].
      * destruct (SystemPy.save_content os destination_path response w1)
          as [[[]|e] w2]; simpl.
        -- by exists true, None.
        -- exists false, (Some e). split; [|done].
           by destruct e.
      * exists false, (Some e). split; [|done]. simpl.
        by destruct e.
    + exists false, (Some e). split; [|done]. simpl.
      by destruct e.
  - intros path content mode encoding. unfold SystemPy.write_file.
    destruct (SystemPy.open_write os path _ content w) as [[[]|e] w']; simpl.
    + by exists true, None.
    + exists false, (Some e). split; [|done].
      by destruct e.
  - intros path mode encoding. unfold SystemPy.read_file.
    destruct (SystemPy.open_read os path _ w) as [content|e].
    + exists (Some content), None. split; [done|]. split; [done|]. by eexists.
    + exists None, (Some e). split.
      * by destruct e.
      * split; [by intros [? ?] | done].
  - intros asset_path encoding. unfold SystemPy.read_package_asset.
    destruct (SystemPy.resources_files_read_text os asset_path encoding w)
      as [content|e].
    + exists (Some content), None. split; [done|]. split; [done|]. by eexists.
    + destruct (Exc.isinstance e Exc.AttributeError).
      * destruct (SystemPy.resources_path_read_text os asset_path encoding w)
          as [content|e'].
        -- exists (Some content), None. split; [done|]. split; [done|].
           by eexists.
        -- exists None, (Some e'). split; [done|].
           split; [by intros [? ?] | done].
      * exists None, (Some e). split; [done|].
        split; [by intros [? ?] | done].
  - intros path exist_ok. unfold SystemPy.make_dirs. split.
    + intros e. apply reported_raises.
    + intros ok err. apply reported_consistent.
Qed.

(* ===================================================================== *)
(** ** The driver on the facade of [system.py] *)
(* ===================================================================== *)

Module OnSystemFacts.

Ltac mon_reduce := unfold prepend; rewrite ?ret_run; cbn [fst snd app].

Section on_system.
Context {W : Type} (os : SystemPy.OS W).
Hypothesis refuses : SystemPy.refuses_capture_with_streams os.

Let system : System W := Facade.as_called (SystemPy.System os).

Lemma after_download_on_System tarball exe s :
  let y := after_download system tarball exe s in
  (y.1.1 ≠ Ok true ∧ y.2 = [EvRemoveFile tarball]) ∨
  (y.1.1 = Raise OtherException ∧
   ∃ tar, y.2 = [EvRunCommand [tar; pystr "-xf"; tarball]]).
Proof.
  cbv zeta. unfold after_download. rewrite call_cases.
  change (which system (pystr "tar") (world s))
    with (Ok (SystemPy.which os (pystr "tar") (world s)), world s).
  cbv iota beta.
  destruct (truthy (SystemPy.which os (pystr "tar") (world s))); cbn [negb].
  - right. unfold sys_run_command. rewrite acting_cases. cbn [world proc].
    unfold system. rewrite as_called_run_command by done. simpl. eauto.
  - left. unfold sys_remove_file. rewrite acting_cases. cbn [world proc].
    change (remove_file system tarball (world s))
      with (let x := SystemPy.remove_file os tarball true (world s) in
            (Facade.to_res (λ _, tt) x.1, x.2)).
    cbv zeta.
    destruct (SystemPy.remove_file os tarball true (world s)) as [[rep|e] w'];
      by mon_reduce.
Qed.

(** The three ways [download_vscode_cli] ends on this facade. *)
Lemma download_on_System force s :
  let x := download_vscode_cli system force s in
  (x.2 = [] ∧ proc x.1.2 = proc s) ∨
  (x.1.1 ≠ Ok true ∧ proc x.1.2 = proc s ∧
   ∃ tarball,
     x.2 = [EvDownloadFile cli_download_url tarball] ∨
     x.2 = [EvDownloadFile cli_download_url tarball; EvRemoveFile tarball] ∨
     (x.1.1 = Raise OtherException ∧
      ∃ tar, x.2 = [EvDownloadFile cli_download_url tarball;
                    EvRunCommand [tar; pystr "-xf"; tarball]])).
Proof.
  cbv zeta.
  pose proof (download_vscode_cli_preamble system force s) as (_ & Hp & _).
  revert Hp. rewrite download_vscode_cli_eq, call_cases.
  destruct (get_absolute_path system _ (world s)) as [[tarball|e] w1];
    [|by left].
  rewrite call_cases. cbn [world proc].
  destruct (get_absolute_path system _ w1) as [[exe|e] w2]; [|by left].
  rewrite call_cases. cbn [world proc].
  destruct (path_exists system exe w2) as [[present|e] w3]; [|by left].
  destruct (present && negb force); [by left|].
  unfold sys_download_file. rewrite acting_cases. cbn [world proc].
  destruct (download_file system cli_download_url tarball w3) as [[ok|e] w4].
  2:{ intros Hp. right. split; [done|]. split; [done|]. exists tarball. by left. }
  destruct ok; cbn [negb].
  2:{ intros Hp. right. mon_reduce. split; [done|]. split; [done|].
      exists tarball. by left. }
  destruct (after_download_on_System tarball exe (Rt w4 (proc s)))
    as [[Hr Ht]|[Hr [tar Ht]]]; cbv zeta in Hr, Ht;
    destruct (after_download system tarball exe _) as [[r s'] tr];
    simpl in Hr, Ht; subst; mon_reduce; intros Hp; right;
    (split; [done|]); (split; [done|]); exists tarball.
  - right. by left.
  - right. right. split; [done|]. by exists tar.
Qed.

End on_system.
End OnSystemFacts.
Import OnSystemFacts.

(** X9.  With [System] itself as the facade, [download_vscode_cli]
    returns [True] only when it finds the CLI directory in place and
    does nothing.  Once the archive is downloaded and [tar] found, the
    extraction goes through [run_command(..., capture_output=True)],
    which the library refuses: [ValueError] leaves the function, after
    the download and the attempt only, so that the archive is not
    removed. *)
Theorem download_vscode_cli_on_System {W : Type} (os : SystemPy.OS W)
    (force_download : bool) (w : W) :
  SystemPy.refuses_capture_with_streams os →
  let x := run (download_vscode_cli (Facade.as_called (SystemPy.System os))
                  force_download) w in
  (result_of x = Ok true → trace_of x = []) ∧
  (∀ command, EvRunCommand command ∈ trace_of x →
     result_of x = Raise OtherException ∧
     ∃ tarball,
       trace_of x = [EvDownloadFile cli_download_url tarball;
                     EvRunCommand command]).
Proof.
  intros Hos. cbv zeta. unfold run, result_of, trace_of.
  destruct (download_on_System os Hos force_download (Rt w None))
    as [[Ht _]|(Hr & _ & tarball & [Ht|[Ht|(He & tar & Ht)]])];
    cbv zeta in *; rewrite Ht.
  - split; [done|]. by intros command ?%elem_of_nil.
  - split; [done|]. intros command Hin. exfalso. not_in Hin.
  - split; [done|]. intros command Hin. exfalso. not_in Hin.
  - split; [done|]. intros command Hin. split; [done|]. exists tarball.
    apply elem_of_cons in Hin as [?|Hin]; [done|].
    apply list_elem_of_singleton in Hin. by simplify_eq.
Qed.

(** A notebook machine with nothing installed. *)
Lemma download_vscode_cli_on_System_witness :
  let x := run (download_vscode_cli
                  (Facade.as_called (SystemPy.System Machine.os)) false)
               Machine.fresh in
  result_of x = Raise OtherException ∧
  trace_of x =
    [EvDownloadFile cli_download_url (pystr "/content/vscode_cli.tar.gz");
     EvRunCommand [pystr "/usr/bin/tar"; pystr "-xf";
                   pystr "/content/vscode_cli.tar.gz"]].
Proof.
  cbv zeta.
  destruct (download_vscode_cli_on_System Machine.os false Machine.fresh
              machine_refuses) as [_ H].
  destruct (H [pystr "/usr/bin/tar"; pystr "-xf";
               pystr "/content/vscode_cli.tar.gz"]) as [Hr _].
  - vm_compute. apply list_elem_of_further, list_elem_of_here.
  - split; [exact Hr | by vm_compute].
Defined.

(** X10.  With [System] itself as the facade, [connect] called with a Git
    name and e-mail never starts the tunnel.  If the CLI cannot be
    obtained it returns [None]; otherwise [configure_git] runs
    [git config] through [run_command(..., capture_output=True)], the
    library refuses, and [ValueError] leaves [connect], which calls
    [configure_git] outside its [try].  No process is launched. *)
Theorem connect_with_git_identity_on_System {W : Type} (os : SystemPy.OS W)
    (host : Host W) (a : connect_args) (w : W) :
  SystemPy.refuses_capture_with_streams os →
  truthy (git_user_name a) = true →
  truthy (git_user_email a) = true →
  let y := run (connect (Facade.as_called (SystemPy.System os)) host a) w in
  (result_of y = Ok false ∨ ∃ e, result_of y = Raise e) ∧
  count is_popen (trace_of y) = 0 ∧
  (∀ s1 tr,
     download_vscode_cli (Facade.as_called (SystemPy.System os)) false
       (Rt w None) = (Ok true, s1, tr) →
     result_of y = Raise OtherException ∧
     trace_of y =
       tr ++ [EvRunCommand [pystr "git"; pystr "config"; pystr "--global";
                            pystr "user.name"; default [] (git_user_name a)]]).
Proof.
  intros Hos Hn He. cbv zeta. unfold run, connect. rewrite bind_eq.
  set (system := Facade.as_called (SystemPy.System os)).
  destruct (download_vscode_cli_preamble system false (Rt w None))
    as (Hpre & Hp & Hnb).
  destruct (download_vscode_cli system false (Rt w None)) as [[r [w1 p1]] tr].
  simpl in Hpre, Hp, Hnb. subst p1.
  destruct r as [[[]|e]|]; [| | |done]; cbn [negb];
    unfold result_of, trace_of; mon_reduce.
  - assert (configure_git system (git_user_name a) (git_user_email a)
              (Rt w1 None)
            = (Raise OtherException, Rt w1 None,
               [EvRunCommand [pystr "git"; pystr "config"; pystr "--global";
                              pystr "user.name"; default [] (git_user_name a)]]))
      as E.
    { rewrite configure_git_both by done. unfold system.
      by rewrite as_called_run_command. }
    rewrite Hn, He. cbn [andb]. rewrite !bind_eq, E.
    mon_reduce. split; [eauto|]. split.
    + apply count_popen_preamble, Forall_app. split; [done|].
      by repeat constructor.
    + by intros s1 tr' [= <- <-].
  - rewrite app_nil_r. split; [by left|]. split; [|done].
    by apply count_popen_preamble.
  - split; [eauto|]. split; [|done]. by apply count_popen_preamble.
Qed.

(** The CLI is installed; the caller gives a Git identity. *)
Lemma connect_with_git_identity_on_System_witness :
  let a :=
    ConnectArgs (pystr "colab") true None (Some (pystr "Ada"))
      (Some (pystr "ada@example.org")) None false None (pystr ".")
      (pystr ".venv") in
  let y := run (connect (Facade.as_called (SystemPy.System Machine.os))
                  (host_of tunnel_process true) a) Machine.with_cli in
  result_of y = Raise OtherException ∧
  trace_of y =
    [EvRunCommand [pystr "git"; pystr "config"; pystr "--global";
                   pystr "user.name"; pystr "Ada"]].
Proof.
  cbv zeta.
  destruct (connect_with_git_identity_on_System Machine.os
              (host_of tunnel_process true)
              (ConnectArgs (pystr "colab") true None (Some (pystr "Ada"))
                 (Some (pystr "ada@example.org")) None false None (pystr ".")
                 (pystr ".venv"))
              Machine.with_cli machine_refuses eq_refl eq_refl)
    as (_ & _ & H).
  apply (H (Rt Machine.with_cli None) []). by vm_compute.
Defined.

(** *** No launch after a download *)

Module BootstrapFacts.

Section quiet.
Context {W : Type} (system : System W) (host : Host W).

Lemma quiet_count {A} (m : M W A) s :
  preserves quiet_event m → count is_download (m s).2 = 0.
Proof.
  intros H. destruct (H s) as [Hq _]. apply count_none.
  eapply Forall_impl; [exact Hq|]. by intros e [_ ?].
Qed.

(** A step that downloads nothing, before a continuation that ends in
    success. *)
Lemma bind_quiet_true {A} (m : M W A) (f : A → M W bool) s :
  preserves quiet_event m →
  ((m ≫= f) s).1.1 = Ok true →
  ∃ a s1,
    proc s1 = proc s ∧ (f a s1).1.1 = Ok true ∧
    count is_download ((m ≫= f) s).2 = count is_download (f a s1).2.
Proof.
  intros Hq. pose proof (quiet_count m s Hq) as Hc.
  destruct (Hq s) as (_ & Hp & _).
  rewrite bind_eq. destruct (m s) as [[[[a|e]|] s1] t1]; [|done..].
  unfold prepend. simpl in *. intros Htrue. exists a, s1.
  split; [done|]. split; [done|]. rewrite count_app. lia.
Qed.

Lemma configure_git_quiet user_name user_email :
  preserves quiet_event (configure_git system user_name user_email).
Proof.
  unfold configure_git.
  repeat first [ apply sys_run_command_quiet | apply error_output_quiet
               | preserves_step ].
Qed.

Lemma emit_quiet ev :
  preamble_event ev → ¬ is_download ev →
  preserves quiet_event (emit ev : M W unit).
Proof. intros H1 H2. by apply preserves_emit. Qed.

Lemma monitor_end_no_download cmd cwd w D y :
  monitor_end host cmd cwd w D y →
  (∀ p d r, D p d r → process_event d) →
  count is_download y.2 = 0.
Proof.
  intros Hy HD.
  destruct (monitor_end_events host _ _ _ _ _ Hy HD)
    as (spawned & rest & -> & Hrest & _).
  rewrite count_cons, count_none.
  - by destruct (decide (is_download (EvPopen cmd cwd spawned))) as [[]|].
  - eapply Forall_impl; [exact Hrest|]. intros e He. destruct e; simpl in *; tauto.
Qed.

End quiet.

Ltac quiet_side :=
  repeat first
    [ apply configure_git_quiet
    | apply emit_quiet; [exact I | exact id]
    | preserves_step ].

Ltac quiet_bind H :=
  let Hp := fresh "Hp" in
  apply bind_quiet_true in H as (? & [? ?] & Hp & H & ->);
  [simpl in Hp; subst | quiet_side].

Section bootstrap.
Context {W : Type} (os : SystemPy.OS W) (host : Host W).
Hypothesis refuses : SystemPy.refuses_capture_with_streams os.

Local Abbreviation system := (Facade.as_called (SystemPy.System os)).

(** On this facade a download is never followed by success. *)
Lemma bind_download_true force (f : bool → M W bool) s :
  f false = mret false →
  ((download_vscode_cli system force ≫= f) s).1.1 = Ok true →
  ∃ s1,
    proc s1 = proc s ∧ (f true s1).1.1 = Ok true ∧
    count is_download ((download_vscode_cli system force ≫= f) s).2
      = count is_download (f true s1).2.
Proof.
  intros Hf. rewrite bind_eq.
  destruct (download_on_System os refuses force s)
    as [[Ht Hp]|(Hr & Hp & _)]; cbv zeta in *;
    destruct (download_vscode_cli system force s) as [[[[a|e]|] s1] t1];
    simpl in *; try done.
  - subst t1. destruct a.
    + unfold prepend. simpl. intros Htrue. by exists s1.
    + by rewrite Hf.
  - destruct a; [done|]. by rewrite Hf.
Qed.

Lemma login_monitor_no_download cli provider w' :
  count is_download (login_monitor host cli provider (Rt w' None)).2 = 0.
Proof.
  eapply monitor_end_no_download; [apply login_monitor_shape|].
  apply login_display_process.
Qed.

Lemma connect_monitor_no_download cli a dir w' :
  count is_download (connect_monitor host cli a dir (Rt w' None)).2 = 0.
Proof.
  eapply monitor_end_no_download; [apply connect_monitor_shape|].
  apply connect_display_process.
Qed.

Lemma login_no_bootstrap provider w :
  (run (login system host provider) w).1.1 = Ok true →
  count is_download (run (login system host provider) w).2 = 0.
Proof.
  unfold run, login. intros Htrue.
  apply bind_quiet_true in Htrue as (dir & [w1 p1] & Hp1 & Htrue & ->);
    [|apply preserves_call]. simpl in Hp1. subst p1.
  apply bind_quiet_true in Htrue as (cli & [w2 p2] & Hp2 & Htrue & ->);
    [|apply preserves_call]. simpl in Hp2. subst p2.
  apply bind_quiet_true in Htrue as (ok & [w3 p3] & Hp3 & Htrue & ->);
    [|apply preserves_call]. simpl in Hp3. subst p3.
  destruct ok; cbn [negb] in *; [apply login_monitor_no_download|].
  apply bind_download_true in Htrue as ([w4 p4] & Hp4 & Htrue & ->); [|done].
  simpl in Hp4. subst p4. cbn [negb] in *.
  apply bind_quiet_true in Htrue as (ok' & [w5 p5] & Hp5 & Htrue & ->);
    [|apply preserves_call]. simpl in Hp5. subst p5.
  destruct ok'; cbn [negb] in *; [apply login_monitor_no_download | done].
Qed.

Lemma connect_no_bootstrap a w :
  (run (connect system host a) w).1.1 = Ok true →
  count is_download (run (connect system host a) w).2 = 0.
Proof.
  unfold run, connect. intros Htrue.
  apply bind_download_true in Htrue as ([w1 p1] & Hp1 & Htrue & ->); [|done].
  simpl in Hp1. subst p1. cbn [negb] in *.
  do 9 quiet_bind Htrue.
  match type of Htrue with
  | context [negb ?b] => destruct b
  end; cbn [negb] in *; [apply connect_monitor_no_download|].
  apply bind_download_true in Htrue as ([w2 p2] & Hp2 & Htrue & ->); [|done].
  simpl in Hp2. subst p2. cbn [negb] in *.
  do 2 quiet_bind Htrue.
  match type of Htrue with
  | context [negb ?b] => destruct b
  end; cbn [negb] in *; [apply connect_monitor_no_download | done].
Qed.

End bootstrap.
End BootstrapFacts.
Import BootstrapFacts.

(** X11.  With [System] itself as the facade, [login] and [connect]
    never succeed after a download: a call of either that returns
    [True] has downloaded nothing, so the CLI was installed before the
    call.  A missing CLI is never obtained on the way to a launch. *)
Theorem launch_without_download_on_System {W : Type} (os : SystemPy.OS W)
    (host : Host W) (provider : str) (a : connect_args) (w : W) :
  SystemPy.refuses_capture_with_streams os →
  let system := Facade.as_called (SystemPy.System os) in
  let x := run (login system host provider) w in
  let y := run (connect system host a) w in
  (result_of x = Ok true → count is_download (trace_of x) = 0) ∧
  (result_of y = Ok true → count is_download (trace_of y) = 0).
Proof.
  intros Hos. cbv zeta. unfold result_of, trace_of. split.
  - by apply login_no_bootstrap.
  - by apply connect_no_bootstrap.
Qed.

(** The CLI is installed: [login] shows the prompt and downloads
    nothing. *)
Lemma launch_without_download_on_System_witness :
  let x := run (login (Facade.as_called (SystemPy.System Machine.os))
                  (host_of prompt_process true) github) Machine.with_cli in
  result_of x = Ok true ∧ count is_download (trace_of x) = 0.
Proof.
  cbv zeta.
  destruct (launch_without_download_on_System Machine.os
              (host_of prompt_process true) github
              (ConnectArgs (pystr "colab") true None None None None false
                 None (pystr ".") (pystr ".venv"))
              Machine.with_cli machine_refuses) as [H _].
  assert (result_of (run (login (Facade.as_called (SystemPy.System Machine.os))
                            (host_of prompt_process true) github)
                         Machine.with_cli) = Ok true) as E by by vm_compute.
  split; [exact E | exact (H E)].
Defined.

(* ===================================================================== *)
(** ** Reasoning about project set-up *)
(* ===================================================================== *)

Module SetupFacts.

Section setup_monad.
Context {W : Type}.

(** [after t x]: the run [x] after the calls [t]. *)
Definition after {A} (t : list fcall) (x : outcome A * W * list fcall)
    : outcome A * W * list fcall :=
  (x.1.1, x.1.2, t ++ x.2).

Lemma after_nil {A} (x : outcome A * W * list fcall) : after [] x = x.
Proof. by destruct x as [[? ?] ?]. Qed.

Lemma p_bind_eq {A B} (m : Setup W A) (f : A → Setup W B) w :
  (m ≫= f) w =
  match m w with
  | (Returns a, w1, t1) => after t1 (f a w1)
  | (Raises e, w1, t1) => (Raises e, w1, t1)
  end.
Proof.
  unfold mbind, Setup_bind, p_bind, after.
  destruct (m w) as [[[a|e] w1] t1]; [|done]. by destruct (f a w1) as [[? ?] ?].
Qed.

Lemma p_ret_run {A} (a : A) w : (mret a : Setup W A) w = (Returns a, w, []).
Proof. reflexivity. Qed.

Lemma p_ret_bind {A B} (a : A) (k : A → Setup W B) w : (mret a ≫= k) w = k a w.
Proof. rewrite p_bind_eq, p_ret_run. apply after_nil. Qed.

Lemma ask_cases {A B} (f : W → outcome A * W) (k : A → Setup W B) w :
  (ask f ≫= k) w =
  match f w with
  | (Returns a, w') => k a w'
  | (Raises e, w') => (Raises e, w', [])
  end.
Proof.
  rewrite p_bind_eq. unfold ask.
  destruct (f w) as [[a|e] w']; [apply after_nil | done].
Qed.

Lemma act_cases {A B} c (f : W → outcome A * W) (k : A → Setup W B) w :
  (act c f ≫= k) w =
  match f w with
  | (Returns a, w') => after [c] (k a w')
  | (Raises e, w') => (Raises e, w', [c])
  end.
Proof. rewrite p_bind_eq. unfold act. by destruct (f w) as [[a|e] w']. Qed.

Lemma act_run {A} c (f : W → outcome A * W) w :
  act c f w = ((f w).1, (f w).2, [c]).
Proof. unfold act. by destruct (f w). Qed.

Lemma try_finally_eq {A} (m : Setup W A) (f : Setup W unit) w :
  try_finally m f w =
  (match (f (m w).1.2).1.1 with
   | Returns _ => (m w).1.1
   | Raises e => Raises e
   end,
   (f (m w).1.2).1.2, (m w).2 ++ (f (m w).1.2).2).
Proof.
  unfold try_finally. destruct (m w) as [[r w1] t1]. simpl.
  by destruct (f w1) as [[[[]|e] w2] t2].
Qed.

Lemma p_try_except_eq {A} (m : Setup W A) (h : pyexn → Setup W A) w :
  p_try_except m h w =
  match m w with
  | (Raises e, w1, t1) => after t1 (h e w1)
  | returned => returned
  end.
Proof.
  unfold p_try_except, after.
  destruct (m w) as [[[a|e] w1] t1]; [done|]. by destruct (h e w1) as [[? ?] ?].
Qed.

End setup_monad.

Ltac setup_reduce :=
  unfold after, value_of, calls_of, world_of;
  rewrite ?p_ret_run; cbn [fst snd app].

Section pip.
Context {W : Type} (system : Facade.Interface W).

(** What a failed command leaves as the value: [False], or the
    exception of [None.strip()]. *)
Definition failing (r : completed) : outcome bool :=
  match stderr r with
  | None => Raises Exc.AttributeError
  | Some e =>
      if blank e then
        match stdout r with
        | Some _ => Returns false
        | None => Raises Exc.AttributeError
        end
      else Returns false
  end.

Lemma err_msg_false r (w : W) :
  (err_msg r;; mret false) w = (failing r, w, []).
Proof.
  rewrite p_bind_eq. unfold err_msg, failing, stdout_stripped.
  destruct (stderr r) as [e|]; [|done].
  destruct (blank e); [|done]. by destruct (stdout r).
Qed.

Lemma failing_not_true r : failing r ≠ Returns true.
Proof.
  unfold failing. destruct (stderr r) as [e|]; [|done].
  destruct (blank e); [|done]. by destruct (stdout r).
Qed.

(** What a successful command leaves once its output has been logged. *)
Definition succeeding (r : completed) : outcome bool :=
  match stdout r with
  | Some _ => Returns true
  | None => Raises Exc.AttributeError
  end.

Lemma stdout_stripped_true r (w : W) :
  (stdout_stripped r;; mret true) w = (succeeding r, w, []).
Proof.
  rewrite p_bind_eq. unfold stdout_stripped, succeeding. by destruct (stdout r).
Qed.

Lemma install_pip_body_run python script project check w :
  install_pip_body system python script project check w =
  match Facade.run_command system [python; script] (Some project) None
          true true false true w with
  | (Raises e, w1) =>
      (Raises e, w1, [CallRunCommand [python; script] (Some project)])
  | (Returns r1, w1) =>
      if (returncode r1 =? 0)%Z then
        match Facade.run_command system check (Some project) None
                true true false true w1 with
        | (Raises e, w2) =>
            (Raises e, w2,
             [CallRunCommand [python; script] (Some project);
              CallRunCommand check (Some project)])
        | (Returns r2, w2) =>
            (if (returncode r2 =? 0)%Z then succeeding r2 else failing r2, w2,
             [CallRunCommand [python; script] (Some project);
              CallRunCommand check (Some project)])
        end
      else (failing r1, w1, [CallRunCommand [python; script] (Some project)])
  end.
Proof.
  unfold install_pip_body, call_run_command. rewrite act_cases.
  destruct (Facade.run_command system [python; script] _ _ _ _ _ _ w)
    as [[r1|e] w1]; [|done].
  destruct (returncode r1 =? 0)%Z.
  - rewrite act_cases.
    destruct (Facade.run_command system check _ _ _ _ _ _ w1)
      as [[r2|e] w2]; [|done].
    destruct (returncode r2 =? 0)%Z.
    + rewrite stdout_stripped_true. by setup_reduce.
    + rewrite err_msg_false. by setup_reduce.
  - rewrite err_msg_false. by setup_reduce.
Qed.

Lemma install_pip_cleanup_calls script w :
  (install_pip_cleanup system script w).2 = [CallRemoveFile script].
Proof.
  unfold install_pip_cleanup, call_remove_file. rewrite act_cases.
  destruct (Facade.remove_file system script true w) as [[rep|e] w1]; [|done].
  destruct (negb rep.1); [done|]. rewrite ask_cases.
  by destruct (Facade.file_exists system script w1) as [[?|?] ?].
Qed.

Lemma install_pip_run python script project check w :
  let body := install_pip_body system python script project check w in
  (_install_pip system python script project check w).2
    = body.2 ++ [CallRemoveFile script] ∧
  ((_install_pip system python script project check w).1.1 = Returns true →
   body.1.1 = Returns true).
Proof.
  cbv zeta. unfold _install_pip. rewrite try_finally_eq. cbn [fst snd].
  rewrite install_pip_cleanup_calls. split; [done|].
  by destruct (install_pip_cleanup system script _).1.1.
Qed.

End pip.
End SetupFacts.
Import SetupFacts.

(** X12.  [_install_pip] removes the [get-pip.py] script however the
    installation goes: the removal is its last call in every run,
    whether the commands succeed, fail or raise.  It runs the script
    with the Python of the environment, then (only if that returned 0)
    the verification command, both in the project directory, and
    returns [True] only after both have run and returned 0. *)
Theorem install_pip_removes_script {W : Type} (system : Facade.Interface W)
    (venv_python_executable get_pip_script_path project_path : str)
    (pip_check_cmd : list str) (w : W) :
  let x := _install_pip system venv_python_executable get_pip_script_path
             project_path pip_check_cmd w in
  let run command :=
    Facade.run_command system command (Some project_path) None
      true true false true in
  let install :=
    CallRunCommand [venv_python_executable; get_pip_script_path]
      (Some project_path) in
  let verify := CallRunCommand pip_check_cmd (Some project_path) in
  let remove := CallRemoveFile get_pip_script_path in
  (calls_of x = [install; remove] ∨ calls_of x = [install; verify; remove]) ∧
  (value_of x = Returns true → calls_of x = [install; verify; remove]) ∧
  (∀ r1 w1,
     run [venv_python_executable; get_pip_script_path] w = (Returns r1, w1) →
     (returncode r1 ≠ 0%Z →
        calls_of x = [install; remove] ∧ value_of x ≠ Returns true) ∧
     (returncode r1 = 0%Z →
        calls_of x = [install; verify; remove] ∧
        ∀ r2 w2, run pip_check_cmd w1 = (Returns r2, w2) →
                 returncode r2 ≠ 0%Z → value_of x ≠ Returns true)).
Proof.
  cbv zeta. unfold value_of, calls_of.
  destruct (install_pip_run system venv_python_executable get_pip_script_path
              project_path pip_check_cmd w) as [-> Htrue].
  revert Htrue. cbv zeta. rewrite install_pip_body_run.
  destruct (Facade.run_command system [_; _] _ _ _ _ _ _ w)
    as [[r1|e] w1] eqn:E1.
  2:{ simpl. intros Htrue. split; [by left|]. split; [by intros ?%Htrue|].
      by intros r1 w1' [=]. }
  destruct (returncode r1 =? 0)%Z eqn:Hrc1;
    [apply Z.eqb_eq in Hrc1 | apply Z.eqb_neq in Hrc1].
  - destruct (Facade.run_command system pip_check_cmd _ _ _ _ _ _ w1)
      as [[r2|e] w2] eqn:E2; simpl; intros Htrue.
    + split; [by right|]. split; [done|].
      intros ? ? [= <- <-]. split; [done|]. intros _. split; [done|].
      intros r2' w2' Hrun2 Hrc2 Hv. rewrite E2 in Hrun2.
      injection Hrun2 as <- <-. apply Z.eqb_neq in Hrc2.
      rewrite Hrc2 in Htrue. by apply (failing_not_true r2), Htrue.
    + split; [by right|]. split; [done|].
      intros ? ? [= <- <-]. split; [done|]. intros _. split; [done|].
      intros r2' w2' Hrun2. by rewrite E2 in Hrun2.
  - simpl. intros Htrue. split; [by left|]. split.
    + intros Hv. by apply Htrue, failing_not_true in Hv.
    + intros ? ? [= <- <-]. split; [|done]. intros _. split; [done|].
      intros Hv. by apply Htrue, failing_not_true in Hv.
Qed.

Module PipFacts.

Section ensure.
Context {W : Type} (system : Facade.Interface W).

Lemma ensure_pip_run project python w :
  let check := [python; pystr "-m"; pystr "pip"; pystr "--version"] in
  _ensure_pip_in_venv system project python w =
  match Facade.run_command system check (Some project) None
          true true false true w with
  | (Raises e, w1) => (Raises e, w1, [CallRunCommand check (Some project)])
  | (Returns r, w1) =>
      if (returncode r =? 0)%Z then
        (succeeding r, w1, [CallRunCommand check (Some project)])
      else
        match Facade.get_absolute_path system
                (path_join project GET_PIP_SCRIPT_NAME) w1 with
        | (Raises e, w2) =>
            (Raises e, w2, [CallRunCommand check (Some project)])
        | (Returns script, w2) =>
            match Facade.download_file system GET_PIP_URL script 30 w2 with
            | (Raises e, w3) =>
                (Raises e, w3,
                 [CallRunCommand check (Some project);
                  CallDownloadFile GET_PIP_URL script])
            | (Returns downloaded, w3) =>
                if downloaded.1 && truthy (Some script) then
                  after [CallRunCommand check (Some project);
                         CallDownloadFile GET_PIP_URL script]
                    (_install_pip system python script project check w3)
                else
                  (Returns false, w3,
                   [CallRunCommand check (Some project);
                    CallDownloadFile GET_PIP_URL script])
            end
        end
  end.
Proof.
  cbv zeta. unfold _ensure_pip_in_venv, call_run_command. rewrite act_cases.
  destruct (Facade.run_command system _ _ _ _ _ _ _ w) as [[r|e] w1]; [|done].
  destruct (returncode r =? 0)%Z.
  { rewrite stdout_stripped_true. by setup_reduce. }
  rewrite p_bind_eq. unfold _download_get_pip_script. rewrite ask_cases.
  destruct (Facade.get_absolute_path system _ w1) as [[script|e] w2]; [|done].
  unfold call_download_file. rewrite act_cases.
  destruct (Facade.download_file system _ _ _ w2) as [[downloaded|e] w3];
    [|done].
  destruct downloaded.1; cbn [negb andb]; setup_reduce; [|done].
  destruct (truthy (Some script)) eqn:Ht; cbn [negb]; [|done].
  cbn [default]. by destruct (_install_pip _ _ _ _ _ _) as [[? ?] ?].
Qed.

(** The calls of [_install_pip] that follow from the return code of the
    installation command. *)
Lemma install_pip_after_install python script project check w r1 w1 :
  Facade.run_command system [python; script] (Some project) None
    true true false true w = (Returns r1, w1) →
  let y := _install_pip system python script project check w in
  (returncode r1 ≠ 0%Z →
     calls_of y = [CallRunCommand [python; script] (Some project);
                   CallRemoveFile script] ∧
     value_of y ≠ Returns true) ∧
  (returncode r1 = 0%Z →
     calls_of y = [CallRunCommand [python; script] (Some project);
                   CallRunCommand check (Some project);
                   CallRemoveFile script]).
Proof.
  intros E1. cbv zeta. unfold value_of, calls_of.
  destruct (install_pip_run system python script project check w)
    as [-> Htrue].
  revert Htrue. cbv zeta. rewrite install_pip_body_run, E1.
  destruct (returncode r1 =? 0)%Z eqn:Hrc1;
    [apply Z.eqb_eq in Hrc1 | apply Z.eqb_neq in Hrc1].
  - destruct (Facade.run_command system check _ _ _ _ _ _ w1)
      as [[r2|e] w2]; simpl; intros Htrue; (split; [done|]); done.
  - simpl. intros Htrue. split; [|done]. intros _. split; [done|].
    intros Hv. by apply Htrue, failing_not_true in Hv.
Qed.

End ensure.
End PipFacts.
Import PipFacts.

(** X13.  [_ensure_pip_in_venv] first asks the Python of the environment
    for [pip --version], in the project directory.  If that returns 0 it
    does nothing more.  If it returns another code, [get-pip.py] is
    downloaded from the fixed URL to its absolute path in the project
    directory; when the download is reported to have failed the result
    is [False] and nothing more is called; when it succeeded,
    [_install_pip] is run and its result returned: the script is run,
    [pip --version] is asked again if that returned 0, and the script is
    removed.  [True] is returned only after the first check alone or
    after the whole sequence. *)
Theorem ensure_pip_steps {W : Type} (system : Facade.Interface W)
    (project_path venv_python_executable : str) (w : W) :
  let x := _ensure_pip_in_venv system project_path venv_python_executable w in
  let pip_check_cmd :=
    [venv_python_executable; pystr "-m"; pystr "pip"; pystr "--version"] in
  let check := CallRunCommand pip_check_cmd (Some project_path) in
  let run command :=
    Facade.run_command system command (Some project_path) None
      true true false true in
  ∃ script,
    let fetch := CallDownloadFile GET_PIP_URL script in
    let install :=
      CallRunCommand [venv_python_executable; script] (Some project_path) in
    let remove := CallRemoveFile script in
    calls_of x ∈ [ [check]; [check; fetch]; [check; fetch; install; remove];
                   [check; fetch; install; check; remove] ] ∧
    (value_of x = Returns true →
       calls_of x = [check] ∨
       calls_of x = [check; fetch; install; check; remove]) ∧
    (∀ r w1,
       run pip_check_cmd w = (Returns r, w1) →
       (returncode r = 0%Z → calls_of x = [check]) ∧
       (returncode r ≠ 0%Z →
        ∀ path w2,
          Facade.get_absolute_path system
            (path_join project_path GET_PIP_SCRIPT_NAME) w1
            = (Returns path, w2) →
          path = script ∧
          ∀ downloaded w3,
            Facade.download_file system GET_PIP_URL script 30 w2
              = (Returns downloaded, w3) →
            (downloaded.1 && truthy (Some script) = false →
               x = (Returns false, w3, [check; fetch])) ∧
            (downloaded.1 && truthy (Some script) = true →
               let y := _install_pip system venv_python_executable script
                          project_path pip_check_cmd w3 in
               value_of x = value_of y ∧ world_of x = world_of y ∧
               calls_of x = check :: fetch :: calls_of y ∧
               ∀ r1 w4,
                 run [venv_python_executable; script] w3 = (Returns r1, w4) →
                 (returncode r1 ≠ 0%Z →
                    calls_of x = [check; fetch; install; remove] ∧
                    value_of x ≠ Returns true) ∧
                 (returncode r1 = 0%Z →
                    calls_of x = [check; fetch; install; check; remove])))).
Proof.
  cbv zeta. rewrite ensure_pip_run. unfold value_of, world_of, calls_of.
  destruct (Facade.run_command system _ _ _ _ _ _ _ w) as [[r|e] w1] eqn:E1.
  2:{ exists []. simpl. split; [in_list|]. split; [done|]. by intros ? ? [=]. }
  destruct (returncode r =? 0)%Z eqn:Hrc;
    [apply Z.eqb_eq in Hrc | apply Z.eqb_neq in Hrc].
  { exists []. simpl. split; [in_list|]. split; [by left|].
    intros ? ? [= <- <-]. done. }
  destruct (Facade.get_absolute_path system _ w1) as [[script|e] w2] eqn:E2.
  2:{ exists []. simpl. split; [in_list|]. split; [done|].
      intros ? ? [= <- <-]. split; [done|]. intros _ path w2' Hp.
      by rewrite E2 in Hp. }
  exists script.
  destruct (Facade.download_file system _ _ _ w2) as [[downloaded|e] w3] eqn:E3.
  2:{ simpl. split; [in_list|]. split; [done|].
      intros ? ? [= <- <-]. split; [done|]. intros _ path w2' Hp.
      rewrite E2 in Hp. injection Hp as <- <-. split; [done|].
      intros d w3' Hd. by rewrite E3 in Hd. }
  destruct (downloaded.1 && truthy (Some script)) eqn:Hok.
  2:{ cbn [fst snd]. split; [in_list|]. split; [done|].
      intros ? ? [= <- <-]. split; [done|]. intros _ path w2' Hp.
      rewrite E2 in Hp. injection Hp as <- <-. split; [done|].
      intros d w3' Hd. rewrite E3 in Hd. injection Hd as <- <-.
      split; [done|]. intros Hyes. congruence. }
  unfold after. cbn [fst snd].
  pose proof (install_pip_after_install system venv_python_executable script
                project_path
                [venv_python_executable; pystr "-m"; pystr "pip"; pystr "--version"]
                w3) as Hinstall.
  destruct (install_pip_run system venv_python_executable script project_path
              [venv_python_executable; pystr "-m"; pystr "pip"; pystr "--version"]
              w3) as [Hcalls Htrue].
  cbv zeta in Hcalls, Htrue, Hinstall.
  unfold value_of, calls_of in Hinstall.
  rewrite install_pip_body_run in Hcalls, Htrue.
  assert (∀ r1 w4,
            Facade.run_command system [venv_python_executable; script]
              (Some project_path) None true true false true w3
              = (Returns r1, w4) →
            (returncode r1 ≠ 0%Z →
             [CallRunCommand
                [venv_python_executable; pystr "-m"; pystr "pip";
                 pystr "--version"] (Some project_path);
              CallDownloadFile GET_PIP_URL script]
             ++ (_install_pip system venv_python_executable script project_path
                   [venv_python_executable; pystr "-m"; pystr "pip";
                    pystr "--version"] w3).2
             = [CallRunCommand
                  [venv_python_executable; pystr "-m"; pystr "pip";
                   pystr "--version"] (Some project_path);
                CallDownloadFile GET_PIP_URL script;
                CallRunCommand [venv_python_executable; script]
                  (Some project_path);
                CallRemoveFile script] ∧
             (_install_pip system venv_python_executable script project_path
                [venv_python_executable; pystr "-m"; pystr "pip";
                 pystr "--version"] w3).1.1 ≠ Returns true) ∧
            (returncode r1 = 0%Z →
             [CallRunCommand
                [venv_python_executable; pystr "-m"; pystr "pip";
                 pystr "--version"] (Some project_path);
              CallDownloadFile GET_PIP_URL script]
             ++ (_install_pip system venv_python_executable script project_path
                   [venv_python_executable; pystr "-m"; pystr "pip";
                    pystr "--version"] w3).2
             = [CallRunCommand
                  [venv_python_executable; pystr "-m"; pystr "pip";
                   pystr "--version"] (Some project_path);
                CallDownloadFile GET_PIP_URL script;
                CallRunCommand [venv_python_executable; script]
                  (Some project_path);
                CallRunCommand
                  [venv_python_executable; pystr "-m"; pystr "pip";
                   pystr "--version"] (Some project_path);
                CallRemoveFile script])) as Hafter.
  { intros r1 w4 Hrun. destruct (Hinstall r1 w4 Hrun) as [Hbad Hgood]. split.
    - intros Hrc1. destruct (Hbad Hrc1) as [-> Hv]. done.
    - intros Hrc1. by rewrite (Hgood Hrc1). }
  assert (∀ path w2',
            (Returns script, w2) = (Returns path, w2') →
            path = script ∧
            ∀ d w3',
              Facade.download_file system GET_PIP_URL script 30 w2'
                = (Returns d, w3') →
              d = downloaded ∧ w3' = w3) as Hsame.
  { intros ? ? [= <- <-]. split; [done|]. intros d w3' Hd.
    rewrite E3 in Hd. by injection Hd as <- <-. }
  rewrite Hcalls. split; [|split].
  - destruct (Facade.run_command system [_; _] _ _ _ _ _ _ w3) as [[r1|e] w4].
    2:{ simpl. in_list. }
    destruct (returncode r1 =? 0)%Z; [|simpl; in_list].
    destruct (Facade.run_command system _ _ _ _ _ _ _ w4) as [[r2|e] w5];
      simpl; in_list.
  - intros Hv. apply Htrue in Hv.
    destruct (Facade.run_command system [_; _] _ _ _ _ _ _ w3) as [[r1|e] w4];
      [|done].
    destruct (returncode r1 =? 0)%Z; [|by apply failing_not_true in Hv].
    destruct (Facade.run_command system _ _ _ _ _ _ _ w4) as [[r2|e] w5];
      simpl; by right.
  - rewrite <- Hcalls. intros r' w1' [= <- <-]. split; [done|].
    intros _ path w2' Hp. rewrite E2 in Hp.
    destruct (Hsame path w2' Hp) as [-> Hd].
    split; [done|]. intros d w3' Hdl.
    injection Hp as <-. destruct (Hd d w3' Hdl) as [-> ->].
    split; [congruence|]. intros _.
    split; [done|]. split; [done|]. split; [done|]. apply Hafter.
Qed.

(** A project whose environment has no [pip]: the check returns 1, the
    script is downloaded, run and removed, and the second check fails
    as the first did. *)
Lemma ensure_pip_steps_witness :
  let python := pystr "/content/demo/.venv/bin/python3" in
  let script := pystr "/content/demo/get-pip.py" in
  let check :=
    CallRunCommand [python; pystr "-m"; pystr "pip"; pystr "--version"]
      (Some (pystr "/content/demo")) in
  calls_of (_ensure_pip_in_venv
              (Machine.stand_in (Completed 1 (Some []) (Some (pystr "No module named pip"))))
              (pystr "/content/demo") python Machine.with_venv)
  = [check; CallDownloadFile GET_PIP_URL script;
     CallRunCommand [python; script] (Some (pystr "/content/demo"));
     CallRemoveFile script].
Proof.
  cbv zeta.
  destruct (ensure_pip_steps
              (Machine.stand_in
                 (Completed 1 (Some []) (Some (pystr "No module named pip"))))
              (pystr "/content/demo") (pystr "/content/demo/.venv/bin/python3")
              Machine.with_venv) as (script & _ & _ & H).
  cbv zeta in H.
  destruct (H (Completed 1 (Some []) (Some (pystr "No module named pip")))
              Machine.with_venv eq_refl) as [_ H1].
  destruct (H1 ltac:(done) (pystr "/content/demo/get-pip.py")
              Machine.with_venv eq_refl) as [<- H2].
  by vm_compute.
Defined.

Module CandidateFacts.

Lemma starts_with_drop (p s : str) :
  starts_with p s = true → p ++ drop (length p) s = s.
Proof.
  revert s. induction p as [|a p IH]; intros [|b s]; simpl; try done.
  intros [Hab Hp]%andb_true_iff. apply N.eqb_eq in Hab as ->.
  by rewrite IH.
Qed.

Lemma unique_from_elem seen names n :
  n ∈ unique_from seen names ↔ n ∈ names ∧ n ∉ seen.
Proof.
  revert seen. induction names as [|name rest IH]; intros seen; simpl.
  - split; [by intros ?%elem_of_nil | by intros [?%elem_of_nil _]].
  - destruct (decide (name ∈ seen)) as [Hin|Hout].
    + rewrite IH. split.
      * intros [H1 H2]. split; [by apply list_elem_of_further | done].
      * intros [[->|H1]%elem_of_cons H2]; done.
    + rewrite elem_of_cons, IH. split.
      * intros [->|[H1 H2]].
        -- split; [apply list_elem_of_here | done].
        -- split; [by apply list_elem_of_further|].
           intros ?. apply H2, elem_of_union. by right.
      * intros [[->|H1]%elem_of_cons H2]; [by left|].
        destruct (decide (n = name)) as [->|Hne]; [by left|]. right.
        split; [done|]. by intros [?%elem_of_singleton|?]%elem_of_union.
Qed.

Lemma unique_from_NoDup seen names : NoDup (unique_from seen names).
Proof.
  revert seen. induction names as [|name rest IH]; intros seen; simpl.
  - constructor.
  - destruct (decide (name ∈ seen)); [apply IH|].
    constructor; [|apply IH]. rewrite unique_from_elem. intros [_ H].
    apply H, elem_of_union. left. by apply elem_of_singleton.
Qed.

Lemma unique_from_length seen names :
  length (unique_from seen names) ≤ length names.
Proof.
  revert seen. induction names as [|name rest IH]; intros seen; simpl; [done|].
  destruct (decide (name ∈ seen)); simpl.
  - specialize (IH seen). lia.
  - specialize (IH ({[name]} ∪ seen)). lia.
Qed.

Lemma unique_from_fmap (f : str → str) `{!Inj (=) (=) f} seen names :
  unique_from (set_map f seen) (f <$> names) = f <$> unique_from seen names.
Proof.
  revert seen. induction names as [|name rest IH]; intros seen; simpl; [done|].
  destruct (decide (name ∈ seen)) as [Hin|Hout].
  - rewrite decide_True by (apply elem_of_map; eauto). apply IH.
  - rewrite decide_False.
    + simpl. f_equal. rewrite <- IH. f_equal.
      by rewrite set_map_union_L, set_map_singleton_L.
    + intros (y & Hy%(inj f) & Hin)%elem_of_map. by subst.
Qed.

#[global] Instance exe_suffix_inj : Inj (=) (=) (λ name : str, name ++ pystr ".exe").
Proof. intros a b H. by apply app_inv_tail in H. Qed.

Lemma unique_with_exe_suffix windows names :
  unique_from ∅ (with_exe_suffix windows names) =
  with_exe_suffix windows (unique_from ∅ names).
Proof.
  destruct windows; simpl; [|done].
  rewrite <- (unique_from_fmap (λ name, name ++ pystr ".exe")).
  by rewrite set_map_empty.
Qed.

(** The name built from [version_part] is the base name again. *)
Lemma unique_potential_exe_names base :
  unique_from ∅ (potential_exe_names base) =
  unique_from ∅
    (match base with [] => [] | _ :: _ => [base] end
     ++ [pystr "python3"; pystr "python"]).
Proof.
  unfold potential_exe_names. destruct base as [|c base]; [done|].
  destruct (starts_with _ _ && _) eqn:E; [|done].
  apply andb_true_iff in E as [E _]. cbv zeta.
  rewrite (starts_with_drop _ _ E).
  cbn [app unique_from]. rewrite decide_False by apply not_elem_of_empty.
  rewrite decide_True; [done|]. apply elem_of_union. left.
  by apply elem_of_singleton.
Qed.

End CandidateFacts.
Import CandidateFacts.

(** X14.  The names under which [_determine_venv_python_executable]
    looks for the interpreter are the base name of the Python used (if
    not empty), [python3] and [python], in this order and without
    repetition, each with [.exe] appended on Windows.  The candidate the
    code builds from the version part of the base name is always the
    base name itself and never adds to the list. *)
Theorem venv_python_candidates (base_python_executable_name : str)
    (windows : bool) :
  let names :=
    unique_from ∅
      (with_exe_suffix windows
         (potential_exe_names base_python_executable_name)) in
  let plain :=
    match base_python_executable_name with
    | [] => []
    | _ :: _ => [base_python_executable_name]
    end ++ [pystr "python3"; pystr "python"] in
  names = with_exe_suffix windows (unique_from ∅ plain) ∧
  NoDup names ∧
  2 ≤ length names ≤ 3 ∧
  (∀ n, n ∈ names ↔ n ∈ with_exe_suffix windows plain).
Proof.
  cbv zeta.
  assert (E : unique_from ∅
                (with_exe_suffix windows
                   (potential_exe_names base_python_executable_name))
              = with_exe_suffix windows
                  (unique_from ∅
                     (match base_python_executable_name with
                      | [] => []
                      | _ :: _ => [base_python_executable_name]
                      end ++ [pystr "python3"; pystr "python"]))).
  { by rewrite unique_with_exe_suffix, unique_potential_exe_names. }
  split; [done|]. split; [apply unique_from_NoDup|]. split.
  - rewrite E. set (plain := _ ++ _).
    assert (length (with_exe_suffix windows (unique_from ∅ plain))
            = length (unique_from ∅ plain)) as ->.
    { destruct windows; simpl; [by rewrite length_fmap | done]. }
    split.
    + assert (NoDup [pystr "python3"; pystr "python"]) as Hnd.
      { apply NoDup_cons. split; [|apply NoDup_singleton].
        by intros [=]%list_elem_of_singleton. }
      assert ([pystr "python3"; pystr "python"] ⊆ unique_from ∅ plain) as Hsub.
      { intros n Hn. apply unique_from_elem.
        split; [|apply not_elem_of_empty].
        unfold plain. apply elem_of_app. by right. }
      apply (submseteq_length [pystr "python3"; pystr "python"]).
      by apply NoDup_submseteq.
    + etrans; [apply unique_from_length|]. unfold plain.
      destruct base_python_executable_name; simpl; lia.
  - intros n. rewrite E, <- unique_with_exe_suffix, unique_from_elem.
    split; [by intros [? _] | intros ?; split; [done | apply not_elem_of_empty]].
Qed.

Module DetermineFacts.

Section determine.
Context {W : Type} (system : Facade.Interface W).

Lemma first_executable_run (abs : str → str) (executable : str → bool)
    (venv_bin_dir : str) (names : list str) (w : W) :
  (∀ path, Facade.get_absolute_path system path w = (Returns (abs path), w)) →
  (∀ path, Facade.is_executable system path w = (Returns (executable path), w)) →
  first_executable system venv_bin_dir names w =
  (Returns
     (head (filter (λ path, executable path = true)
              ((λ name, abs (path_join venv_bin_dir name)) <$> names))),
   w, []).
Proof.
  intros Habs Hexe. induction names as [|name rest IH]; [done|].
  cbn [first_executable]. rewrite ask_cases, Habs, ask_cases, Hexe.
  rewrite fmap_cons, filter_cons.
  destruct (executable (abs (path_join venv_bin_dir name))) eqn:E.
  - by rewrite decide_True.
  - by rewrite decide_False.
Qed.

End determine.
End DetermineFacts.
Import DetermineFacts.

(** X15.  On a facade whose queries answer without raising or changing
    anything, [_determine_venv_python_executable] returns the first of
    its candidates that is an executable file, or [None] if none is.
    The candidates are looked for in [Scripts] on Windows and in [bin]
    elsewhere, under the base name of the Python used, then [python3],
    then [python]; every path is made absolute before it is tested. *)
Theorem determine_venv_python_first_executable {W : Type}
    (system : Facade.Interface W) (platform : str) (abs : str → str)
    (executable : str → bool) (venv_path base_python_executable_name : str)
    (w : W) :
  Facade.get_platform_system system w = (Returns platform, w) →
  (∀ path, Facade.get_absolute_path system path w = (Returns (abs path), w)) →
  (∀ path, Facade.is_executable system path w = (Returns (executable path), w)) →
  let windows := is_windows platform in
  let venv_bin_dir :=
    abs (path_join venv_path (if windows then pystr "Scripts" else pystr "bin")) in
  let names :=
    with_exe_suffix windows
      (unique_from ∅
         (match base_python_executable_name with
          | [] => []
          | _ :: _ => [base_python_executable_name]
          end ++ [pystr "python3"; pystr "python"])) in
  _determine_venv_python_executable system venv_path
    base_python_executable_name w =
  (Returns
     (head (filter (λ path, executable path = true)
              ((λ name, abs (path_join venv_bin_dir name)) <$> names))),
   w, []).
Proof.
  intros Hplat Habs Hexe. cbv zeta. unfold _determine_venv_python_executable.
  rewrite ask_cases, Hplat, ask_cases, Habs, ask_cases, Hplat.
  rewrite unique_with_exe_suffix, unique_potential_exe_names.
  by apply first_executable_run.
Qed.

(** An environment made by Python 3.11 that holds [python3] and
    [python] but no [python3.11]. *)
Lemma determine_venv_python_first_executable_witness :
  _determine_venv_python_executable (SystemPy.System Machine.os)
    (pystr "/content/demo/.venv") (pystr "python3.11") Machine.with_venv =
  (Returns (Some (pystr "/content/demo/.venv/bin/python3")),
   Machine.with_venv, []).
Proof.
  rewrite (determine_venv_python_first_executable (SystemPy.System Machine.os)
             (pystr "Linux") (λ path, Machine.absolute path Machine.with_venv)
             (λ path, SystemPy.is_executable Machine.os path Machine.with_venv));
    [by vm_compute | done..].
Defined.

Ltac same_outcome :=
  repeat match goal with
         | H1 : ?t = _, H2 : ?t = _ |- _ => rewrite H1 in H2
         end.

Ltac setup_leaf :=
  unfold value_of, calls_of;
  repeat (split_and?; intros; same_outcome; simplify_eq/=);
  try done; eauto; try (by destruct_or?); try (destruct_or?; congruence);
  try (symmetry; by apply Z.eqb_neq); try (symmetry; by apply Z.eqb_eq).

Module GitRepoFacts.

Section git_repo.
Context {W : Type} (system : Facade.Interface W).

Lemma initialize_git_repo_run venv_name w :
  let init := CallRunCommand [pystr "git"; pystr "init"] None in
  _initialize_git_repo system venv_name w =
  match Facade.run_command system [pystr "git"; pystr "init"] None None
          true true false true w with
  | (Raises e, w1) => (Raises e, w1, [init])
  | (Returns r, w1) =>
      if (returncode r =? 0)%Z then
        match Facade.read_package_asset system (pystr "gitignore_template.txt")
                (pystr "utf-8") w1 with
        | (Raises e, w2) => (Raises e, w2, [init])
        | (Returns asset, w2) =>
            if truthy asset.1 && negb (bool_decide (is_Some asset.2)) then
              let content :=
                str_replace (pystr "{{ venv_name }}") venv_name
                  (default [] asset.1) in
              match Facade.write_file system (pystr ".gitignore") content
                      (pystr "w") (Some (pystr "utf-8")) w2 with
              | (Raises e, w3) =>
                  (Raises e, w3, [init; CallWriteFile (pystr ".gitignore") content])
              | (Returns _, w3) =>
                  (Returns true, w3,
                   [init; CallWriteFile (pystr ".gitignore") content])
              end
            else (Returns true, w2, [init])
        end
      else (failing r, w1, [init])
  end.
Proof.
  cbv zeta. unfold _initialize_git_repo, call_run_command. rewrite act_cases.
  destruct (Facade.run_command system _ _ _ _ _ _ _ w) as [[r|e] w1]; [|done].
  destruct (returncode r =? 0)%Z.
  2:{ rewrite err_msg_false. by setup_reduce. }
  rewrite ask_cases.
  destruct (Facade.read_package_asset system _ _ w1) as [[asset|e] w2]; [|done].
  destruct (truthy asset.1 && negb (bool_decide (is_Some asset.2))).
  2:{ rewrite p_ret_bind. by setup_reduce. }
  rewrite p_bind_eq. unfold call_write_file. rewrite act_cases.
  destruct (Facade.write_file system _ _ _ _ w2) as [[rep|e] w3]; by setup_reduce.
Qed.

End git_repo.
End GitRepoFacts.
Import GitRepoFacts.

(** X16.  [_initialize_git_repo] runs [git init] in the current
    directory and its result is that of the command alone: [True] when
    it returns 0, [False] otherwise.  Only after a successful [git init]
    is [.gitignore] written, with the packaged template in which
    [{{ venv_name }}] is replaced by the name of the environment; if the
    template cannot be read, or the file cannot be written, the result
    is [True] all the same. *)
Theorem initialize_git_repo_result {W : Type} (system : Facade.Interface W)
    (venv_name : str) (w : W) :
  let x := _initialize_git_repo system venv_name w in
  let init := CallRunCommand [pystr "git"; pystr "init"] None in
  let gitignore template :=
    CallWriteFile (pystr ".gitignore")
      (str_replace (pystr "{{ venv_name }}") venv_name template) in
  (calls_of x = [init] ∨ ∃ template, calls_of x = [init; gitignore template]) ∧
  (∀ r w1,
     Facade.run_command system [pystr "git"; pystr "init"] None None
       true true false true w = (Returns r, w1) →
     (∀ b, value_of x = Returns b → b = (returncode r =? 0)%Z) ∧
     (returncode r ≠ 0%Z → calls_of x = [init]) ∧
     (returncode r = 0%Z →
      ∀ asset w2,
        Facade.read_package_asset system (pystr "gitignore_template.txt")
          (pystr "utf-8") w1 = (Returns asset, w2) →
        (truthy asset.1 = false ∨ asset.2 ≠ None →
           x = (Returns true, w2, [init])) ∧
        (truthy asset.1 = true → asset.2 = None →
         ∀ rep w3,
           Facade.write_file system (pystr ".gitignore")
             (str_replace (pystr "{{ venv_name }}") venv_name
                (default [] asset.1))
             (pystr "w") (Some (pystr "utf-8")) w2 = (Returns rep, w3) →
           x = (Returns true, w3, [init; gitignore (default [] asset.1)])))).
Proof.
  cbv zeta. rewrite initialize_git_repo_run. unfold value_of, calls_of.
  destruct (Facade.run_command system _ _ _ _ _ _ _ w) as [[r|e] w1] eqn:E1;
    [|setup_leaf].
  destruct (returncode r =? 0)%Z eqn:Hrc.
  2:{ pose proof (failing_not_true r) as Hf. apply Z.eqb_neq in Hrc.
      destruct (failing r) as [[]|]; setup_leaf. }
  apply Z.eqb_eq in Hrc.
  destruct (Facade.read_package_asset system _ _ w1) as [[asset|e] w2] eqn:E2;
    [|setup_leaf].
  destruct (truthy asset.1) eqn:Ht; cbn [andb]; [|setup_leaf].
  destruct asset.2 as [err|] eqn:Herr; cbn [negb].
  { rewrite bool_decide_true by by eexists. cbn [negb]. setup_leaf. }
  rewrite bool_decide_false by by intros [? ?]. cbn [negb]. cbv zeta.
  destruct (Facade.write_file system _ _ _ _ w2) as [[rep|e] w3] eqn:E3;
    setup_leaf.
Qed.

Module VenvFacts.

Section only.
Context {W : Type}.

(** Computations all of whose calls are in the class [C]. *)
Definition only (C : fcall → Prop) {A} (m : Setup W A) : Prop :=
  ∀ w, Forall C (m w).2.

Lemma only_ret C {A} (a : A) : only C (mret a : Setup W A).
Proof. intros w. constructor. Qed.

Lemma only_raise C {A} e : only C (p_raise e : Setup W A).
Proof. intros w. constructor. Qed.

Lemma only_ask C {A} (f : W → outcome A * W) : only C (ask f).
Proof. intros w. unfold ask. destruct (f w). constructor. Qed.

Lemma only_act (C : fcall → Prop) {A} c (f : W → outcome A * W) :
  C c → only C (act c f).
Proof. intros H w. unfold act. destruct (f w). by repeat constructor. Qed.

Lemma only_bind C {A B} (m : Setup W A) (f : A → Setup W B) :
  only C m → (∀ a, only C (f a)) → only C (m ≫= f).
Proof.
  intros Hm Hf w. rewrite p_bind_eq. specialize (Hm w).
  destruct (m w) as [[[a|e] w1] t1]; simpl in *; [|done].
  apply Forall_app. split; [done | apply Hf].
Qed.

Lemma only_try_finally C {A} (m : Setup W A) (f : Setup W unit) :
  only C m → only C f → only C (try_finally m f).
Proof.
  intros Hm Hf w. rewrite try_finally_eq. simpl.
  apply Forall_app. split; [apply Hm | apply Hf].
Qed.

End only.

Ltac only_step :=
  first
    [ apply only_ret
    | apply only_raise
    | apply only_ask
    | apply only_act; done
    | apply only_bind; [|intros ?]
    | apply only_try_finally
    | match goal with
      | |- only _ (if ?b then _ else _) => destruct b
      | |- only _ (match ?x with _ => _ end) => destruct x
      end ].

Section venv.
Context {W : Type} (system : Facade.Interface W).

Lemma first_executable_only C venv_bin_dir names :
  only C (first_executable system venv_bin_dir names).
Proof.
  induction names as [|name rest IH]; cbn [first_executable];
    repeat first [ exact IH | only_step ].
Qed.

Lemma determine_only C venv_path base :
  only C (_determine_venv_python_executable system venv_path base).
Proof.
  unfold _determine_venv_python_executable.
  repeat first [ apply first_executable_only | only_step ].
Qed.

Lemma err_msg_only C r : only C (err_msg (W:=W) r).
Proof. unfold err_msg, stdout_stripped. repeat only_step. Qed.

Lemma stdout_stripped_only C r : only C (stdout_stripped (W:=W) r).
Proof. unfold stdout_stripped. repeat only_step. Qed.

Lemma ensure_pip_only project python :
  only (venv_call project) (_ensure_pip_in_venv system project python).
Proof.
  unfold _ensure_pip_in_venv, _download_get_pip_script, _install_pip,
    install_pip_body, install_pip_cleanup, call_run_command,
    call_download_file, call_remove_file.
  repeat first [ apply err_msg_only | apply stdout_stripped_only | only_step ].
Qed.

Lemma create_virtual_environment_run project python venv_name w :
  let create :=
    CallRunCommand [python; pystr "-m"; pystr "venv"; venv_name] (Some project) in
  _create_virtual_environment system project python venv_name w =
  match Facade.which system python w with
  | (Raises e, w1) => (Raises e, w1, [])
  | (Returns found, w1) =>
      if truthy found then
        match Facade.run_command system
                [python; pystr "-m"; pystr "venv"; venv_name] (Some project)
                None true true false true w1 with
        | (Raises e, w2) => (Raises e, w2, [create])
        | (Returns r, w2) =>
            if (returncode r =? 0)%Z then
              after [create]
                ((venv_path ←
                    ask (Facade.get_absolute_path system
                           (path_join project venv_name));
                  venv_python_exe ←
                    _determine_venv_python_executable system venv_path
                      (basename python);
                  if negb (truthy venv_python_exe) then mret false
                  else
                    pip_ready ←
                      _ensure_pip_in_venv system project
                        (default [] venv_python_exe);
                    if negb pip_ready then mret false else mret true) w2)
            else (failing r, w2, [create])
        end
      else (Returns false, w1, [])
  end.
Proof.
  cbv zeta. unfold _create_virtual_environment. rewrite ask_cases.
  destruct (Facade.which system python w) as [[found|e] w1]; [|done].
  destruct (truthy found); cbn [negb]; [|done].
  unfold call_run_command. rewrite act_cases.
  destruct (Facade.run_command system _ _ _ _ _ _ _ w1) as [[r|e] w2]; [|done].
  destruct (returncode r =? 0)%Z; cbn [negb]; [done|].
  rewrite err_msg_false. by setup_reduce.
Qed.

Lemma create_virtual_environment_only project python venv_name :
  only (venv_call project)
    (_create_virtual_environment system project python venv_name).
Proof.
  unfold _create_virtual_environment, call_run_command.
  repeat first [ apply err_msg_only | apply determine_only
               | apply ensure_pip_only | only_step ].
Qed.

(** The first call of [_ensure_pip_in_venv]. *)
Lemma ensure_pip_first project python w :
  ∃ rest,
    (_ensure_pip_in_venv system project python w).2 =
    CallRunCommand [python; pystr "-m"; pystr "pip"; pystr "--version"]
      (Some project) :: rest.
Proof.
  rewrite ensure_pip_run.
  destruct (Facade.run_command system _ _ _ _ _ _ _ w) as [[r|e] w1]; [|eauto].
  destruct (returncode r =? 0)%Z; [eauto|].
  destruct (Facade.get_absolute_path system _ w1) as [[script|e] w2]; [|eauto].
  destruct (Facade.download_file system _ _ _ w2) as [[downloaded|e] w3];
    [|eauto].
  destruct (downloaded.1 && truthy (Some script)); simpl; eauto.
Qed.

End venv.
End VenvFacts.
Import VenvFacts.

(** X17.  [_create_virtual_environment] does nothing and returns
    [False] when the Python asked for is not on the [PATH].  Otherwise
    its first call is [<python> -m venv <venv_name>]; every command it
    runs is run in the project directory, and besides commands it only
    downloads [get-pip.py] and removes a file: it makes no directory,
    changes no working directory and writes no file.  A non-zero return
    of the creation command ends it there; [True] is returned only
    after at least one more command, the check of [pip] by the Python
    of the environment. *)
Theorem create_virtual_environment_calls {W : Type}
    (system : Facade.Interface W)
    (project_path python_executable venv_name : str) (w : W) :
  let x := _create_virtual_environment system project_path python_executable
             venv_name w in
  let venv_cmd :=
    [python_executable; pystr "-m"; pystr "venv"; venv_name] in
  let create := CallRunCommand venv_cmd (Some project_path) in
  Forall (venv_call project_path) (calls_of x) ∧
  (calls_of x = [] ∨ ∃ rest, calls_of x = create :: rest) ∧
  (value_of x = Returns true →
     ∃ venv_python rest,
       calls_of x =
         create ::
         CallRunCommand [venv_python; pystr "-m"; pystr "pip"; pystr "--version"]
           (Some project_path) :: rest) ∧
  (∀ found w1,
     Facade.which system python_executable w = (Returns found, w1) →
     (truthy found = false → x = (Returns false, w1, [])) ∧
     (truthy found = true →
      ∀ r w2,
        Facade.run_command system venv_cmd (Some project_path) None
          true true false true w1 = (Returns r, w2) →
        returncode r ≠ 0%Z →
        calls_of x = [create] ∧ value_of x ≠ Returns true)).
Proof.
  cbv zeta. split; [apply create_virtual_environment_only|].
  rewrite create_virtual_environment_run. unfold value_of, calls_of.
  destruct (Facade.which system python_executable w) as [[found|e] w1] eqn:E1;
    [|setup_leaf].
  destruct (truthy found) eqn:Ht; [|setup_leaf].
  destruct (Facade.run_command system _ _ _ _ _ _ _ w1) as [[r|e] w2] eqn:E2;
    [|setup_leaf].
  destruct (returncode r =? 0)%Z eqn:Hrc.
  2:{ pose proof (failing_not_true r) as Hf. apply Z.eqb_neq in Hrc.
      destruct (failing r) as [[]|]; setup_leaf. }
  apply Z.eqb_eq in Hrc. unfold after. cbn [fst snd app].
  split; [right; eauto|]. split; [|setup_leaf].
  rewrite ask_cases.
  destruct (Facade.get_absolute_path system _ w2) as [[venv_path|e] w3];
    [|done].
  rewrite p_bind_eq.
  pose proof (determine_only system (λ _, False) venv_path
                (basename python_executable) w3) as Hnone.
  destruct (_determine_venv_python_executable system venv_path _ w3)
    as [[[exe|e] w4] t]; simpl in Hnone; [|done].
  destruct t as [|c t]; [|by apply Forall_cons in Hnone as [[] _]].
  destruct (truthy exe); cbn [negb]; [|done].
  rewrite p_bind_eq.
  destruct (ensure_pip_first system project_path (default [] exe) w4)
    as [rest Hrest].
  destruct (_ensure_pip_in_venv system project_path (default [] exe) w4)
    as [[[ready|e] w5] t]; simpl in Hrest; subst t; [|done].
  destruct ready; setup_reduce; [|done]. intros _.
  exists (default [] exe). simpl. eauto.
Qed.

Module ProjectFacts.

Section project.
Context {W : Type} (system : Facade.Interface W).

Lemma restore_cwd_calls original_cwd w :
  (_restore_cwd system original_cwd w).2 = [] ∨
  (_restore_cwd system original_cwd w).2 = [CallChangeCwd original_cwd].
Proof.
  unfold _restore_cwd. rewrite ask_cases.
  destruct (Facade.get_cwd system w) as [[current|e] w1]; [|by left].
  destruct (bool_decide (current ≠ original_cwd)); [|by left].
  unfold call_change_cwd. rewrite act_cases.
  destruct (Facade.change_cwd system original_cwd w1) as [[rep|e] w2]; by right.
Qed.

(** The guarded part of [setup_project_directory] and its handler. *)
Definition guarded_setup (project_path python_executable venv_name : str)
    : Setup W (option str) :=
  p_try_except (setup_body system project_path python_executable venv_name)
    (λ _, mret None).

Lemma setup_project_directory_run name base python venv w ab w1 p w2 c0 w3 :
  Facade.get_absolute_path system base w = (Returns ab, w1) →
  Facade.get_absolute_path system (path_join ab name) w1 = (Returns p, w2) →
  Facade.get_cwd system w2 = (Returns c0, w3) →
  setup_project_directory system name base python venv w =
  try_finally (guarded_setup p python venv) (_restore_cwd system c0) w3.
Proof.
  intros H1 H2 H3. unfold setup_project_directory.
  by rewrite ask_cases, H1, ask_cases, H2, ask_cases, H3.
Qed.

Lemma guarded_setup_returns p python venv w :
  ∃ v, (guarded_setup p python venv w).1.1 = Returns v ∧ (v = None ∨ v = Some p).
Proof.
  unfold guarded_setup. rewrite p_try_except_eq.
  assert (∀ v, (setup_body system p python venv w).1.1 = Returns v →
               v = None ∨ v = Some p) as Hv.
  { unfold setup_body. rewrite ask_cases.
    destruct (Facade.path_exists system p w) as [[present|e] w1]; [|done].
    destruct present; [by intros v [= <-]; right|].
    unfold call_make_dirs. rewrite act_cases.
    destruct (Facade.make_dirs system p true w1) as [[made|e] w2]; [|done].
    destruct (negb made.1); [by intros v [= <-]; left|].
    unfold after. cbn [fst snd]. unfold call_change_cwd. rewrite act_cases.
    destruct (Facade.change_cwd system p w2) as [[moved|e] w3]; [|done].
    unfold after. cbn [fst snd]. rewrite p_bind_eq.
    destruct (_initialize_git_repo system venv w3) as [[[git_ready|e] w4] t];
      [|done].
    destruct (negb git_ready); [by intros v [= <-]; right|].
    unfold after. cbn [fst snd]. rewrite p_bind_eq.
    destruct (_create_virtual_environment system p python venv w4)
      as [[[?|e] w5] t']; [|done].
    by intros v [= <-]; right. }
  destruct (setup_body system p python venv w) as [[[v|e] w1] t]; simpl in *.
  - exists v. auto.
  - exists None. auto.
Qed.

End project.
End ProjectFacts.
Import ProjectFacts.

(** X18.  [setup_project_directory] leaves the working directory where
    it found it.  On a facade whose [get_cwd] reads the working
    directory, whose [change_cwd] moves to the path given when it
    reports success, and whose [get_absolute_path] does not move: after
    any run (the project made, found, half made, or an exception) the
    working directory is the original one, unless the last call of the
    run was the attempt to go back to it. *)
Theorem setup_project_directory_restores_cwd {W : Type}
    (system : Facade.Interface W) (cwd : W → str)
    (project_name base_path python_executable venv_name : str) (w : W) :
  (∀ w, Facade.get_cwd system w = (Returns (cwd w), w)) →
  (∀ path w rep w',
     Facade.change_cwd system path w = (Returns rep, w') →
     rep.1 = true → cwd w' = path) →
  (∀ path w, cwd (Facade.get_absolute_path system path w).2 = cwd w) →
  let x := setup_project_directory system project_name base_path
             python_executable venv_name w in
  cwd (world_of x) = cwd w ∨
  ∃ before, calls_of x = before ++ [CallChangeCwd (cwd w)].
Proof.
  intros Hget Hchg Habs. cbv zeta. unfold world_of, calls_of.
  pose proof (Habs base_path w) as Hc1.
  destruct (Facade.get_absolute_path system base_path w) as [[ab|e] w1] eqn:E1.
  2:{ left. unfold setup_project_directory. by rewrite ask_cases, E1. }
  pose proof (Habs (path_join ab project_name) w1) as Hc2.
  destruct (Facade.get_absolute_path system (path_join ab project_name) w1)
    as [[p|e] w2] eqn:E2.
  2:{ left. unfold setup_project_directory.
      rewrite ask_cases, E1, ask_cases, E2. simpl in *. congruence. }
  simpl in Hc1, Hc2.
  rewrite (setup_project_directory_run system _ _ _ _ _ _ _ _ _ _ _
             E1 E2 (Hget w2)).
  rewrite try_finally_eq. cbn [fst snd].
  set (w' := (guarded_setup system p python_executable venv_name w2).1.2).
  set (t := (guarded_setup system p python_executable venv_name w2).2).
  assert (cwd w2 = cwd w) as Hw2 by congruence. rewrite Hw2.
  unfold _restore_cwd. rewrite ask_cases, Hget.
  destruct (bool_decide (cwd w' ≠ cwd w)) eqn:Hd.
  - unfold call_change_cwd. rewrite act_cases.
    destruct (Facade.change_cwd system (cwd w) w') as [[rep|e] w''] eqn:E3.
    + destruct rep.1 eqn:Hrep.
      * left. simpl. eauto.
      * right. exists t. done.
    + right. by exists t.
  - left. apply bool_decide_eq_false in Hd. simpl.
    by destruct (decide (cwd w' = cwd w)).
Qed.

(** A new project on the notebook machine. *)
Lemma setup_project_directory_restores_cwd_witness :
  let x := setup_project_directory (SystemPy.System Machine.os)
             (pystr "demo") (pystr ".") (pystr "python3") (pystr ".venv")
             Machine.fresh in
  Machine.cwd (world_of x) = pystr "/content" ∧
  Machine.has_dir (pystr "/content/demo") (world_of x) = true.
Proof.
  cbv zeta. split; [|by vm_compute].
  destruct (setup_project_directory_restores_cwd (SystemPy.System Machine.os)
              Machine.cwd (pystr "demo") (pystr ".") (pystr "python3")
              (pystr ".venv") Machine.fresh) as [H|[before H]].
  - done.
  - intros path m rep m'. simpl. unfold SystemPy.change_cwd. simpl.
    destruct (Machine.has_dir path m); simpl.
    + by intros [= <- <-].
    + by intros [= <- <-].
  - done.
  - exact H.
  - by vm_compute.
Defined.

(** X19.  What [setup_project_directory] returns.  The project path is
    the absolute path of the project name joined to the absolute base
    path.  The function returns that path or [None], and an exception
    leaves it only from the restoring of the working directory: whatever
    is raised while the project is made is caught and gives [None].  A
    path that exists already is returned as it is, with nothing made or
    run; if the directory cannot be made the result is [None] and
    nothing more is attempted. *)
Theorem setup_project_directory_result {W : Type}
    (system : Facade.Interface W)
    (project_name base_path python_executable venv_name : str)
    (w w1 w2 w3 : W) (abs_base_path project_path original_cwd : str) :
  Facade.get_absolute_path system base_path w = (Returns abs_base_path, w1) →
  Facade.get_absolute_path system (path_join abs_base_path project_name) w1
    = (Returns project_path, w2) →
  Facade.get_cwd system w2 = (Returns original_cwd, w3) →
  let x := setup_project_directory system project_name base_path
             python_executable venv_name w in
  let restore := CallChangeCwd original_cwd in
  (value_of x = Returns None ∨ value_of x = Returns (Some project_path) ∨
   ∃ e w', value_of x = Raises e ∧
           value_of (_restore_cwd system original_cwd w') = Raises e) ∧
  (∀ w4,
     Facade.path_exists system project_path w3 = (Returns true, w4) →
     value_of x ≠ Returns None ∧
     (calls_of x = [] ∨ calls_of x = [restore])) ∧
  (∀ w4 made w5,
     Facade.path_exists system project_path w3 = (Returns false, w4) →
     Facade.make_dirs system project_path true w4 = (Returns made, w5) →
     made.1 = false →
     value_of x ≠ Returns (Some project_path) ∧
     (calls_of x = [CallMakeDirs project_path] ∨
      calls_of x = [CallMakeDirs project_path; restore])).
Proof.
  intros H1 H2 H3. cbv zeta.
  rewrite (setup_project_directory_run system _ _ _ _ _ _ _ _ _ _ _ H1 H2 H3).
  rewrite try_finally_eq. unfold value_of, calls_of. cbn [fst snd].
  set (g := guarded_setup system project_path python_executable venv_name w3).
  pose proof (restore_cwd_calls system original_cwd g.1.2) as Hcalls.
  split; [|split].
  - destruct (guarded_setup_returns system project_path python_executable
                venv_name w3) as (v & Hv & Hcases). fold g in Hv.
    destruct (_restore_cwd system original_cwd g.1.2).1.1 as [[]|e] eqn:Hr.
    + rewrite Hv. destruct Hcases as [-> | ->]; auto.
    + right. right. exists e, g.1.2. done.
  - intros w4 Hex.
    assert (g = (Returns (Some project_path), w4, [])) as ->.
    { unfold g, guarded_setup. rewrite p_try_except_eq. unfold setup_body.
      by rewrite ask_cases, Hex. }
    simpl in *. split; [by destruct (_restore_cwd _ _ _).1.1|].
    destruct Hcalls as [-> | ->]; auto.
  - intros w4 made w5 Hex Hmk Hmade.
    assert (g = (Returns None, w5, [CallMakeDirs project_path])) as ->.
    { unfold g, guarded_setup. rewrite p_try_except_eq. unfold setup_body.
      rewrite ask_cases, Hex. unfold call_make_dirs.
      by rewrite act_cases, Hmk, Hmade. }
    simpl in *. split; [by destruct (_restore_cwd _ _ _).1.1|].
    destruct Hcalls as [-> | ->]; auto.
Qed.

(** The project [demo] is there already. *)
Lemma setup_project_directory_result_witness :
  let x := setup_project_directory (SystemPy.System Machine.os)
             (pystr "demo") (pystr ".") (pystr "python3") (pystr ".venv")
             Machine.with_venv in
  value_of x ≠ Returns None ∧
  (calls_of x = [] ∨ calls_of x = [CallChangeCwd (pystr "/content")]).
Proof.
  cbv zeta.
  destruct (setup_project_directory_result (SystemPy.System Machine.os)
              (pystr "demo") (pystr ".") (pystr "python3") (pystr ".venv")
              Machine.with_venv Machine.with_venv Machine.with_venv
              Machine.with_venv (pystr "/content") (pystr "/content/demo")
              (pystr "/content") eq_refl eq_refl eq_refl) as (_ & H & _).
  exact (H Machine.with_venv eq_refl).
Defined.

(** X20.  [setup_project_directory] does not look at what [change_cwd]
    reports: once the directory is made, [git init] is run (without a
    working directory of its own) whether or not the move into the
    project succeeded.  And a failed [git init] still gives the project
    path as the result, with the environment not created. *)
Theorem setup_project_directory_partial {W : Type}
    (system : Facade.Interface W)
    (project_name base_path python_executable venv_name : str)
    (w w1 w2 w3 w4 w5 w6 w7 : W)
    (abs_base_path project_path original_cwd : str)
    (made moved : report bool) (r : completed) :
  Facade.get_absolute_path system base_path w = (Returns abs_base_path, w1) →
  Facade.get_absolute_path system (path_join abs_base_path project_name) w1
    = (Returns project_path, w2) →
  Facade.get_cwd system w2 = (Returns original_cwd, w3) →
  Facade.path_exists system project_path w3 = (Returns false, w4) →
  Facade.make_dirs system project_path true w4 = (Returns made, w5) →
  made.1 = true →
  Facade.change_cwd system project_path w5 = (Returns moved, w6) →
  Facade.run_command system [pystr "git"; pystr "init"] None None
    true true false true w6 = (Returns r, w7) →
  returncode r ≠ 0%Z →
  let x := setup_project_directory system project_name base_path
             python_executable venv_name w in
  let steps :=
    [CallMakeDirs project_path; CallChangeCwd project_path;
     CallRunCommand [pystr "git"; pystr "init"] None] in
  (calls_of x = steps ∨ calls_of x = steps ++ [CallChangeCwd original_cwd]) ∧
  (value_of x = Returns (Some project_path) ∨ value_of x = Returns None ∨
   ∃ e, value_of x = Raises e) ∧
  (∀ message, stderr r = Some message → blank message = false →
     value_of x = Returns (Some project_path) ∨ ∃ e, value_of x = Raises e).
Proof.
  intros H1 H2 H3 Hex Hmk Hmade Hcd Hgit Hrc. cbv zeta.
  rewrite (setup_project_directory_run system _ _ _ _ _ _ _ _ _ _ _ H1 H2 H3).
  rewrite try_finally_eq. unfold value_of, calls_of. cbn [fst snd].
  set (g := guarded_setup system project_path python_executable venv_name w3).
  assert (g = (match failing r with
               | Returns _ => Returns (Some project_path)
               | Raises _ => Returns None
               end, w7,
               [CallMakeDirs project_path; CallChangeCwd project_path;
                CallRunCommand [pystr "git"; pystr "init"] None])) as ->.
  { unfold g, guarded_setup. rewrite p_try_except_eq. unfold setup_body.
    rewrite ask_cases, Hex. unfold call_make_dirs.
    rewrite act_cases, Hmk, Hmade. cbn [negb]. unfold call_change_cwd.
    rewrite act_cases, Hcd, p_bind_eq, initialize_git_repo_run, Hgit.
    apply Z.eqb_neq in Hrc. rewrite Hrc.
    pose proof (failing_not_true r) as Hf.
    destruct (failing r) as [[]|e]; [done | by setup_reduce | by setup_reduce]. }
  pose proof (restore_cwd_calls system original_cwd w7) as Hcalls.
  cbn [fst snd]. split; [|split].
  - destruct Hcalls as [-> | ->]; auto.
  - destruct (_restore_cwd system original_cwd w7).1.1 as [[]|e]; [|eauto].
    destruct (failing r); auto.
  - intros message Hmsg Hblank.
    destruct (_restore_cwd system original_cwd w7).1.1 as [[]|e]; [|eauto].
    left. unfold failing. by rewrite Hmsg, Hblank.
Qed.

(** A stand-in facade on which [git] fails. *)
Lemma setup_project_directory_partial_witness :
  let x := setup_project_directory (Machine.stand_in Machine.git_fails)
             (pystr "demo") (pystr ".") (pystr "python3") (pystr ".venv")
             Machine.fresh in
  value_of x = Returns (Some (pystr "/content/demo")) ∧
  calls_of x =
    [CallMakeDirs (pystr "/content/demo"); CallChangeCwd (pystr "/content/demo");
     CallRunCommand [pystr "git"; pystr "init"] None;
     CallChangeCwd (pystr "/content")].
Proof.
  cbv zeta.
  pose (m1 := Machine.Mk (pystr "/content")
                [pystr "/content/demo"; pystr "/content"] []).
  pose (m2 := Machine.Mk (pystr "/content/demo")
                [pystr "/content/demo"; pystr "/content"] []).
  destruct (setup_project_directory_partial
              (Machine.stand_in Machine.git_fails)
              (pystr "demo") (pystr ".") (pystr "python3") (pystr ".venv")
              Machine.fresh Machine.fresh Machine.fresh Machine.fresh
              Machine.fresh m1 m2 m2
              (pystr "/content") (pystr "/content/demo") (pystr "/content")
              (true, None) (true, None) Machine.git_fails
              eq_refl eq_refl eq_refl eq_refl eq_refl eq_refl eq_refl eq_refl
              ltac:(done))
    as (Hcalls & _ & H).
  split.
  - destruct (H (pystr "fatal: unable to run") eq_refl eq_refl) as [Hv|[e He]];
      [exact Hv | by vm_compute in He].
  - destruct Hcalls as [Hc|Hc]; [by vm_compute in Hc | exact Hc].
Defined.

Module ProjectOnSystemFacts.

Section project_on_system.
Context {W : Type} (os : SystemPy.OS W).
Hypothesis refuses : SystemPy.refuses_capture_with_streams os.

Lemma initialize_git_repo_on_System venv_name w :
  _initialize_git_repo (SystemPy.System os) venv_name w =
  (Raises Exc.ValueError, w, [CallRunCommand [pystr "git"; pystr "init"] None]).
Proof.
  rewrite initialize_git_repo_run.
  change (Facade.run_command (SystemPy.System os))
    with (SystemPy.run_command os).
  by rewrite run_command_refused.
Qed.

Lemma change_cwd_returns path w :
  ∃ rep w', SystemPy.change_cwd os path w = (Returns rep, w').
Proof.
  unfold SystemPy.change_cwd.
  destruct (SystemPy.os_chdir os path w) as [[[]|e] w']; [eauto|].
  destruct e; simpl; eauto.
Qed.

(** The guarded part of [setup_project_directory] on this facade. *)
Lemma guarded_setup_on_System p python venv w :
  let g := guarded_setup (SystemPy.System os) p python venv w in
  (g.1.1 = Returns (Some p) ∧ g.2 = []) ∨
  (g.1.1 = Returns None ∧
   (g.2 = [CallMakeDirs p] ∨
    g.2 = [CallMakeDirs p; CallChangeCwd p;
           CallRunCommand [pystr "git"; pystr "init"] None])).
Proof.
  cbv zeta. unfold guarded_setup. rewrite p_try_except_eq. unfold setup_body.
  rewrite ask_cases.
  change (Facade.path_exists (SystemPy.System os) p w)
    with (Returns (SystemPy.path_exists os p w), w).
  cbv iota beta. destruct (SystemPy.path_exists os p w); [by left|]. right.
  unfold call_make_dirs. rewrite act_cases.
  destruct (Facade.make_dirs (SystemPy.System os) p true w)
    as [[made|e] w1]; [|setup_reduce; simpl; auto].
  destruct made.1; cbn [negb]; [|setup_reduce; simpl; auto].
  unfold call_change_cwd. rewrite act_cases.
  change (Facade.change_cwd (SystemPy.System os) p w1)
    with (SystemPy.change_cwd os p w1).
  destruct (change_cwd_returns p w1) as (moved & w2 & ->).
  rewrite p_bind_eq, initialize_git_repo_on_System. setup_reduce. simpl. auto.
Qed.

End project_on_system.
End ProjectOnSystemFacts.
Import ProjectOnSystemFacts.

(** X21.  With [System] itself as the facade,
    [setup_project_directory] never sets up a new project.  It returns a
    path only for a project directory that exists already, having made
    nothing.  For a new project it makes the directory and moves into
    it; then [git init] goes through
    [run_command(..., capture_output=True)], which the library refuses,
    the [ValueError] is caught, and the result is [None]: no repository,
    no [.gitignore], no environment, and the empty directory left
    behind. *)
Theorem setup_project_directory_on_System {W : Type} (os : SystemPy.OS W)
    (project_name base_path python_executable venv_name : str) (w : W) :
  SystemPy.refuses_capture_with_streams os →
  let x := setup_project_directory (SystemPy.System os) project_name base_path
             python_executable venv_name w in
  let is_restore c := ∃ original_cwd, c = CallChangeCwd original_cwd in
  (∀ p, value_of x = Returns (Some p) → Forall is_restore (calls_of x)) ∧
  (∀ p, CallMakeDirs p ∈ calls_of x →
     (value_of x = Returns None ∨ ∃ e, value_of x = Raises e) ∧
     ∃ restore,
       Forall is_restore restore ∧
       (calls_of x = CallMakeDirs p :: restore ∨
        calls_of x =
          [CallMakeDirs p; CallChangeCwd p;
           CallRunCommand [pystr "git"; pystr "init"] None] ++ restore)).
Proof.
  intros Hos. cbv zeta. unfold value_of, calls_of.
  unfold setup_project_directory. rewrite ask_cases.
  destruct (Facade.get_absolute_path (SystemPy.System os) base_path w)
    as [[ab|e] w1]; [|split; [done | by intros p ?%elem_of_nil]].
  rewrite ask_cases.
  destruct (Facade.get_absolute_path (SystemPy.System os) _ w1)
    as [[p|e] w2]; [|split; [done | by intros ? ?%elem_of_nil]].
  rewrite ask_cases.
  destruct (Facade.get_cwd (SystemPy.System os) w2)
    as [[c0|e] w3]; [|split; [done | by intros ? ?%elem_of_nil]].
  rewrite try_finally_eq. cbn [fst snd].
  fold (guarded_setup (SystemPy.System os) p python_executable venv_name).
  set (g := guarded_setup (SystemPy.System os) p python_executable venv_name w3).
  assert (∃ restore, (_restore_cwd (SystemPy.System os) c0 g.1.2).2 = restore ∧
                     Forall (λ c, ∃ original_cwd, c = CallChangeCwd original_cwd)
                       restore) as (restore & -> & Hrestore).
  { eexists. split; [done|].
    destruct (restore_cwd_calls (SystemPy.System os) c0 g.1.2) as [-> | ->];
      repeat constructor. by eexists. }
  assert (∀ q, CallMakeDirs q ∉ restore) as Hnot.
  { intros q Hin. rewrite Forall_forall in Hrestore.
    by destruct (Hrestore _ Hin) as [? [=]]. }
  destruct (guarded_setup_on_System os Hos p python_executable venv_name w3)
    as [[Hv Hc]|[Hv [Hc|Hc]]]; fold g in Hv, Hc; rewrite Hv, Hc.
  - split; [done|]. intros q Hin. by apply Hnot in Hin.
  - split.
    { intros q. by destruct (_restore_cwd _ _ _).1.1. }
    intros q [->%list_elem_of_singleton|Hin%Hnot]%elem_of_app; [|done].
    split; [destruct (_restore_cwd _ _ _).1.1; eauto|].
    exists restore. auto.
  - split.
    { intros q. by destruct (_restore_cwd _ _ _).1.1. }
    intros q [Hin|Hin%Hnot]%elem_of_app; [|done].
    apply elem_of_cons in Hin as [[= ->]|Hin]; [|exfalso; not_in Hin].
    split; [destruct (_restore_cwd _ _ _).1.1; eauto|].
    exists restore. auto.
Qed.

(** A new project on the notebook machine. *)
Lemma setup_project_directory_on_System_witness :
  let x := setup_project_directory (SystemPy.System Machine.os)
             (pystr "demo") (pystr ".") (pystr "python3") (pystr ".venv")
             Machine.fresh in
  value_of x = Returns None ∧
  calls_of x =
    [CallMakeDirs (pystr "/content/demo"); CallChangeCwd (pystr "/content/demo");
     CallRunCommand [pystr "git"; pystr "init"] None;
     CallChangeCwd (pystr "/content")].
Proof.
  cbv zeta.
  destruct (setup_project_directory_on_System Machine.os
              (pystr "demo") (pystr ".") (pystr "python3") (pystr ".venv")
              Machine.fresh machine_refuses) as [_ H].
  destruct (H (pystr "/content/demo")) as [[Hv|[e He]] _].
  - vm_compute. apply list_elem_of_here.
  - split; [exact Hv | by vm_compute].
  - by vm_compute in He.
Defined.
